(** * EdTech chat client: the attachment pipeline of [src/index.tsx]

    A shallow embedding of the attachment handling of the single page chat
    client: the two module level registries [attachedFiles] and
    [attachedDocs], the pills rendered from them, the asynchronous file
    selection handler with its per page PDF loop, the remove action, "new
    chat" and the composition of the outgoing message.

    The source is event driven JavaScript.  Every [await] of the source is a
    suspension point of the model: the suspended handler is kept in the state
    as a frame (its captured variables and the awaited call), and the event
    that settles the awaited promise resumes it.  Between two resumptions any
    other event may be dispatched.  Objects that the source shares by
    reference (document objects, abort controllers, DOM elements) live in
    heaps and are named by their address.

    Numbers: a percentage is a JavaScript double; it is computed here with
    the binary64 operations of [PrimFloat] and kept as the exact rational
    value of the result.  Strings are the UTF-8 encodings of the JavaScript
    strings (a string with a lone surrogate has none and is not covered).
    A file name is written into a document pill as HTML (line 392): the
    children of the pill are modelled when the name is plain text, and left
    opaque when it holds markup; elements that such markup creates inside a
    pill are not looked at.  The chat bubbles, the persisted history and the
    streamed answer are not part of the model; a call that touches them can
    fail, and the failure is an outcome of the step that makes the call.

    Two smaller parts of the page follow the pipeline: the start of the
    application with the session kept in [localStorage] (login, the two
    screens, the creation of the client), and the text export, which is a
    function of the history it is given. *)

From Stdlib Require Import String Ascii List ZArith QArith Qminmax Qabs Bool Lia Lqa.
From Stdlib Require Import DecimalString DecimalPos DecimalZ Uint63 Floats.
From stdpp Require Import base list strings sorting gmap.
Import ListNotations.
Open Scope string_scope.
Open Scope nat_scope.
Open Scope list_scope.

(** ** Strings *)

Definition nl : string := String "010"%char EmptyString.
Definition dquote : string := String "034"%char EmptyString.

(** Template literal conversion of an integer: [`${n}`]. *)
Definition dec (z : Z) : string := NilZero.string_of_int (Z.to_int z).
Definition dec_nat (n : nat) : string := dec (Z.of_nat n).

(** [s.startsWith(p)]. *)
Definition startsWith (s p : string) : bool := String.prefix p s.

(** [xs.join(sep)]; an [undefined] element is rendered as the empty string. *)
Fixpoint join (sep : string) (xs : list (option string)) : string :=
  match xs with
  | [] => EmptyString
  | [x] => default EmptyString x
  | x :: rest => default EmptyString x +:+ sep +:+ join sep rest
  end.

(** [s.split(c)] for a one character separator. *)
Fixpoint split (c : ascii) (s : string) : list string :=
  match s with
  | EmptyString => [EmptyString]
  | String a rest =>
      if Ascii.eqb a c then EmptyString :: split c rest
      else match split c rest with
           | [] => [String a EmptyString]
           | w :: ws => String a w :: ws
           end
  end.

(** The string with the given bytes. *)
Definition utf8 (bytes : list nat) : string :=
  string_of_list_ascii (map ascii_of_nat bytes).

(** The characters [trim] removes: the white space and the line terminators
    of ECMAScript, each in its UTF-8 encoding. *)
Definition white_space : list string :=
  map utf8
    [ [9]; [10]; [11]; [12]; [13]; [32];          (* U+0009 .. U+000D, U+0020 *)
      [194; 160];                                  (* U+00A0 *)
      [225; 154; 128];                             (* U+1680 *)
      [226; 128; 128]; [226; 128; 129]; [226; 128; 130]; [226; 128; 131];
      [226; 128; 132]; [226; 128; 133]; [226; 128; 134]; [226; 128; 135];
      [226; 128; 136]; [226; 128; 137]; [226; 128; 138];   (* U+2000 .. U+200A *)
      [226; 128; 168]; [226; 128; 169];            (* U+2028, U+2029 *)
      [226; 128; 175];                             (* U+202F *)
      [226; 129; 159];                             (* U+205F *)
      [227; 128; 128];                             (* U+3000 *)
      [239; 187; 191] ].                           (* U+FEFF *)

(** [s] starts with [w]. *)
Fixpoint begins (w s : string) : bool :=
  match w, s with
  | EmptyString, _ => true
  | String a w', String b s' => Ascii.eqb a b && begins w' s'
  | String _ _, EmptyString => false
  end.

(** The white space character [s] starts with, if it does. *)
Definition leading_space (s : string) : option string :=
  List.find (fun w => begins w s) white_space.

(** [s.trimStart()]; [inside] counts the bytes still to pass of the white
    space character the scan is in. *)
Fixpoint trim_start_from (inside : nat) (s : string) : string :=
  match s with
  | EmptyString => EmptyString
  | String _ rest =>
      match inside with
      | S k => trim_start_from k rest
      | 0 => match leading_space s with
             | Some w => trim_start_from (String.length w - 1) rest
             | None => s
             end
      end
  end.

Definition trim_start (s : string) : string := trim_start_from 0 s.

(** Nothing but white space. *)
Definition all_space (s : string) : bool := String.eqb (trim_start s) EmptyString.

(** [s.trimEnd()]: the string is cut where nothing but white space follows. *)
Fixpoint trim_end (s : string) : string :=
  match s with
  | EmptyString => EmptyString
  | String a rest => if all_space s then EmptyString else String a (trim_end rest)
  end.

Definition trim (s : string) : string := trim_end (trim_start s).

(** ** Numbers *)

(** The double of a page number (exact: page numbers are far below 2^53). *)
Definition number (n : nat) : float := PrimFloat.of_uint63 (Uint63.of_Z (Z.of_nat n)).

(** The exact value of a finite double. *)
Definition value (x : float) : Q :=
  match Prim2SF x with
  | S754_finite s m e =>
      let v := (inject_Z (Z.pos m) * 2 ^ e)%Q in
      Qred (if s then (- v)%Q else v)
  | _ => 0%Q
  end.

(** ** Data model (lines 15-39) *)

(** Addresses of heap objects. *)
Abbreviation addr := nat (only parsing).

Record AttachedFile := {
  f_id : string;
  f_name : string;
  base64 : option string;
  mimeType : string;
  sourceUrl : string
}.

Record AttachedDocument := {
  d_id : string;
  d_name : string;
  textContent : string;
  summary : option string;
  abortController : option addr
}.

(** What the handler reads of a selected [File]. *)
Record File := {
  file_name : string;
  file_type : string
}.

(** A content part of the outgoing message. *)
Inductive Part :=
| InlineData (mime : string) (data : option string)
| TextPart (text : string).

(** ** The rendered attachment list *)

Inductive PillKind := ImagePill | DocPill.

(** What a pill holds beside its remove button.  An image pill holds the
    thumbnail.  A document pill holds what the HTML parser makes of the
    template of lines 386-395 with the file name put in: when the name is
    plain text, the [.file-name] span with its text [label] and the
    [.progress-bar], which has the class [hidden] or not and whose inner
    [div] has a width (in percent) once one is set; when the name holds
    markup, a tree this model does not look into. *)
Inductive Inner :=
| Thumbnail
| Details (label : string) (bar_hidden : bool) (bar_width : option Q)
| Unparsed (name : string).

(** One [div.attachment-pill]. *)
Record Pill := {
  pill_id : string;
  pill_kind : PillKind;
  cls_processing : bool;
  cls_error : bool;
  inner : Inner
}.

(** ** Asynchrony *)

(** The value a promise awaited by [handleFileSelected] resolves to. *)
Inductive Value :=
| VText (s : string)                          (* file.text() *)
| VArrayBuffer                                (* file.arrayBuffer() *)
| VPdf (numPages : nat)                       (* getDocument(...).promise *)
| VPage                                       (* pdf.getPage(i) *)
| VTextContent (items : list (option string)) (* page.getTextContent(...): the [str] of each item *).

(** How an awaited promise settles; a rejection carries [error.name]. *)
Inductive Outcome :=
| Resolved (v : Value)
| Rejected (name : string).

(** The [await] at which [handleFileSelected] is suspended, with the loop
    variables live there. *)
Inductive Pc :=
| AwaitText                                             (* line 305 *)
| AwaitArrayBuffer                                      (* line 308 *)
| AwaitGetDocument                                      (* line 310 *)
| AwaitGetPage (numPages i : nat) (text : string)       (* line 314 *)
| AwaitGetTextContent (numPages i : nat) (text : string) (* line 315 *).

(** The variables captured by a suspended [handleFileSelected]: the files the
    loop has not reached yet (each with the value [Date.now()] returns when the
    loop reaches it), and [file], [fileId], [doc], [abortController], [pill]
    of the current iteration. *)
Record Frame := {
  fr_rest : list (File * Z);
  fr_file : File;
  fr_fileId : string;
  fr_doc : addr;
  fr_ctrl : addr;
  fr_pill : option addr;
  fr_pc : Pc
}.

(** A [FileReader] started at line 276, with the [fileId] and [file] its
    [onload] closure captured. *)
Record Reader := {
  rd_fileId : string;
  rd_file : File
}.

(** The [await] at which [handleChatFormSubmit] is suspended. *)
Inductive SubmitPc :=
| AwaitUserBubble (userInput : string)   (* line 193 *)
| AwaitAiBubble (parts : list Part)      (* line 219 *)
| AwaitStream                            (* lines 223-234 *)
| AwaitErrorBubble                       (* line 237 *).

(** Observable calls, in the order they are made. *)
Inductive Effect :=
| EUpdateProgress (doc : addr) (status : string) (percentage : option Q)
| EConsoleLog (msg : string)
| EConsoleError
| EConfirm (msg : string)
| EAbort (ctrl : addr)
| ESendMessageStream (parts : list Part)
| EAddAiMessage (msg : string)
| EFocus.

Record State := {
  attachedFiles : list AttachedFile;
  attachedDocs : list addr;             (* references to document objects *)
  docHeap : list AttachedDocument;      (* every document object created *)
  ctrlHeap : list bool;                 (* [signal.aborted] of every AbortController *)
  pillHeap : list Pill;                 (* every pill element created *)
  container : list addr;                (* children of #attachments-container *)
  containerHidden : bool;
  chatInput_disabled : bool;
  sendButton_disabled : bool;
  imageUploadBtn_disabled : bool;
  docUploadBtn_disabled : bool;
  chatInput_value : string;
  fileInput_value : string;
  ai : bool;                            (* [ai] is set *)
  chat : bool;                          (* [chat] is set *)
  readers : list Reader;                (* FileReaders still reading *)
  handler : option Frame;               (* the suspended handleFileSelected *)
  submitting : option SubmitPc;         (* the suspended handleChatFormSubmit *)
  log : list Effect
}.

Definition set_attachedFiles (v : list AttachedFile) (s : State) : State :=
  {| attachedFiles := v; attachedDocs := attachedDocs s; docHeap := docHeap s;
     ctrlHeap := ctrlHeap s; pillHeap := pillHeap s; container := container s;
     containerHidden := containerHidden s; chatInput_disabled := chatInput_disabled s;
     sendButton_disabled := sendButton_disabled s;
     imageUploadBtn_disabled := imageUploadBtn_disabled s;
     docUploadBtn_disabled := docUploadBtn_disabled s;
     chatInput_value := chatInput_value s; fileInput_value := fileInput_value s;
     ai := ai s; chat := chat s; readers := readers s; handler := handler s;
     submitting := submitting s; log := log s |}.

Definition set_attachedDocs (v : list addr) (s : State) : State :=
  {| attachedFiles := attachedFiles s; attachedDocs := v; docHeap := docHeap s;
     ctrlHeap := ctrlHeap s; pillHeap := pillHeap s; container := container s;
     containerHidden := containerHidden s; chatInput_disabled := chatInput_disabled s;
     sendButton_disabled := sendButton_disabled s;
     imageUploadBtn_disabled := imageUploadBtn_disabled s;
     docUploadBtn_disabled := docUploadBtn_disabled s;
     chatInput_value := chatInput_value s; fileInput_value := fileInput_value s;
     ai := ai s; chat := chat s; readers := readers s; handler := handler s;
     submitting := submitting s; log := log s |}.

Definition set_docHeap (v : list AttachedDocument) (s : State) : State :=
  {| attachedFiles := attachedFiles s; attachedDocs := attachedDocs s; docHeap := v;
     ctrlHeap := ctrlHeap s; pillHeap := pillHeap s; container := container s;
     containerHidden := containerHidden s; chatInput_disabled := chatInput_disabled s;
     sendButton_disabled := sendButton_disabled s;
     imageUploadBtn_disabled := imageUploadBtn_disabled s;
     docUploadBtn_disabled := docUploadBtn_disabled s;
     chatInput_value := chatInput_value s; fileInput_value := fileInput_value s;
     ai := ai s; chat := chat s; readers := readers s; handler := handler s;
     submitting := submitting s; log := log s |}.

Definition set_ctrlHeap (v : list bool) (s : State) : State :=
  {| attachedFiles := attachedFiles s; attachedDocs := attachedDocs s; docHeap := docHeap s;
     ctrlHeap := v; pillHeap := pillHeap s; container := container s;
     containerHidden := containerHidden s; chatInput_disabled := chatInput_disabled s;
     sendButton_disabled := sendButton_disabled s;
     imageUploadBtn_disabled := imageUploadBtn_disabled s;
     docUploadBtn_disabled := docUploadBtn_disabled s;
     chatInput_value := chatInput_value s; fileInput_value := fileInput_value s;
     ai := ai s; chat := chat s; readers := readers s; handler := handler s;
     submitting := submitting s; log := log s |}.

Definition set_pillHeap (v : list Pill) (s : State) : State :=
  {| attachedFiles := attachedFiles s; attachedDocs := attachedDocs s; docHeap := docHeap s;
     ctrlHeap := ctrlHeap s; pillHeap := v; container := container s;
     containerHidden := containerHidden s; chatInput_disabled := chatInput_disabled s;
     sendButton_disabled := sendButton_disabled s;
     imageUploadBtn_disabled := imageUploadBtn_disabled s;
     docUploadBtn_disabled := docUploadBtn_disabled s;
     chatInput_value := chatInput_value s; fileInput_value := fileInput_value s;
     ai := ai s; chat := chat s; readers := readers s; handler := handler s;
     submitting := submitting s; log := log s |}.

Definition set_container (v : list addr) (hidden : bool) (s : State) : State :=
  {| attachedFiles := attachedFiles s; attachedDocs := attachedDocs s; docHeap := docHeap s;
     ctrlHeap := ctrlHeap s; pillHeap := pillHeap s; container := v;
     containerHidden := hidden; chatInput_disabled := chatInput_disabled s;
     sendButton_disabled := sendButton_disabled s;
     imageUploadBtn_disabled := imageUploadBtn_disabled s;
     docUploadBtn_disabled := docUploadBtn_disabled s;
     chatInput_value := chatInput_value s; fileInput_value := fileInput_value s;
     ai := ai s; chat := chat s; readers := readers s; handler := handler s;
     submitting := submitting s; log := log s |}.

Definition set_chatInput_value (v : string) (s : State) : State :=
  {| attachedFiles := attachedFiles s; attachedDocs := attachedDocs s; docHeap := docHeap s;
     ctrlHeap := ctrlHeap s; pillHeap := pillHeap s; container := container s;
     containerHidden := containerHidden s; chatInput_disabled := chatInput_disabled s;
     sendButton_disabled := sendButton_disabled s;
     imageUploadBtn_disabled := imageUploadBtn_disabled s;
     docUploadBtn_disabled := docUploadBtn_disabled s;
     chatInput_value := v; fileInput_value := fileInput_value s;
     ai := ai s; chat := chat s; readers := readers s; handler := handler s;
     submitting := submitting s; log := log s |}.

Definition set_fileInput_value (v : string) (s : State) : State :=
  {| attachedFiles := attachedFiles s; attachedDocs := attachedDocs s; docHeap := docHeap s;
     ctrlHeap := ctrlHeap s; pillHeap := pillHeap s; container := container s;
     containerHidden := containerHidden s; chatInput_disabled := chatInput_disabled s;
     sendButton_disabled := sendButton_disabled s;
     imageUploadBtn_disabled := imageUploadBtn_disabled s;
     docUploadBtn_disabled := docUploadBtn_disabled s;
     chatInput_value := chatInput_value s; fileInput_value := v;
     ai := ai s; chat := chat s; readers := readers s; handler := handler s;
     submitting := submitting s; log := log s |}.

Definition set_chat (v : bool) (s : State) : State :=
  {| attachedFiles := attachedFiles s; attachedDocs := attachedDocs s; docHeap := docHeap s;
     ctrlHeap := ctrlHeap s; pillHeap := pillHeap s; container := container s;
     containerHidden := containerHidden s; chatInput_disabled := chatInput_disabled s;
     sendButton_disabled := sendButton_disabled s;
     imageUploadBtn_disabled := imageUploadBtn_disabled s;
     docUploadBtn_disabled := docUploadBtn_disabled s;
     chatInput_value := chatInput_value s; fileInput_value := fileInput_value s;
     ai := ai s; chat := v; readers := readers s; handler := handler s;
     submitting := submitting s; log := log s |}.

Definition set_readers (v : list Reader) (s : State) : State :=
  {| attachedFiles := attachedFiles s; attachedDocs := attachedDocs s; docHeap := docHeap s;
     ctrlHeap := ctrlHeap s; pillHeap := pillHeap s; container := container s;
     containerHidden := containerHidden s; chatInput_disabled := chatInput_disabled s;
     sendButton_disabled := sendButton_disabled s;
     imageUploadBtn_disabled := imageUploadBtn_disabled s;
     docUploadBtn_disabled := docUploadBtn_disabled s;
     chatInput_value := chatInput_value s; fileInput_value := fileInput_value s;
     ai := ai s; chat := chat s; readers := v; handler := handler s;
     submitting := submitting s; log := log s |}.

Definition set_handler (v : option Frame) (s : State) : State :=
  {| attachedFiles := attachedFiles s; attachedDocs := attachedDocs s; docHeap := docHeap s;
     ctrlHeap := ctrlHeap s; pillHeap := pillHeap s; container := container s;
     containerHidden := containerHidden s; chatInput_disabled := chatInput_disabled s;
     sendButton_disabled := sendButton_disabled s;
     imageUploadBtn_disabled := imageUploadBtn_disabled s;
     docUploadBtn_disabled := docUploadBtn_disabled s;
     chatInput_value := chatInput_value s; fileInput_value := fileInput_value s;
     ai := ai s; chat := chat s; readers := readers s; handler := v;
     submitting := submitting s; log := log s |}.

Definition set_submitting (v : option SubmitPc) (s : State) : State :=
  {| attachedFiles := attachedFiles s; attachedDocs := attachedDocs s; docHeap := docHeap s;
     ctrlHeap := ctrlHeap s; pillHeap := pillHeap s; container := container s;
     containerHidden := containerHidden s; chatInput_disabled := chatInput_disabled s;
     sendButton_disabled := sendButton_disabled s;
     imageUploadBtn_disabled := imageUploadBtn_disabled s;
     docUploadBtn_disabled := docUploadBtn_disabled s;
     chatInput_value := chatInput_value s; fileInput_value := fileInput_value s;
     ai := ai s; chat := chat s; readers := readers s; handler := handler s;
     submitting := v; log := log s |}.

(** Appends one call to the record of observable calls. *)
Definition emit (e : Effect) (s : State) : State :=
  {| attachedFiles := attachedFiles s; attachedDocs := attachedDocs s; docHeap := docHeap s;
     ctrlHeap := ctrlHeap s; pillHeap := pillHeap s; container := container s;
     containerHidden := containerHidden s; chatInput_disabled := chatInput_disabled s;
     sendButton_disabled := sendButton_disabled s;
     imageUploadBtn_disabled := imageUploadBtn_disabled s;
     docUploadBtn_disabled := docUploadBtn_disabled s;
     chatInput_value := chatInput_value s; fileInput_value := fileInput_value s;
     ai := ai s; chat := chat s; readers := readers s; handler := handler s;
     submitting := submitting s; log := log s ++ [e] |}.

(** [toggleChatForm] (lines 171-176). *)
Definition toggleChatForm (enabled : bool) (s : State) : State :=
  {| attachedFiles := attachedFiles s; attachedDocs := attachedDocs s; docHeap := docHeap s;
     ctrlHeap := ctrlHeap s; pillHeap := pillHeap s; container := container s;
     containerHidden := containerHidden s; chatInput_disabled := negb enabled;
     sendButton_disabled := negb enabled;
     imageUploadBtn_disabled := negb enabled;
     docUploadBtn_disabled := negb enabled;
     chatInput_value := chatInput_value s; fileInput_value := fileInput_value s;
     ai := ai s; chat := chat s; readers := readers s; handler := handler s;
     submitting := submitting s; log := log s |}.

(** ** Shared objects *)

(** The document object at an address.  A reference held by the program
    always points to an object, see [wf_docs] below. *)
Definition undefined_doc : AttachedDocument :=
  {| d_id := EmptyString; d_name := EmptyString; textContent := EmptyString;
     summary := None; abortController := None |}.

Definition doc_at (s : State) (a : addr) : AttachedDocument :=
  default undefined_doc (docHeap s !! a).

Definition set_textContent (t : string) (d : AttachedDocument) : AttachedDocument :=
  {| d_id := d_id d; d_name := d_name d; textContent := t; summary := summary d;
     abortController := abortController d |}.

Definition set_processing (b : bool) (p : Pill) : Pill :=
  {| pill_id := pill_id p; pill_kind := pill_kind p; cls_processing := b;
     cls_error := cls_error p; inner := inner p |}.

Definition add_error (p : Pill) : Pill :=
  {| pill_id := pill_id p; pill_kind := pill_kind p; cls_processing := cls_processing p;
     cls_error := true; inner := inner p |}.

(** [pill?.classList...]: a change of the captured element, if there is one. *)
Definition on_pill (pill : option addr) (f : Pill -> Pill) (s : State) : State :=
  set_pillHeap
    match pill with
    | Some p => alter f p (pillHeap s)
    | None => pillHeap s
    end s.

(** [document.getElementById(id)]: the first element of the rendered list
    with that id; an element that was removed from the list is not found.
    (The static ids of the page never end in a time stamp.) *)
Definition has_id (s : State) (id : string) (p : addr) : bool :=
  match pillHeap s !! p with
  | Some n => String.eqb (pill_id n) id
  | None => false
  end.

Definition getElementById (id : string) (s : State) : option addr :=
  List.find (has_id s id) (container s).

(** ** [renderAttachments] (lines 356-400) *)

Definition pill_of_file (f : AttachedFile) : Pill :=
  {| pill_id := f_id f; pill_kind := ImagePill; cls_processing := false;
     cls_error := false; inner := Thumbnail |}.

(** A name the HTML parser takes as text, character by character: it holds
    no '<', no '&', no NUL and no carriage return. *)
Definition plain (name : string) : bool :=
  forallb (fun a => negb (existsb (Ascii.eqb a) ["<"; "&"; "000"; "013"]%char))
    (list_ascii_of_string name).

Definition pill_of_doc (d : AttachedDocument) : Pill :=
  {| pill_id := d_id d; pill_kind := DocPill; cls_processing := false;
     cls_error := false;
     inner := if plain (d_name d) then Details (d_name d) true None
              else Unparsed (d_name d) |}.

Definition render_pills (s : State) : list Pill :=
  map pill_of_file (attachedFiles s) ++ map (fun a => pill_of_doc (doc_at s a)) (attachedDocs s).

(** The container is emptied and gets one new pill per attachment; it is
    hidden exactly when there is none (the early return of line 362 leaves
    the loop of line 366 out, which would add nothing). *)
Definition renderAttachments (s : State) : State :=
  let pills := render_pills s in
  set_container (seq (length (pillHeap s)) (length pills))
    match pills with [] => true | _ => false end
    (set_pillHeap (pillHeap s ++ pills) s).

(** ** [updateProgress] (lines 288-298) *)

(** [Math.max(0, Math.min(100, percentage))]. *)
Definition clamp (percentage : Q) : Q := Qmax 0 (Qmin 100 percentage).

(** The body of [updateProgress] on the captured element.  The early return
    of line 289 is taken when the element has no [.file-name] or no
    [.progress-bar] with an inner [div], as an image pill that was found
    because it has the id of the document.  In a pill whose name holds
    markup these elements may be there or not: whatever the update does
    stays inside the tree that is not looked into. *)
Definition show_progress (status : string) (percentage : option Q) (p : Pill) : Pill :=
  match inner p with
  | Details _ _ _ =>
      {| pill_id := pill_id p; pill_kind := pill_kind p;
         cls_processing := cls_processing p; cls_error := cls_error p;
         inner := Details status
                    match percentage with None => true | Some _ => false end
                    (Some match percentage with None => 0%Q | Some q => clamp q end) |}
  | Thumbnail | Unparsed _ => p
  end.

(** The closure [updateProgress] of the iteration that created document
    [doc] and captured the element [pill]. *)
Definition updateProgress (doc : addr) (pill : option addr)
    (status : string) (percentage : option Q) (s : State) : State :=
  on_pill pill (show_progress status percentage)
    (emit (EUpdateProgress doc status percentage) s).

(** ** [handleFileSelected] (lines 259-340) *)

Definition fileId_of (file : File) (now : Z) : string :=
  file_name file +:+ "-" +:+ dec now.

Definition page_status (i numPages : nat) : string :=
  "Extracting text (Page " +:+ dec_nat i +:+ " of " +:+ dec_nat numPages +:+ ")...".

(** Line 312, in doubles. *)
Definition page_percentage (i numPages : nat) : Q :=
  value (15 + (number i / number numPages) * 70)%float.

Definition with_pc (fr : Frame) (pc : Pc) : Frame :=
  {| fr_rest := fr_rest fr; fr_file := fr_file fr; fr_fileId := fr_fileId fr;
     fr_doc := fr_doc fr; fr_ctrl := fr_ctrl fr; fr_pill := fr_pill fr; fr_pc := pc |}.

(** Lines 337-339, reached when the loop runs out of files. *)
Definition after_loop (s : State) : State :=
  emit EFocus (toggleChatForm true (set_fileInput_value EmptyString (set_handler None s))).

(** Lines 278-309: the document branch up to its first [await]. *)
Definition begin_document (rest : list (File * Z)) (file : File) (now : Z)
    (s : State) : State :=
  let fileId := fileId_of file now in
  let c := length (ctrlHeap s) in
  let s := set_ctrlHeap (ctrlHeap s ++ [false]) s in
  let a := length (docHeap s) in
  let doc := {| d_id := fileId; d_name := file_name file; textContent := EmptyString;
                summary := None; abortController := Some c |} in
  let s := set_docHeap (docHeap s ++ [doc]) s in
  let s := set_attachedDocs (attachedDocs s ++ [a]) s in
  let s := renderAttachments s in
  let pill := getElementById fileId s in
  let s := on_pill pill (set_processing true) s in
  let fr pc := {| fr_rest := rest; fr_file := file; fr_fileId := fileId; fr_doc := a;
                  fr_ctrl := c; fr_pill := pill; fr_pc := pc |} in
  if String.eqb (file_type file) "text/plain" then
    set_handler (Some (fr AwaitText))
      (updateProgress a pill "Reading document..." (Some 25%Q) s)
  else
    set_handler (Some (fr AwaitArrayBuffer))
      (updateProgress a pill "Reading document..." (Some 5%Q) s).

(** The loop of line 266, run until it suspends or ends. *)
Fixpoint for_files (files : list (File * Z)) (s : State) : State :=
  match files with
  | [] => after_loop s
  | (file, now) :: rest =>
      if startsWith (file_type file) "image/" then
        for_files rest
          (set_readers (readers s ++ [{| rd_fileId := fileId_of file now; rd_file := file |}]) s)
      else if String.eqb (file_type file) "text/plain"
              || String.eqb (file_type file) "application/pdf" then
        begin_document rest file now s
      else for_files rest s
  end.

Definition handleFileSelected (files : option (list (File * Z))) (s : State) : State :=
  match files with
  | None => s
  | Some fs => for_files fs (toggleChatForm false s)
  end.

(** The [finally] block of line 332. *)
Definition finally (fr : Frame) (s : State) : State :=
  on_pill (fr_pill fr) (set_processing false) s.

(** Lines 320-321 and the [finally] block: the extraction of the current
    document succeeded with [text]. *)
Definition finish_document (fr : Frame) (text : string) (s : State) : State :=
  let s := set_docHeap (alter (set_textContent text) (fr_doc fr) (docHeap s)) s in
  let s := updateProgress (fr_doc fr) (fr_pill fr) (file_name (fr_file fr)) None s in
  finally fr s.

(** [attachedDocs.filter(d => d.id !== id)]. *)
Definition docs_without (id : string) (s : State) : list addr :=
  List.filter (fun a => negb (String.eqb (d_id (doc_at s a)) id)) (attachedDocs s).

(** Lines 327-330 and the [finally] block: the extraction failed with an
    error that is not an abort. *)
Definition fail_document (fr : Frame) (s : State) : State :=
  let s := emit EConsoleError s in
  let s := set_attachedDocs (docs_without (fr_fileId fr) s) s in
  let s := on_pill (fr_pill fr) add_error s in
  let s := updateProgress (fr_doc fr) (fr_pill fr) "Error: Could not read file." None s in
  finally fr s.

(** Lines 323-326 and the [finally] block: the [return] leaves the handler. *)
Definition cancel_document (fr : Frame) (s : State) : State :=
  let s := emit (EConsoleLog ("Processing of " +:+ file_name (fr_file fr)
                              +:+ " was canceled.")) s in
  set_handler None (finally fr s).

(** The [catch] clause. *)
Definition catch (fr : Frame) (name : string) (s : State) : State :=
  if String.eqb name "AbortError" then cancel_document fr s
  else for_files (fr_rest fr) (fail_document fr s).

Definition complete (fr : Frame) (text : string) (s : State) : State :=
  for_files (fr_rest fr) (finish_document fr text s).

(** The page loop of lines 311-318, entered with loop variable [i]. *)
Definition for_pages (fr : Frame) (numPages i : nat) (text : string)
    (s : State) : State :=
  if Nat.leb i numPages then
    set_handler (Some (with_pc fr (AwaitGetPage numPages i text)))
      (updateProgress (fr_doc fr) (fr_pill fr) (page_status i numPages)
         (Some (page_percentage i numPages)) s)
  else complete fr text s.

(** The awaited promise settles and the handler runs to its next [await].
    [None]: the value does not have the type of the awaited call. *)
Definition resume (fr : Frame) (o : Outcome) (s : State) : option State :=
  match o with
  | Rejected name => Some (catch fr name s)
  | Resolved v =>
      match fr_pc fr, v with
      | AwaitText, VText t => Some (complete fr t s)
      | AwaitArrayBuffer, VArrayBuffer =>
          Some (set_handler (Some (with_pc fr AwaitGetDocument))
                  (updateProgress (fr_doc fr) (fr_pill fr) "Parsing PDF..." (Some 15%Q) s))
      | AwaitGetDocument, VPdf numPages => Some (for_pages fr numPages 1 EmptyString s)
      | AwaitGetPage numPages i text, VPage =>
          Some (set_handler (Some (with_pc fr (AwaitGetTextContent numPages i text))) s)
      | AwaitGetTextContent numPages i text, VTextContent items =>
          Some (for_pages fr numPages (S i) (text +:+ join " " items +:+ nl +:+ nl) s)
      | _, _ => None
      end
  end.

(** [reader.onload] (lines 270-275) of the [k]-th reader still reading. *)
Definition reader_onload (k : nat) (url : string) (s : State) : option State :=
  match readers s !! k with
  | None => None
  | Some r =>
      let image := {| f_id := rd_fileId r; f_name := file_name (rd_file r);
                      base64 := split ","%char url !! 1;
                      mimeType := file_type (rd_file r); sourceUrl := url |} in
      Some (renderAttachments
              (set_attachedFiles (attachedFiles s ++ [image])
                 (set_readers (delete k (readers s)) s)))
  end.

(** ** [removeAttachment] (lines 342-354) *)

Definition isProcessing (id : string) (s : State) : bool :=
  match getElementById id s with
  | Some p => match pillHeap s !! p with Some n => cls_processing n | None => false end
  | None => false
  end.

(** Lines 347-348: [docToCancel?.abortController?.abort()]. *)
Definition docToCancel (id : string) (s : State) : option addr :=
  List.find (fun a => String.eqb (d_id (doc_at s a)) id) (attachedDocs s).

Definition abort (c : addr) (s : State) : State :=
  emit (EAbort c) (set_ctrlHeap (<[c := true]> (ctrlHeap s)) s).

Definition signal_cancel (id : string) (s : State) : State :=
  match docToCancel id s with
  | Some a => match abortController (doc_at s a) with
              | Some c => abort c s
              | None => s
              end
  | None => s
  end.

(** Lines 350-352. *)
Definition discard (id : string) (s : State) : State :=
  let s := set_attachedFiles
             (List.filter (fun f => negb (String.eqb (f_id f) id)) (attachedFiles s)) s in
  let s := set_attachedDocs (docs_without id s) s in
  renderAttachments s.

Definition confirm_text : string := "Are you sure you want to discard this file?".

(** [answer] is what the user replies if the dialog is shown. *)
Definition removeAttachment (id : string) (answer : bool) (s : State) : State :=
  if isProcessing id s then discard id (signal_cancel id s)
  else
    let s := emit (EConfirm confirm_text) s in
    if answer then discard id (signal_cancel id s) else s.

(** ** [handleNewChat] (lines 443-452), as far as attachments go *)

Definition handleNewChat (s : State) : State :=
  let s := renderAttachments (set_attachedDocs [] (set_attachedFiles [] s)) in
  if ai s then set_chat true s else s.

(** ** [handleChatFormSubmit] (lines 178-245) *)

Definition render_doc (d : AttachedDocument) : string :=
  "DOCUMENT: " +:+ dquote +:+ d_name d +:+ dquote +:+ nl +:+ nl +:+ textContent d.

Definition doc_separator : string := nl +:+ nl +:+ "---" +:+ nl +:+ nl.

Definition instruction : string :=
  "Based on the document(s) provided, please respond to the following: ".

(** Lines 197-212. *)
Definition composeParts (files : list AttachedFile) (docs : list AttachedDocument)
    (userInput : string) : list Part :=
  let images := map (fun f => InlineData (mimeType f) (base64 f)) files in
  let promptText :=
    match docs with
    | [] => userInput
    | _ => join doc_separator (map (fun d => Some (render_doc d)) docs)
             +:+ doc_separator +:+ instruction +:+ userInput
    end in
  images ++ (if String.eqb promptText EmptyString then [] else [TextPart promptText]).

Definition not_initialized : string :=
  "The chat is not initialized. Please wait or refresh the page.".

(** Lines 179-193, up to the first [await]. *)
Definition handleChatFormSubmit (s : State) : State :=
  let userInput := trim (chatInput_value s) in
  if String.eqb userInput EmptyString
     && Nat.eqb (length (attachedFiles s) + length (attachedDocs s)) 0 then s
  else if negb (chat s) then emit (EAddAiMessage not_initialized) s
  else set_submitting (Some (AwaitUserBubble userInput))
         (set_chatInput_value EmptyString (toggleChatForm false s)).

(** The [finally] block of line 238. *)
Definition submit_finally (s : State) : State :=
  set_submitting None (emit EFocus (toggleChatForm true s)).

(** The rest of the handler, one [await] at a time.  [ok]: the awaited
    promise is fulfilled and the statements up to the next [await] run to
    their end; otherwise the promise is rejected, or one of these statements
    throws, as [localStorage.setItem] does in [saveChatHistory] (lines 195
    and 234) when the quota is exceeded.  Lines 193-219 are outside the
    [try] block: a failure there ends the handler where it is. *)
Definition submit_resume (ok : bool) (s : State) : option State :=
  match submitting s with
  | None => None
  | Some (AwaitUserBubble userInput) =>
      if ok then
        let parts := composeParts (attachedFiles s) (map (doc_at s) (attachedDocs s))
                       userInput in
        Some (set_submitting (Some (AwaitAiBubble parts))
                (renderAttachments (set_attachedDocs [] (set_attachedFiles [] s))))
      else Some (set_submitting None s)
  | Some (AwaitAiBubble parts) =>
      if ok then Some (set_submitting (Some AwaitStream) (emit (ESendMessageStream parts) s))
      else Some (set_submitting None s)
  | Some AwaitStream =>
      if ok then Some (submit_finally s)
      else Some (set_submitting (Some AwaitErrorBubble) (emit EConsoleError s))
  | Some AwaitErrorBubble => Some (submit_finally s)
  end.

(** ** The event loop *)

Inductive Event :=
| FilesSelected (files : option (list (File * Z)))   (* change event of #file-input *)
| HandlerResume (o : Outcome)                        (* the promise awaited by handleFileSelected settles *)
| ReaderLoad (k : nat) (url : string)                (* load event of a FileReader *)
| RemoveClick (id : string) (answer : bool)          (* click on a pill's remove button *)
| NewChat                                            (* click on #new-chat-btn *)
| Typing (value : string)                            (* the user edits #chat-input *)
| Submit                                             (* submit event of #chat-form *)
| SubmitResume (ok : bool)                           (* the promise awaited by handleChatFormSubmit settles *).

(** What the browser stores in [fileInput.value] before it fires the change
    event: a fake path to the first selected file. *)
Definition browser_value (files : option (list (File * Z))) (s : State) : State :=
  match files with
  | Some ((file, _) :: _) => set_fileInput_value ("C:\fakepath\" +:+ file_name file) s
  | Some [] => set_fileInput_value EmptyString s
  | None => s
  end.

(** The file picker is opened by the two upload buttons. *)
Definition can_select (s : State) : bool :=
  negb (imageUploadBtn_disabled s && docUploadBtn_disabled s)
  && match handler s with None => true | Some _ => false end.

(** The form is submitted with the send button, or with the Enter key in the
    chat input while the send button is enabled. *)
Definition can_submit (s : State) : bool :=
  negb (sendButton_disabled s)
  && match submitting s with None => true | Some _ => false end.

(** One task of the event loop.  [None]: the event cannot happen in this
    state (a disabled control, no suspended handler to resume, an outcome of
    the wrong type, no such reader). *)
Definition dispatch (e : Event) (s : State) : option State :=
  match e with
  | FilesSelected files =>
      if can_select s then Some (handleFileSelected files (browser_value files s))
      else None
  | HandlerResume o =>
      match handler s with
      | Some fr => resume fr o s
      | None => None
      end
  | ReaderLoad k url => reader_onload k url s
  | RemoveClick id answer => Some (removeAttachment id answer s)
  | NewChat => Some (handleNewChat s)
  | Typing value =>
      if chatInput_disabled s then None else Some (set_chatInput_value value s)
  | Submit => if can_submit s then Some (handleChatFormSubmit s) else None
  | SubmitResume ok => submit_resume ok s
  end.

Fixpoint run (es : list Event) (s : State) : option State :=
  match es with
  | [] => Some s
  | e :: rest =>
      match dispatch e s with
      | Some s' => run rest s'
      | None => None
      end
  end.

(** The page once [initializeApp] has run: nothing attached, the form
    enabled; [connected] tells whether [initializeAI] succeeded. *)
Definition initial (connected : bool) : State :=
  {| attachedFiles := []; attachedDocs := []; docHeap := []; ctrlHeap := [];
     pillHeap := []; container := []; containerHidden := true;
     chatInput_disabled := false; sendButton_disabled := false;
     imageUploadBtn_disabled := false; docUploadBtn_disabled := false;
     chatInput_value := EmptyString; fileInput_value := EmptyString;
     ai := connected; chat := connected; readers := []; handler := None;
     submitting := None; log := [] |}.

(** The states the page can be in. *)
Definition reachable (s : State) : Prop :=
  exists connected es, run es (initial connected) = Some s.


(** * The start of the application and the session (lines 71-127 and 434-482) *)

Definition set_ai (v : bool) (s : State) : State :=
  {| attachedFiles := attachedFiles s; attachedDocs := attachedDocs s; docHeap := docHeap s;
     ctrlHeap := ctrlHeap s; pillHeap := pillHeap s; container := container s;
     containerHidden := containerHidden s; chatInput_disabled := chatInput_disabled s;
     sendButton_disabled := sendButton_disabled s;
     imageUploadBtn_disabled := imageUploadBtn_disabled s;
     docUploadBtn_disabled := docUploadBtn_disabled s;
     chatInput_value := chatInput_value s; fileInput_value := fileInput_value s;
     ai := v; chat := chat s; readers := readers s; handler := handler s;
     submitting := submitting s; log := log s |}.

Definition connection_error : string :=
  "Sorry, I could not connect to the AI service. Please check your API key and network connection.".

(** [initializeAI] (lines 71-82).  [created]: the constructor of line 73
    returns a client; otherwise it throws. *)
Definition initializeAI (created : bool) (s : State) : State :=
  if created then set_ai true s
  else toggleChatForm false
         (emit (EAddAiMessage connection_error) (emit EConsoleError s)).

(** [initializeChat] (lines 104-127) up to its first [await], as far as the
    state of this model goes: the chat is created when there is a client. *)
Definition initializeChat (s : State) : State :=
  if ai s then set_chat true s else s.

(** The session: the two keys the page keeps in [localStorage], the two
    screens, the name shown in the header and the input of the login form. *)
Record Session := {
  localStorage : gmap string string;
  loginOverlay_hidden : bool;
  appLayout_hidden : bool;
  headerUsername_text : string;
  usernameInput_value : string
}.

Definition set_localStorage (v : gmap string string) (ss : Session) : Session :=
  {| localStorage := v; loginOverlay_hidden := loginOverlay_hidden ss;
     appLayout_hidden := appLayout_hidden ss;
     headerUsername_text := headerUsername_text ss;
     usernameInput_value := usernameInput_value ss |}.

(** [showApp] (lines 454-458). *)
Definition showApp (username : string) (ss : Session) : Session :=
  {| localStorage := localStorage ss; loginOverlay_hidden := true;
     appLayout_hidden := false; headerUsername_text := username;
     usernameInput_value := usernameInput_value ss |}.


(** [initializeApp] (lines 476-482) up to the [await] of line 479. *)
Definition initializeApp (username : string) (created : bool)
    (p : Session * State) : Session * State :=
  (showApp username (fst p), initializeChat (initializeAI created (snd p))).

(** Lines 480-481, when [initializeChat] has returned. *)
Definition initializeApp_resume (s : State) : State :=
  emit EFocus (toggleChatForm true s).

(** [handleLogin] (lines 434-441).  [stored]: [localStorage.setItem]
    stores the name; otherwise it throws (the quota is exceeded, or the
    storage is not available) and the handler ends there. *)
Definition handleLogin (stored created : bool) (p : Session * State) : Session * State :=
  let username := trim (usernameInput_value (fst p)) in
  if String.eqb username EmptyString then p
  else if stored then
    initializeApp username created
      (set_localStorage (<["username" := username]> (localStorage (fst p))) (fst p),
       snd p)
  else p.


(** The page when the script has run, before [checkAuthentication]: nothing
    is attached and there is no client; the four controls are as the HTML
    has them. *)
Definition page_loaded (input send image doc : bool) : State :=
  {| attachedFiles := []; attachedDocs := []; docHeap := []; ctrlHeap := [];
     pillHeap := []; container := []; containerHidden := true;
     chatInput_disabled := input; sendButton_disabled := send;
     imageUploadBtn_disabled := image; docUploadBtn_disabled := doc;
     chatInput_value := EmptyString; fileInput_value := EmptyString;
     ai := false; chat := false; readers := []; handler := None;
     submitting := None; log := [] |}.

(** * The text export of the history (lines 403-425) *)

Inductive Sender := User | Assistant.

(** The value of [message.sender]. *)
Definition sender_name (x : Sender) : string :=
  match x with
  | User => "user"
  | Assistant => "ai"
  end.

(** A message of the history (lines 17-21); the attachments are optional. *)
Record ChatMessage := {
  m_sender : Sender;
  m_text : string;
  m_attachments : option (list (AttachedFile + AttachedDocument))
}.

(** [s.toUpperCase()], as far as the letters a to z go. *)
Definition upper (a : ascii) : ascii :=
  let n := nat_of_ascii a in
  if Nat.leb 97 n && Nat.leb n 122 then ascii_of_nat (n - 32) else a.

Fixpoint toUpperCase (s : string) : string :=
  match s with
  | EmptyString => EmptyString
  | String a rest => String (upper a) (toUpperCase rest)
  end.

Definition attachment_name (att : AttachedFile + AttachedDocument) : string :=
  match att with
  | inl f => f_name f
  | inr d => d_name d
  end.

(** The callback of line 415: what one message adds to [textContent]. *)
Definition export_message (textContent : string) (message : ChatMessage) : string :=
  let textContent :=
    textContent +:+ "[" +:+ toUpperCase (sender_name (m_sender message)) +:+ "]" +:+ nl in
  let textContent :=
    match m_attachments message with
    | Some ((_ :: _) as attachments) =>
        fold_left (fun t att => t +:+ "Attached: " +:+ attachment_name att +:+ nl)
          attachments textContent
    | _ => textContent
    end in
  textContent +:+ m_text message +:+ nl +:+ nl.

(** The call of [downloadFile] (lines 403-411). *)
Record Download := {
  dl_filename : string;
  dl_content : string;
  dl_mimeType : string
}.

(** [handleDownloadTxt] (lines 413-425); [date] is what
    [new Date().toLocaleString()] returns. *)
Definition handleDownloadTxt (date : string) (history : list ChatMessage) : Download :=
  {| dl_filename := "chat-history.txt";
     dl_content := fold_left export_message history
                     ("EdTech Chat History - " +:+ date +:+ nl +:+ nl);
     dl_mimeType := "text/plain" |}.

(** * Vocabulary of the properties *)

(** ** The record of calls *)

(** The document each progress update of the record belongs to. *)
Definition progress_doc (e : Effect) : option addr :=
  match e with
  | EUpdateProgress d _ _ => Some d
  | _ => None
  end.

Definition progress_docs (l : list Effect) : list addr := omap progress_doc l.

(** The calls of [updateProgress] in the record. *)
Definition progress_call (e : Effect) : option (addr * string * option Q) :=
  match e with
  | EUpdateProgress d status percentage => Some (d, status, percentage)
  | _ => None
  end.

Definition progress_calls (l : list Effect) : list (addr * string * option Q) :=
  omap progress_call l.



Definition error_text : string := "Error: Could not read file.".

(** ** Properties of a state *)

Definition form_disabled (s : State) : Prop :=
  chatInput_disabled s = true /\ sendButton_disabled s = true /\
  imageUploadBtn_disabled s = true /\ docUploadBtn_disabled s = true.

(** Once the handler has returned with the form disabled, without re-enabling
    it, nothing enables the form again. *)
Definition dead_form (s : State) : Prop :=
  handler s = None /\ submitting s = None /\ form_disabled s.

(** [handleFileSelected] is suspended. *)
Definition is_suspended (s : State) : bool :=
  match handler s with Some _ => true | None => false end.

(** The extraction of document [a] is in progress. *)
Definition extracting (s : State) (a : addr) : Prop :=
  exists fr, handler s = Some fr /\ fr_doc fr = a.

(** [snapshotAll]: the images, then the documents, as line 181 reads them. *)
Definition snapshotAll (s : State) : list (AttachedFile + AttachedDocument) :=
  map inl (attachedFiles s) ++ map (fun a => inr (doc_at s a)) (attachedDocs s).

(** The string contains no '-'. *)
Definition no_dash (s : string) : Prop := forall x y, s <> x +:+ "-" +:+ y.

(** The elements shown in the container, in order. *)
Definition shown (s : State) : list (option Pill) :=
  map (fun p => pillHeap s !! p) (container s).

(** The character occurs in the string. *)
Fixpoint occurs (c : ascii) (s : string) : bool :=
  match s with
  | EmptyString => false
  | String a rest => Ascii.eqb a c || occurs c rest
  end.

(** Made of white space only: a sequence of the characters [trim] removes. *)
Inductive blank : string -> Prop :=
| blank_empty : blank EmptyString
| blank_space w s : In w white_space -> blank s -> blank (w +:+ s).

(** ** The files of a selection *)

(** How the loop of line 266 sorts a file: line 268 for an image, line 277
    for a document; any other file is passed over. *)
Definition is_image (file : File) : bool := startsWith (file_type file) "image/".

Definition is_document (file : File) : bool :=
  negb (is_image file)
  && (String.eqb (file_type file) "text/plain"
      || String.eqb (file_type file) "application/pdf").

(** The [FileReader] started for an image the loop reaches at time [now]. *)
Definition reader_of (fn : File * Z) : Reader :=
  {| rd_fileId := fileId_of (fst fn) (snd fn); rd_file := fst fn |}.

Definition images_of (files : list (File * Z)) : list (File * Z) :=
  List.filter (fun fn => is_image (fst fn)) files.

(** ** The blocks of the text export *)

(** The strings of a list, one after the other. *)
Definition concat_all (l : list string) : string := foldr String.append EmptyString l.

(** The lines of one message in the export. *)
Definition message_block (m : ChatMessage) : string :=
  match m_sender m with User => "[USER]" | Assistant => "[AI]" end +:+ nl
  +:+ concat_all (map (fun att => "Attached: " +:+ attachment_name att +:+ nl)
                    (default [] (m_attachments m)))
  +:+ m_text m +:+ nl +:+ nl.

(** ** The progress of a PDF and its text, in the words of the specification *)







(** The percentage of page [i] of [P] in exact arithmetic. *)
Definition exact_percentage (i P : nat) : Q :=
  (15 + (inject_Z (Z.of_nat i) / inject_Z (Z.of_nat P)) * 70)%Q.

Definition Qlt_bool (x y : Q) : bool := negb (Qle_bool y x).

(** The percentage passed for page [i] of [P] is above 15 and at most 85,
    below that of the next page if there is one, and within 10^-13 of the
    exact value. *)
Definition page_checked (P i : nat) : bool :=
  let q := page_percentage i P in
  Qlt_bool 15 q && Qle_bool q 85
  && (Nat.eqb i P || Qlt_bool q (page_percentage (S i) P))
  && Qle_bool (Qabs (q - exact_percentage i P)) (1 # 10 ^ 13).

(** Every page of every PDF of up to [N] pages is as [page_checked] says,
    and the percentage of the last page is 85. *)
Definition pages_checked (N : nat) : bool :=
  forallb (fun P => forallb (page_checked P) (seq 1 P)
                    && Qeq_bool (page_percentage P P) 85) (seq 1 N).

(** The number of pages up to which the percentages are computed here. *)
Definition checked_pages : nat := 200.

(** ** The text part of a message, in the words of the specification *)

(** A document as the specification renders it: DOCUMENT: "name", two
    newlines, the text. *)
Definition spec_document (name text : string) : string :=
  "DOCUMENT: " +:+ dquote +:+ name +:+ dquote +:+ nl +:+ nl +:+ text.

Definition spec_separator : string := nl +:+ nl +:+ "---" +:+ nl +:+ nl.

Definition spec_instruction : string :=
  "Based on the document(s) provided, please respond to the following: ".

(** The text part of a message with documents: the documents joined by the
    separator, then the separator, the instruction line and the input. *)
Definition spec_prompt (docs : list AttachedDocument) (u : string) : string :=
  String.concat spec_separator
    (map (fun d => spec_document (d_name d) (textContent d)) docs)
  +:+ spec_separator +:+ spec_instruction +:+ u.

(** ** Invariants *)

(** Heaps and registry: every registered reference points to a document
    object; the [k]-th document object owns the [k]-th controller; progress
    updates are recorded for existing documents, in creation order. *)
Record wf_heap (s : State) : Prop := {
  wf_docs : forall a, In a (attachedDocs s) -> a < length (docHeap s);
  wf_own : forall a d, docHeap s !! a = Some d -> abortController d = Some a;
  wf_ctrls : length (ctrlHeap s) = length (docHeap s);
  wf_log_bound : forall a, In a (progress_docs (log s)) -> a < length (docHeap s);
  wf_log_sorted : StronglySorted le (progress_docs (log s))
}.

(** Control: the suspended handler works on the document created last; the
    form is disabled while a handler is suspended; the two handlers are
    never suspended together. *)
Record wf (s : State) : Prop := {
  wf_data : wf_heap s;
  wf_frame : forall fr, handler s = Some fr ->
      S (fr_doc fr) = length (docHeap s) /\ fr_ctrl fr = fr_doc fr /\
      d_id (doc_at s (fr_doc fr)) = fr_fileId fr;
  wf_gate : is_Some (handler s) \/ is_Some (submitting s) -> form_disabled s;
  wf_excl : handler s = None \/ submitting s = None
}.

(** Every child of the container is an element; the suspended handler holds
    an element with the id of its document; and if that element is still
    shown, the document is still registered. *)
Record wf_dom (s : State) : Prop := {
  dom_container : forall p, In p (container s) -> p < length (pillHeap s);
  dom_pill : forall fr, handler s = Some fr ->
      exists p n, fr_pill fr = Some p /\ pillHeap s !! p = Some n /\
                  pill_id n = fr_fileId fr;
  dom_shown : forall fr p, handler s = Some fr -> fr_pill fr = Some p ->
      In p (container s) -> In (fr_doc fr) (attachedDocs s)
}.

(** Elements are never destroyed and keep their id. *)
Definition pills_persist (s s' : State) : Prop :=
  forall p n, pillHeap s !! p = Some n ->
    exists n', pillHeap s' !! p = Some n' /\ pill_id n' = pill_id n.

(** What one step does to the page: elements persist; either the list shown
    and the elements are the same and no document has left the registry, or
    the list shown consists of elements that did not exist before. *)
Definition dom_step (s s' : State) : Prop :=
  pills_persist s s' /\
  (container s' = container s /\ length (pillHeap s') = length (pillHeap s) /\
   (forall a, In a (attachedDocs s) -> In a (attachedDocs s')) \/
   forall p, In p (container s') -> length (pillHeap s) <= p < length (pillHeap s')).

(** No element of the heap carries 'processing'. *)
Definition idle_pills (h : list Pill) : Prop :=
  forall p n, h !! p = Some n -> cls_processing n = false.

(** Only the element held by the suspended handler carries 'processing'. *)
Definition processing_held (s : State) : Prop :=
  forall p n, pillHeap s !! p = Some n -> cls_processing n = true ->
    exists fr, handler s = Some fr /\ fr_pill fr = Some p.

(** When neither handler is suspended, the four controls are enabled. *)
Definition idle_enabled (s : State) : Prop :=
  handler s = None -> submitting s = None ->
  chatInput_disabled s = false /\ sendButton_disabled s = false /\
  imageUploadBtn_disabled s = false /\ docUploadBtn_disabled s = false.

(** The list shown holds an element of this kind with this id. *)
Definition listed (s : State) (id : string) (kind : PillKind) : Prop :=
  exists p n, In p (container s) /\ pillHeap s !! p = Some n /\
              pill_id n = id /\ pill_kind n = kind.

(** Every attachment of the registries has its pill in the list shown. *)
Definition attached_listed (s : State) : Prop :=
  (forall f, In f (attachedFiles s) -> listed s (f_id f) ImagePill) /\
  (forall a, In a (attachedDocs s) -> listed s (d_id (doc_at s a)) DocPill).

(** ** Schedules *)

(** Events that are not a step of [handleFileSelected]. *)
Definition quiet (e : Event) : bool :=
  match e with
  | FilesSelected _ | HandlerResume _ => false
  | _ => true
  end.

(** The step ends a handler before its last lines: a call awaited by
    [handleFileSelected] is rejected with an AbortError (the [return] of
    line 325), or a step of [handleChatFormSubmit] fails outside its [try]
    block (lines 193-219). *)
Definition leaves_early (e : Event) (s : State) : bool :=
  match e with
  | HandlerResume (Rejected name) => String.eqb name "AbortError"
  | SubmitResume false =>
      match submitting s with
      | Some (AwaitUserBubble _) | Some (AwaitAiBubble _) => true
      | _ => false
      end
  | _ => false
  end.

(** No step of the run leaves a handler early. *)
Fixpoint completes (es : list Event) (s : State) : bool :=
  match es with
  | [] => true
  | e :: rest =>
      negb (leaves_early e s)
      && match dispatch e s with
         | Some s' => completes rest s'
         | None => true
         end
  end.

(** [settles os s s']: from [s], the promises awaited by the suspended
    [handleFileSelected] settle with the outcomes [os], in this order, with
    any other events in between; [s'] is the state right after the last
    outcome has been handled. *)
Inductive settles : list Outcome -> State -> State -> Prop :=
| settles_nil s : settles [] s s
| settles_quiet e s s' o os s1 :
    quiet e = true -> dispatch e s = Some s' ->
    settles (o :: os) s' s1 -> settles (o :: os) s s1
| settles_resume o os s s' s1 :
    dispatch (HandlerResume o) s = Some s' ->
    settles os s' s1 -> settles (o :: os) s s1.

(** The awaited calls of a PDF with the given pages (the items of each page)
    when every one of them succeeds. *)
Definition page_outcomes (pages : list (list (option string))) : list Outcome :=
  flat_map (fun items => [Resolved VPage; Resolved (VTextContent items)]) pages.

Definition pdf_outcomes (pages : list (list (option string))) : list Outcome :=
  Resolved VArrayBuffer :: Resolved (VPdf (length pages)) :: page_outcomes pages.

(** Each page's items joined by single spaces, a paragraph break after each
    page. *)
Fixpoint pages_text (pages : list (list (option string))) : string :=
  match pages with
  | [] => EmptyString
  | items :: rest => join " " items +:+ nl +:+ nl +:+ pages_text rest
  end.


(** A selected file, the time at which the loop reaches it, and what its
    reads return: [sel_text] is what [file.text()] resolves with, [sel_pages]
    the items of each page of the PDF. *)
Record Selected := {
  sel_file : File;
  sel_now : Z;
  sel_text : string;
  sel_pages : list (list (option string))
}.

Definition files_of (xs : list Selected) : list (File * Z) :=
  map (fun x => (sel_file x, sel_now x)) xs.

(** The outcomes the handler awaits for one file when every read succeeds. *)
Definition sel_outcomes (x : Selected) : list Outcome :=
  if is_image (sel_file x) then []
  else if String.eqb (file_type (sel_file x)) "text/plain" then
    [Resolved (VText (sel_text x))]
  else if String.eqb (file_type (sel_file x)) "application/pdf" then
    pdf_outcomes (sel_pages x)
  else [].

Definition documents_of (xs : list Selected) : list Selected :=
  List.filter (fun x => is_document (sel_file x)) xs.

(** The text extracted from a document file. *)
Definition sel_content (x : Selected) : string :=
  if String.eqb (file_type (sel_file x)) "text/plain" then sel_text x
  else pages_text (sel_pages x).

(** The document object of a file once it is extracted; [c] is its
    controller. *)
Definition extracted_doc (c : addr) (x : Selected) : AttachedDocument :=
  {| d_id := fileId_of (sel_file x) (sel_now x); d_name := file_name (sel_file x);
     textContent := sel_content x; summary := None; abortController := Some c |}.

Fixpoint extracted (c : addr) (docs : list Selected) : list AttachedDocument :=
  match docs with
  | [] => []
  | x :: rest => extracted_doc c x :: extracted (S c) rest
  end.

(** ** Files, schedules and states of the examples *)

(** A two page PDF selected on the fresh page. *)
Definition notes_pdf : File :=
  {| file_name := "notes.pdf"; file_type := "application/pdf" |}.

Definition two_pages : list (list (option string)) :=
  [[Some "Hello"; Some "world"]; [Some "bye"]].

(** The page while the text file a.txt, selected alone at time 1000, is read. *)
Definition a_txt : File := {| file_name := "a.txt"; file_type := "text/plain" |}.

(** The PDF a.pdf and the text file b.txt selected together; a.pdf is
    removed while it is parsed and its parsing is rejected with an abort. *)
Definition a_pdf : File := {| file_name := "a.pdf"; file_type := "application/pdf" |}.
Definition b_txt : File := {| file_name := "b.txt"; file_type := "text/plain" |}.

Definition a_png : File := {| file_name := "a.png"; file_type := "image/png" |}.

Definition b_pdf : File := {| file_name := "b.pdf"; file_type := "application/pdf" |}.

Definition two_text_files : list (File * Z) := [(a_txt, 1000%Z); (b_txt, 1001%Z)].

(** An image and a PDF selected together; the image loads while the PDF is
    read. *)
Definition rendering_anew : list Event :=
  [FilesSelected (Some [(a_png, 1000%Z); (b_pdf, 1001%Z)]);
   ReaderLoad 0 "data:image/png;base64,AAAA"].

Definition parsing_a_pdf : list Event :=
  [FilesSelected (Some [(a_pdf, 1000%Z); (b_txt, 1001%Z)]);
   HandlerResume (Resolved VArrayBuffer)].

Definition cancelling_a_pdf : list Event :=
  parsing_a_pdf ++ [RemoveClick "a.pdf-1000" true].


Definition reading_a_txt : State :=
  default (initial true) (run [FilesSelected (Some [(a_txt, 1000%Z)])] (initial true)).

(** The page when a.txt has been read. *)
Definition read_a_txt : State :=
  default (initial true)
    (run [FilesSelected (Some [(a_txt, 1000%Z)]); HandlerResume (Resolved (VText "abc"))]
       (initial true)).

(** a.txt is removed while it is read; then its text arrives. *)
Definition removed_a_txt : State :=
  default (initial true)
    (run [FilesSelected (Some [(a_txt, 1000%Z)]); RemoveClick "a.txt-1000" true]
       (initial true)).

(** The same when the image is selected first and the PDF next, while the
    image is still being read. *)
Definition image_loads_while_pdf_is_read : list Event :=
  [FilesSelected (Some [(a_png, 1000%Z)]); FilesSelected (Some [(b_pdf, 2000%Z)]);
   ReaderLoad 0 "data:image/png;base64,AAAA"].

(** An image and a PDF are selected together, the image loads while the
    PDF is read, and the PDF then turns out to be damaged. *)
Definition damaged_b_pdf : list Event :=
  rendering_anew
  ++ [HandlerResume (Resolved VArrayBuffer); HandlerResume (Rejected "InvalidPDFException")].

(** A file containing a comment opener in its name: the pill made for it
    has no details the handler could update, and the failure leaves the
    pill without the text. *)
Definition odd_name_txt : File := {| file_name := "a<!--.txt"; file_type := "text/plain" |}.

(** The user has typed a question, with spaces around it. *)
Definition typed_question : State :=
  set_chatInput_value "  What is a cell? " (initial true).

(** A no-break space and a line separator are typed, nothing else. *)
Definition typed_blank : State :=
  set_chatInput_value (utf8 [194; 160; 32; 226; 128; 168]) (initial true).

Definition one_document : State :=
  set_submitting (Some (AwaitUserBubble "Summarise it"))
    (set_attachedDocs [0]
       (set_docHeap [{| d_id := "a.txt-1"; d_name := "a.txt"; textContent := "abc";
                        summary := None; abortController := Some 0 |}] (initial true))).

Definition a_txt_frame : Frame :=
  {| fr_rest := []; fr_file := a_txt; fr_fileId := "a.txt-1000"; fr_doc := 0;
     fr_ctrl := 0; fr_pill := Some 0; fr_pc := AwaitText |}.

Definition a_pdf_frame : Frame :=
  {| fr_rest := [(b_txt, 1001%Z)]; fr_file := a_pdf; fr_fileId := "a.pdf-1000";
     fr_doc := 0; fr_ctrl := 0; fr_pill := Some 0; fr_pc := AwaitGetDocument |}.

(** A selection with an image, a spreadsheet and a second image. *)
Definition b_png : File := {| file_name := "b.png"; file_type := "image/png" |}.

Definition c_csv : File := {| file_name := "c.csv"; file_type := "text/csv" |}.

Definition mixed_selection : list (File * Z) :=
  [(a_png, 1000%Z); (c_csv, 1000%Z); (b_png, 1001%Z)].

(** An image, a text file, a spreadsheet and a two page PDF selected
    together. *)
Definition mixed_documents : list Selected :=
  [{| sel_file := a_png; sel_now := 1000; sel_text := EmptyString; sel_pages := [] |};
   {| sel_file := a_txt; sel_now := 1001; sel_text := "abc"; sel_pages := [] |};
   {| sel_file := c_csv; sel_now := 1002; sel_text := "1,2"; sel_pages := [] |};
   {| sel_file := notes_pdf; sel_now := 1003; sel_text := EmptyString;
      sel_pages := two_pages |}].

(** The page with one reader started, for a.png. *)
Definition loading_a_png : State :=
  handleFileSelected (Some [(a_png, 1000%Z)]) (initial true).

(** A session in which " Ada " has been typed into the login form. *)
Definition typed_name : Session :=
  {| localStorage := ∅; loginOverlay_hidden := false; appLayout_hidden := true;
     headerUsername_text := EmptyString; usernameInput_value := " Ada " |}.


(** a.txt is selected and cannot be read. *)
Definition failing_a_txt : list Event :=
  [FilesSelected (Some [(a_txt, 1000%Z)]); HandlerResume (Rejected "NotReadableError")].

(** A question is sent and the answer fails to arrive. *)
Definition failing_stream : list Event :=
  [Typing "Why?"; Submit; SubmitResume true; SubmitResume true; SubmitResume false;
   SubmitResume true].

(** * Proof tools *)

(** Projections through the state updates compute. *)
Ltac fields :=
  cbn [attachedFiles attachedDocs docHeap ctrlHeap pillHeap container containerHidden
       chatInput_disabled sendButton_disabled imageUploadBtn_disabled
       docUploadBtn_disabled chatInput_value fileInput_value ai chat readers
       handler submitting log
       set_attachedFiles set_attachedDocs set_docHeap set_ctrlHeap set_pillHeap
       set_container set_chatInput_value set_fileInput_value set_chat set_readers
       set_handler set_submitting emit toggleChatForm
       on_pill renderAttachments updateProgress finally
       fr_rest fr_file fr_fileId fr_doc fr_ctrl fr_pill fr_pc with_pc] in *.

(** * Invariants of the event loop *)

Lemma progress_docs_app l1 l2 :
  progress_docs (l1 ++ l2) = progress_docs l1 ++ progress_docs l2.
Proof. apply omap_app. Qed.

Lemma sorted_snoc (l : list nat) (x : nat) :
  StronglySorted le l -> (forall y, In y l -> y <= x) ->
  StronglySorted le (l ++ [x]).
Proof.
  intros Hs Hb. apply StronglySorted_app. split; [|split].
  - intros y z Hy Hz. apply list_elem_of_In in Hy.
    apply list_elem_of_singleton in Hz. subst z. auto.
  - exact Hs.
  - repeat constructor.
Qed.

Lemma doc_at_heap s s' a : docHeap s' = docHeap s -> doc_at s' a = doc_at s a.
Proof. unfold doc_at. congruence. Qed.

(** [wf_heap] only reads the registry of documents, the two heaps and the
    record of calls. *)
Lemma wf_heap_ext s s' :
  attachedDocs s' = attachedDocs s -> docHeap s' = docHeap s ->
  length (ctrlHeap s') = length (ctrlHeap s) ->
  progress_docs (log s') = progress_docs (log s) ->
  wf_heap s -> wf_heap s'.
Proof.
  intros Hd Hh Hc Hl [H1 H2 H3 H4 H5].
  split; rewrite ?Hd, ?Hh, ?Hc, ?Hl; auto.
Qed.

(** A progress update of the document created last keeps the record in
    creation order. *)
Lemma wf_heap_progress s s' a st pct :
  attachedDocs s' = attachedDocs s -> docHeap s' = docHeap s ->
  length (ctrlHeap s') = length (ctrlHeap s) ->
  log s' = log s ++ [EUpdateProgress a st pct] ->
  S a = length (docHeap s) ->
  wf_heap s -> wf_heap s'.
Proof.
  intros Hd Hh Hc Hl Ha [H1 H2 H3 H4 H5].
  split; rewrite ?Hd, ?Hh, ?Hc, ?Hl, ?progress_docs_app; auto; cbn.
  - intros x Hx. apply in_app_or in Hx as [Hx|[<-|[]]]; [auto|lia].
  - apply sorted_snoc; [exact H5|]. intros y Hy. apply H4 in Hy. lia.
Qed.

Lemma begin_document_wf rest file now s :
  wf_heap s -> form_disabled s -> submitting s = None ->
  wf (begin_document rest file now s).
Proof.
  intros [H1 H2 H3 H4 H5] Hf Hsub.
  unfold begin_document.
  destruct (String.eqb (file_type file) "text/plain").
  all: split; [split|..]; unfold doc_at; fields.
  all: rewrite ?length_app, ?progress_docs_app; cbn [length progress_docs omap progress_doc].
  all: try (intros a Ha; apply in_app_or in Ha as [Ha|[<-|[]]];
            [try apply H1 in Ha; try apply H4 in Ha; lia | lia]).
  all: try (intros a d Ha; apply lookup_app_Some in Ha as [Ha|[Hl Ha]];
            [eauto | apply list_lookup_singleton_Some in Ha as [Hz <-]; cbn; f_equal; lia]).
  all: try lia.
  all: try (apply sorted_snoc; [exact H5 | intros y Hy; apply H4 in Hy; lia]).
  all: try (intros fr [= <-]; cbn; rewrite lookup_app_r by lia; rewrite Nat.sub_diag;
            cbn; repeat split; lia).
  all: try (intros _; exact Hf).
  all: try (right; exact Hsub).
Qed.

Lemma after_loop_wf s :
  wf_heap s -> submitting s = None -> wf (after_loop s).
Proof.
  intros Hh Hsub. unfold after_loop. split; fields.
  - eapply wf_heap_ext; [..|exact Hh]; fields; try reflexivity.
    rewrite progress_docs_app. cbn. apply app_nil_r.
  - intros fr [=].
  - rewrite Hsub. intros [[? [=]]|[? [=]]].
  - left; reflexivity.
Qed.

Lemma for_files_wf files : forall s,
  wf_heap s -> form_disabled s -> submitting s = None ->
  wf (for_files files s).
Proof.
  induction files as [|[file now] rest IH]; intros s Hh Hf Hsub; cbn [for_files].
  - apply after_loop_wf; assumption.
  - destruct (startsWith (file_type file) "image/").
    + apply IH; [|exact Hf|exact Hsub].
      eapply wf_heap_ext; [..|exact Hh]; reflexivity.
    + destruct (_ || _).
      * apply begin_document_wf; assumption.
      * apply IH; assumption.
Qed.

Lemma finish_document_heap fr text s :
  wf_heap s -> S (fr_doc fr) = length (docHeap s) ->
  wf_heap (finish_document fr text s).
Proof.
  intros [H1 H2 H3 H4 H5] Hlast. unfold finish_document.
  split; fields; rewrite ?length_alter, ?progress_docs_app;
    cbn [progress_docs omap progress_doc]; auto.
  - intros a d Ha. destruct (Nat.eq_dec (fr_doc fr) a) as [<-|Hne].
    + rewrite list_lookup_alter_eq in Ha.
      apply fmap_Some in Ha as (d0 & E & ->). cbn. eauto.
    + rewrite list_lookup_alter_ne in Ha by exact Hne. eauto.
  - intros a Ha. apply in_app_or in Ha as [Ha|[<-|[]]]; [auto|lia].
  - apply sorted_snoc; [exact H5|]. intros y Hy. apply H4 in Hy. lia.
Qed.

Lemma docs_without_In id s a : In a (docs_without id s) -> In a (attachedDocs s).
Proof. unfold docs_without. intros H. apply filter_In in H. tauto. Qed.

Lemma fail_document_heap fr s :
  wf_heap s -> S (fr_doc fr) = length (docHeap s) ->
  wf_heap (fail_document fr s).
Proof.
  intros [H1 H2 H3 H4 H5] Hlast. unfold fail_document.
  split; fields; rewrite ?progress_docs_app;
    cbn [progress_docs omap progress_doc]; rewrite ?app_nil_r; auto.
  - intros a Ha. apply docs_without_In in Ha. fields. auto.
  - intros a Ha. apply in_app_or in Ha as [Ha|[<-|[]]]; [auto|lia].
  - apply sorted_snoc; [exact H5|]. intros y Hy. apply H4 in Hy. lia.
Qed.

Lemma cancel_document_wf fr s :
  wf s -> handler s = Some fr -> wf (cancel_document fr s).
Proof.
  intros [Hh Hfr Hg He] Hfrm. unfold cancel_document. split; fields.
  - eapply wf_heap_ext; [..|exact Hh]; fields; try reflexivity.
    rewrite progress_docs_app. cbn. apply app_nil_r.
  - intros fr' [=].
  - destruct He as [He|He]; [congruence|]. rewrite He.
    intros [[? [=]]|[? [=]]].
  - left; reflexivity.
Qed.

Lemma form_disabled_keep s s' :
  chatInput_disabled s' = chatInput_disabled s ->
  sendButton_disabled s' = sendButton_disabled s ->
  imageUploadBtn_disabled s' = imageUploadBtn_disabled s ->
  docUploadBtn_disabled s' = docUploadBtn_disabled s ->
  form_disabled s -> form_disabled s'.
Proof. unfold form_disabled. intros -> -> -> ->. auto. Qed.

Lemma complete_wf fr text s :
  wf s -> handler s = Some fr -> wf (complete fr text s).
Proof.
  intros [Hh Hfr Hg He] Hfrm. destruct (Hfr _ Hfrm) as (Hlast & _ & _).
  unfold complete. apply for_files_wf.
  - apply finish_document_heap; assumption.
  - eapply form_disabled_keep; [..|apply Hg; left; eauto]; reflexivity.
  - destruct He as [He|He]; [congruence|exact He].
Qed.

Lemma catch_wf fr name s :
  wf s -> handler s = Some fr -> wf (catch fr name s).
Proof.
  intros Hwf Hfrm. unfold catch. destruct (String.eqb name "AbortError").
  - apply cancel_document_wf; assumption.
  - destruct Hwf as [Hh Hfr Hg He]. destruct (Hfr _ Hfrm) as (Hlast & _ & _).
    apply for_files_wf.
    + apply fail_document_heap; assumption.
    + eapply form_disabled_keep; [..|apply Hg; left; eauto]; reflexivity.
    + destruct He as [He|He]; [congruence|exact He].
Qed.

(** The handler stays suspended on the same document, after at most one
    progress update. *)
Lemma suspend_wf fr pc s s' :
  wf s -> handler s = Some fr ->
  attachedDocs s' = attachedDocs s -> docHeap s' = docHeap s ->
  ctrlHeap s' = ctrlHeap s ->
  (log s' = log s \/ exists st pct, log s' = log s ++ [EUpdateProgress (fr_doc fr) st pct]) ->
  chatInput_disabled s' = chatInput_disabled s ->
  sendButton_disabled s' = sendButton_disabled s ->
  imageUploadBtn_disabled s' = imageUploadBtn_disabled s ->
  docUploadBtn_disabled s' = docUploadBtn_disabled s ->
  submitting s' = submitting s ->
  handler s' = Some (with_pc fr pc) ->
  wf s'.
Proof.
  intros [Hh Hfr Hg He] Hfrm Hd Hp Hc Hl F1 F2 F3 F4 Hsub Hh'.
  destruct (Hfr _ Hfrm) as (Hlast & Hctrl & Hid).
  split.
  - destruct Hl as [Hl|(st & pct & Hl)].
    + eapply wf_heap_ext; [..|exact Hh]; congruence.
    + eapply wf_heap_progress; [..|exact Hh]; try eassumption; congruence.
  - intros fr' E. rewrite Hh' in E. injection E as <-. fields.
    rewrite Hp, (doc_at_heap s s' _ Hp). auto.
  - intros _. eapply form_disabled_keep; [..|apply Hg; left; eauto]; assumption.
  - right. destruct He as [He|He]; congruence.
Qed.

Lemma for_pages_wf fr n i text s :
  wf s -> handler s = Some fr -> wf (for_pages fr n i text s).
Proof.
  intros Hwf Hfrm. unfold for_pages. destruct (Nat.leb i n).
  - eapply suspend_wf; [exact Hwf|exact Hfrm|..]; fields; try reflexivity.
    right. eauto.
  - apply complete_wf; assumption.
Qed.

Lemma resume_wf fr o s s' :
  wf s -> handler s = Some fr -> resume fr o s = Some s' -> wf s'.
Proof.
  intros Hwf Hfrm. unfold resume. destruct o as [v|name].
  - destruct (fr_pc fr), v; intros [= <-].
    + apply complete_wf; assumption.
    + eapply suspend_wf; [exact Hwf|exact Hfrm|..]; fields; try reflexivity.
      right. eauto.
    + apply for_pages_wf; assumption.
    + eapply suspend_wf; [exact Hwf|exact Hfrm|..]; fields; try reflexivity.
      left. reflexivity.
    + apply for_pages_wf; assumption.
  - intros [= <-]. apply catch_wf; assumption.
Qed.

(** A step that leaves the suspended handlers and the form alone. *)
Lemma wf_control_ext s s' :
  wf_heap s' -> docHeap s' = docHeap s ->
  handler s' = handler s -> submitting s' = submitting s ->
  chatInput_disabled s' = chatInput_disabled s ->
  sendButton_disabled s' = sendButton_disabled s ->
  imageUploadBtn_disabled s' = imageUploadBtn_disabled s ->
  docUploadBtn_disabled s' = docUploadBtn_disabled s ->
  wf s -> wf s'.
Proof.
  intros Hh' Hp Hh Hsub F1 F2 F3 F4 [Hh0 Hfr Hg He].
  split; rewrite ?Hh, ?Hsub; auto.
  - intros fr E. rewrite Hp, (doc_at_heap s s' _ Hp). auto.
  - intros H. eapply form_disabled_keep; [..|apply Hg; exact H]; assumption.
Qed.

Lemma reader_onload_wf k url s s' :
  wf s -> reader_onload k url s = Some s' -> wf s'.
Proof.
  intros Hwf. unfold reader_onload. destruct (readers s !! k); intros [= <-].
  eapply wf_control_ext; [..|exact Hwf]; fields; try reflexivity.
  eapply wf_heap_ext; [..|apply Hwf]; reflexivity.
Qed.

Lemma signal_cancel_fields id s :
  let s' := signal_cancel id s in
  attachedFiles s' = attachedFiles s /\ attachedDocs s' = attachedDocs s /\
  docHeap s' = docHeap s /\ length (ctrlHeap s') = length (ctrlHeap s) /\
  progress_docs (log s') = progress_docs (log s) /\
  handler s' = handler s /\ submitting s' = submitting s /\
  chatInput_disabled s' = chatInput_disabled s /\
  sendButton_disabled s' = sendButton_disabled s /\
  imageUploadBtn_disabled s' = imageUploadBtn_disabled s /\
  docUploadBtn_disabled s' = docUploadBtn_disabled s /\
  fileInput_value s' = fileInput_value s /\ readers s' = readers s /\
  pillHeap s' = pillHeap s /\ container s' = container s.
Proof.
  unfold signal_cancel.
  destruct (docToCancel id s) as [a|]; [|cbn; repeat split; reflexivity].
  destruct (abortController (doc_at s a)) as [c|]; [|cbn; repeat split; reflexivity].
  unfold abort. cbn. fields. rewrite length_insert, progress_docs_app. cbn.
  rewrite app_nil_r. repeat split; reflexivity.
Qed.

Lemma signal_cancel_wf id s : wf s -> wf (signal_cancel id s).
Proof.
  intros Hwf. destruct (signal_cancel_fields id s) as
    (_ & E2 & E3 & E4 & E5 & E6 & E7 & E8 & E9 & E10 & E11 & _).
  eapply wf_control_ext; [..|exact Hwf]; try assumption.
  eapply wf_heap_ext; [..|apply Hwf]; assumption.
Qed.

Lemma discard_wf id s : wf s -> wf (discard id s).
Proof.
  intros Hwf. unfold discard.
  eapply wf_control_ext; [..|exact Hwf]; fields; try reflexivity.
  destruct Hwf as [[H1 H2 H3 H4 H5] _ _ _].
  split; fields; auto.
  intros a Ha. apply docs_without_In in Ha. fields. auto.
Qed.

Lemma removeAttachment_wf id answer s : wf s -> wf (removeAttachment id answer s).
Proof.
  intros Hwf. unfold removeAttachment.
  assert (Hc : wf (emit (EConfirm confirm_text) s)).
  { eapply wf_control_ext; [..|exact Hwf]; fields; try reflexivity.
    eapply wf_heap_ext; [..|apply Hwf]; fields; try reflexivity.
    rewrite progress_docs_app. cbn. apply app_nil_r. }
  destruct (isProcessing id s).
  - apply discard_wf, signal_cancel_wf, Hwf.
  - destruct answer; [|exact Hc]. apply discard_wf, signal_cancel_wf, Hc.
Qed.

Lemma clear_wf s :
  wf s -> wf (renderAttachments (set_attachedDocs [] (set_attachedFiles [] s))).
Proof.
  intros Hwf.
  eapply wf_control_ext; [..|exact Hwf]; fields; try reflexivity.
  destruct Hwf as [[H1 H2 H3 H4 H5] _ _ _].
  split; fields; auto. intros a [].
Qed.

Lemma handleNewChat_wf s : wf s -> wf (handleNewChat s).
Proof.
  intros Hwf. unfold handleNewChat. apply clear_wf in Hwf.
  destruct (ai _); [|exact Hwf].
  eapply wf_control_ext; [..|exact Hwf]; fields; try reflexivity.
  eapply wf_heap_ext; [..|apply Hwf]; reflexivity.
Qed.

Lemma not_disabled_idle s :
  wf s -> negb (sendButton_disabled s) = true \/
          negb (imageUploadBtn_disabled s && docUploadBtn_disabled s) = true ->
  handler s = None /\ submitting s = None.
Proof.
  intros [_ _ Hg _] Hen.
  destruct (handler s) as [fr|] eqn:Eh, (submitting s) as [pc|] eqn:Es; auto.
  all: exfalso; destruct Hg as (_ & F2 & F3 & F4); [eauto|];
    rewrite F2, F3, F4 in Hen; cbn in Hen; intuition discriminate.
Qed.

Lemma handleChatFormSubmit_wf s :
  wf s -> can_submit s = true -> wf (handleChatFormSubmit s).
Proof.
  intros Hwf Hen. unfold can_submit in Hen. apply andb_prop in Hen as [Hen _].
  destruct (not_disabled_idle s Hwf (or_introl Hen)) as [Hh Hs].
  unfold handleChatFormSubmit.
  destruct (_ && _); [exact Hwf|]. destruct (negb (chat s)).
  - eapply wf_control_ext; [..|exact Hwf]; fields; try reflexivity.
    eapply wf_heap_ext; [..|apply Hwf]; fields; try reflexivity.
    rewrite progress_docs_app. cbn. apply app_nil_r.
  - split; fields.
    + eapply wf_heap_ext; [..|apply Hwf]; reflexivity.
    + rewrite Hh. intros fr [=].
    + intros _. repeat split.
    + left. exact Hh.
Qed.

Lemma submit_resume_wf ok s s' : wf s -> submit_resume ok s = Some s' -> wf s'.
Proof.
  intros Hwf. unfold submit_resume.
  assert (Hend : forall pc, submitting s = Some pc -> wf (set_submitting None s)).
  { intros pc Es. destruct Hwf as [Hh Hf Hg He].
    destruct He as [He|He]; [|congruence].
    split; fields.
    - eapply wf_heap_ext; [..|apply Hh]; reflexivity.
    - rewrite He. intros fr [=].
    - rewrite He. intros [[? [=]]|[? [=]]].
    - left. exact He. }
  assert (Hfin : forall pc, submitting s = Some pc -> wf (submit_finally s)).
  { intros pc Es. destruct Hwf as [Hh _ Hg He].
    destruct He as [He|He]; [|congruence].
    unfold submit_finally. split; fields.
    - eapply wf_heap_ext; [..|apply Hh]; fields; try reflexivity.
      rewrite progress_docs_app. cbn. apply app_nil_r.
    - rewrite He. intros fr [=].
    - rewrite He. intros [[? [=]]|[? [=]]].
    - left. exact He. }
  destruct (submitting s) as [[u|parts| |]|] eqn:Es; [destruct ok..| |];
    intros [= <-]; eauto.
  - assert (Hc := clear_wf s Hwf). destruct Hwf as [_ _ Hg He].
    destruct He as [He|He]; [|congruence].
    split; fields.
    + eapply wf_heap_ext; [..|apply Hc]; reflexivity.
    + rewrite He. intros fr [=].
    + intros _. eapply form_disabled_keep; [..|apply Hg; right; eauto]; reflexivity.
    + left. exact He.
  - destruct Hwf as [Hh _ Hg He].
    destruct He as [He|He]; [|congruence].
    split; fields.
    + eapply wf_heap_ext; [..|apply Hh]; fields; try reflexivity.
      rewrite progress_docs_app. cbn. apply app_nil_r.
    + rewrite He. intros fr [=].
    + intros _. eapply form_disabled_keep; [..|apply Hg; right; eauto]; reflexivity.
    + left. exact He.
  - destruct Hwf as [Hh _ Hg He].
    destruct He as [He|He]; [|congruence].
    split; fields.
    + eapply wf_heap_ext; [..|apply Hh]; fields; try reflexivity.
      rewrite progress_docs_app. cbn. apply app_nil_r.
    + rewrite He. intros fr [=].
    + intros _. eapply form_disabled_keep; [..|apply Hg; right; eauto]; reflexivity.
    + left. exact He.
Qed.

Lemma handleFileSelected_wf files s :
  wf s -> can_select s = true ->
  wf (handleFileSelected files (browser_value files s)).
Proof.
  intros Hwf Hen. unfold can_select in Hen. apply andb_prop in Hen as [Hen _].
  destruct (not_disabled_idle s Hwf (or_intror Hen)) as [Hh Hs].
  destruct files as [fs|]; [|exact Hwf]. cbn [handleFileSelected].
  apply for_files_wf.
  - eapply wf_heap_ext; [| | | |apply Hwf]; destruct fs as [|[f t] fs']; reflexivity.
  - repeat split.
  - destruct fs as [|[f t] fs']; exact Hs.
Qed.

Theorem wf_dispatch e s s' : wf s -> dispatch e s = Some s' -> wf s'.
Proof.
  intros Hwf. destruct e as [files|o|k url|id answer| |value| |ok]; cbn [dispatch].
  - destruct (can_select s) eqn:E; intros [= <-].
    apply handleFileSelected_wf; assumption.
  - destruct (handler s) as [fr|] eqn:E; [|discriminate].
    apply resume_wf; assumption.
  - apply reader_onload_wf; assumption.
  - intros [= <-]. apply removeAttachment_wf; assumption.
  - intros [= <-]. apply handleNewChat_wf; assumption.
  - destruct (chatInput_disabled s); intros [= <-].
    eapply wf_control_ext; [..|exact Hwf]; fields; try reflexivity.
    eapply wf_heap_ext; [..|apply Hwf]; reflexivity.
  - destruct (can_submit s) eqn:E; intros [= <-].
    apply handleChatFormSubmit_wf; assumption.
  - apply submit_resume_wf; assumption.
Qed.

Lemma wf_run es : forall s s', wf s -> run es s = Some s' -> wf s'.
Proof.
  induction es as [|e es IH]; intros s s' Hwf; cbn [run].
  - intros [= <-]. exact Hwf.
  - destruct (dispatch e s) as [s1|] eqn:E; [|discriminate].
    apply IH. eapply wf_dispatch; eassumption.
Qed.

Lemma wf_initial connected : wf (initial connected).
Proof.
  split; [split|..]; cbn; try tauto; try lia.
  - intros a d. rewrite lookup_nil. discriminate.
  - constructor.
  - discriminate.
  - intros [[? [=]]|[? [=]]].
Qed.

Lemma reachable_wf s : reachable s -> wf s.
Proof. intros (c & es & H). eapply wf_run; [apply wf_initial|exact H]. Qed.

Lemma run_app es1 es2 s :
  run (es1 ++ es2) s = match run es1 s with Some s1 => run es2 s1 | None => None end.
Proof.
  revert s. induction es1 as [|e es1 IH]; intros s; cbn [run app]; [reflexivity|].
  destruct (dispatch e s); [apply IH|reflexivity].
Qed.

Lemma reachable_run es s s' : reachable s -> run es s = Some s' -> reachable s'.
Proof.
  intros (c & es0 & H0) H. exists c, (es0 ++ es). rewrite run_app, H0. exact H.
Qed.

(** * The progress updates of a PDF (lines 306-321) *)

Lemma append_assoc (a b c : string) : (a +:+ b) +:+ c = a +:+ b +:+ c.
Proof.
  induction a as [|x a IH]; [reflexivity|].
  change (String x ((a +:+ b) +:+ c) = String x (a +:+ b +:+ c)). now rewrite IH.
Qed.

Lemma append_nil_r (a : string) : a +:+ EmptyString = a.
Proof.
  induction a as [|x a IH]; [reflexivity|].
  change (String x (a +:+ EmptyString) = String x a). now rewrite IH.
Qed.

Lemma progress_calls_app l1 l2 :
  progress_calls (l1 ++ l2) = progress_calls l1 ++ progress_calls l2.
Proof. apply omap_app. Qed.

Lemma progress_docs_calls l : progress_docs l = map (fun c => fst (fst c)) (progress_calls l).
Proof.
  induction l as [|e l IH]; [reflexivity|].
  destruct e; cbn; try exact IH. f_equal. exact IH.
Qed.

(** An event that is not a handler step leaves the suspended handler, the
    document objects and the progress updates as they are. *)
Lemma quiet_dispatch e s s' :
  quiet e = true -> dispatch e s = Some s' ->
  handler s' = handler s /\ docHeap s' = docHeap s /\
  progress_calls (log s') = progress_calls (log s).
Proof.
  destruct e as [files|o|k url|id answer| |value| |ok]; try discriminate;
    intros _; cbn [dispatch].
  - unfold reader_onload. destruct (readers s !! k); intros [= <-].
    fields. auto.
  - intros [= <-]. unfold removeAttachment, discard.
    assert (Hsig : forall s0, handler (signal_cancel id s0) = handler s0 /\
        docHeap (signal_cancel id s0) = docHeap s0 /\
        progress_calls (log (signal_cancel id s0)) = progress_calls (log s0)).
    { intros s0. unfold signal_cancel.
      destruct (docToCancel id s0) as [a|]; [|auto].
      destruct (abortController (doc_at s0 a)) as [c|]; [|auto].
      unfold abort. fields. rewrite progress_calls_app. cbn.
      rewrite app_nil_r. auto. }
    destruct (isProcessing id s); [|destruct answer]; fields.
    + apply Hsig.
    + destruct (Hsig (emit (EConfirm confirm_text) s)) as (-> & -> & ->).
      fields. rewrite progress_calls_app. cbn. rewrite app_nil_r. auto.
    + rewrite progress_calls_app. cbn. rewrite app_nil_r. auto.
  - intros [= <-]. unfold handleNewChat. destruct (ai _); fields; auto.
  - destruct (chatInput_disabled s); intros [= <-]. fields. auto.
  - destruct (can_submit s); intros [= <-]. unfold handleChatFormSubmit.
    destruct (_ && _); [auto|]. destruct (negb (chat s)); fields; [|auto].
    rewrite progress_calls_app. cbn. rewrite app_nil_r. auto.
  - unfold submit_resume, submit_finally. destruct (submitting s) as [[u|parts| |]|]; try destruct ok; intros [= <-];
      fields; rewrite ?progress_calls_app; cbn; rewrite ?app_nil_r; auto.
Qed.

Lemma settles_nil_inv s s1 : settles [] s s1 -> s1 = s.
Proof. inversion 1; reflexivity. Qed.

(** Up to the next outcome only the registry and the page change. *)
Lemma settles_cons_inv o os s s1 :
  settles (o :: os) s s1 ->
  exists s' s'', handler s' = handler s /\ docHeap s' = docHeap s /\
    progress_calls (log s') = progress_calls (log s) /\
    dispatch (HandlerResume o) s' = Some s'' /\ settles os s'' s1.
Proof.
  remember (o :: os) as l eqn:El. intros H. revert o os El.
  induction H as [s|e s s' o' os' s1 Hq Hd H IH|o' os' s s' s1 Hd H IH];
    intros o os El; [discriminate|..].
  - destruct (IH _ _ El) as (t & t' & E1 & E2 & E3 & E4 & E5).
    destruct (quiet_dispatch _ _ _ Hq Hd) as (Q1 & Q2 & Q3).
    exists t, t'. repeat split; try congruence.
  - injection El as -> ->. exists s, s'. auto.
Qed.


Lemma doc_at_finish fr text s :
  fr_doc fr < length (docHeap s) ->
  textContent (doc_at (finish_document fr text s) (fr_doc fr)) = text.
Proof.
  intros Hlt. unfold finish_document, doc_at. fields.
  rewrite list_lookup_alter_eq.
  destruct (lookup_lt_is_Some_2 (docHeap s) (fr_doc fr) Hlt) as [d Hd].
  rewrite Hd. reflexivity.
Qed.




(** A selection whose first file is a PDF gets to [begin_document] at once. *)
Lemma select_pdf_begins s file now rest :
  can_select s = true -> file_type file = "application/pdf" ->
  dispatch (FilesSelected (Some ((file, now) :: rest))) s
  = Some (begin_document rest file now
            (toggleChatForm false
               (set_fileInput_value ("C:\fakepath\" +:+ file_name file) s))).
Proof.
  intros Hs Hty. cbn [dispatch]. rewrite Hs.
  cbn [handleFileSelected browser_value for_files]. unfold startsWith.
  rewrite Hty. reflexivity.
Qed.

Lemma join_concat sep items :
  join sep items = String.concat sep (map (default EmptyString) items).
Proof.
  induction items as [|x [|y items] IH]; [reflexivity..|].
  change (default EmptyString x +:+ sep +:+ join sep (y :: items)
          = default EmptyString x +:+ sep
            +:+ String.concat sep (map (default EmptyString) (y :: items))).
  rewrite IH. reflexivity.
Qed.







Example pdf_progress_example :
  option_map (fun s => (progress_calls (log s), textContent (doc_at s 0)))
    (run (FilesSelected (Some [(notes_pdf, 1000%Z)])
          :: map HandlerResume (pdf_outcomes two_pages)) (initial true))
  = Some ([(0, "Reading document...", Some 5%Q);
           (0, "Parsing PDF...", Some 15%Q);
           (0, "Extracting text (Page 1 of 2)...", Some 50%Q);
           (0, "Extracting text (Page 2 of 2)...", Some 85%Q);
           (0, "notes.pdf", None)],
          "Hello world" +:+ nl +:+ nl +:+ "bye" +:+ nl +:+ nl).
Proof. vm_compute. reflexivity. Qed.

(** * The outgoing message (lines 178-216) *)

Lemma prompt_not_empty (x y : string) :
  String.eqb (x +:+ doc_separator +:+ y) EmptyString = false.
Proof. destruct x; reflexivity. Qed.

Lemma prompt_spec docs u :
  join doc_separator (map (fun d => Some (render_doc d)) docs)
  +:+ doc_separator +:+ instruction +:+ u
  = spec_prompt docs u.
Proof.
  unfold spec_prompt. rewrite join_concat, map_map. reflexivity.
Qed.

(** The parts in terms of the registry: the images first, then at most one
    text part. *)
Lemma composeParts_spec files docs u :
  exists text_parts,
    composeParts files docs u
      = map (fun f => InlineData (mimeType f) (base64 f)) files ++ text_parts /\
    (docs <> [] -> text_parts = [TextPart (spec_prompt docs u)]) /\
    (docs = [] -> u <> EmptyString -> text_parts = [TextPart u]) /\
    (docs = [] -> u = EmptyString -> text_parts = []).
Proof.
  unfold composeParts. eexists. split; [reflexivity|].
  destruct docs as [|d docs].
  - split; [congruence|]. split; intros _ Hu.
    + apply String.eqb_neq in Hu. rewrite Hu. reflexivity.
    + subst u. reflexivity.
  - split; [|split; discriminate]. intros _.
    rewrite prompt_not_empty, prompt_spec. reflexivity.
Qed.

(** C2.  A send first checks its guard: with an empty trimmed input and no
    attachment it changes nothing.  Otherwise (the chat being initialised) it
    keeps the trimmed input [u] and disables the form.  When the bubble of
    the user is shown and the history saved, it composes the message: one
    inline part per image of the registry, in order, followed by at most one
    text part: with documents, each document rendered as DOCUMENT: "name",
    two newlines and its text, joined by the separator, then the separator,
    the instruction line and [u]; without documents just [u], and no text
    part at all when [u] is empty.  When the bubble of the answer is shown,
    these parts are what is passed to the chat service.  When one of these
    two steps fails (lines 193-219 are outside the [try] block; line 195
    throws when the history cannot be stored), the handler ends there:
    nothing is passed to the chat service and the form stays disabled; the
    registries are as they were if the first step fails, and cleared if the
    second does. *)
Theorem composed_message_parts (s : State) :
  (trim (chatInput_value s) = EmptyString -> attachedFiles s = [] ->
   attachedDocs s = [] -> handleChatFormSubmit s = s) /\
  (chat s = true ->
   ~ (trim (chatInput_value s) = EmptyString /\ attachedFiles s = [] /\ attachedDocs s = []) ->
   submitting (handleChatFormSubmit s) = Some (AwaitUserBubble (trim (chatInput_value s))) /\
   attachedFiles (handleChatFormSubmit s) = attachedFiles s /\
   attachedDocs (handleChatFormSubmit s) = attachedDocs s /\
   docHeap (handleChatFormSubmit s) = docHeap s /\
   sendButton_disabled (handleChatFormSubmit s) = true) /\
  (forall u, submitting s = Some (AwaitUserBubble u) ->
   exists text_parts s1 s2,
     let docs := map (doc_at s) (attachedDocs s) in
     let parts := map (fun f => InlineData (mimeType f) (base64 f)) (attachedFiles s)
                  ++ text_parts in
     dispatch (SubmitResume true) s = Some s1 /\
     submitting s1 = Some (AwaitAiBubble parts) /\ log s1 = log s /\
     attachedFiles s1 = [] /\ attachedDocs s1 = [] /\
     dispatch (SubmitResume true) s1 = Some s2 /\
     log s2 = log s ++ [ESendMessageStream parts] /\
     (docs <> [] -> text_parts = [TextPart (spec_prompt docs u)]) /\
     (docs = [] -> u <> EmptyString -> text_parts = [TextPart u]) /\
     (docs = [] -> u = EmptyString -> text_parts = []) /\
     dispatch (SubmitResume false) s
       = Some (set_submitting None s) /\
     dispatch (SubmitResume false) s1 = Some (set_submitting None s1)).
Proof.
  split; [|split].
  - intros Hu Hf Hd. unfold handleChatFormSubmit. rewrite Hu, Hf, Hd. reflexivity.
  - intros Hc Hne. unfold handleChatFormSubmit.
    destruct (String.eqb (trim (chatInput_value s)) EmptyString
              && Nat.eqb (length (attachedFiles s) + length (attachedDocs s)) 0) eqn:E.
    + exfalso. apply Hne. apply andb_prop in E as [E1 E2].
      apply String.eqb_eq in E1. apply Nat.eqb_eq in E2.
      destruct (attachedFiles s), (attachedDocs s); try discriminate. auto.
    + rewrite Hc. cbn [negb]. fields. repeat split.
  - intros u Hs.
    destruct (composeParts_spec (attachedFiles s) (map (doc_at s) (attachedDocs s)) u)
      as (text_parts & Hparts & H1 & H2 & H3).
    exists text_parts. cbn [dispatch]. unfold submit_resume at 1 3. rewrite Hs.
    eexists _, _. cbn zeta. split; [reflexivity|]. fields.
    split; [rewrite Hparts; reflexivity|]. split; [reflexivity|].
    split; [reflexivity|]. split; [reflexivity|].
    unfold submit_resume. fields.
    split; [reflexivity|]. fields. rewrite Hparts. repeat split; auto.
Qed.

Lemma composed_message_parts_witness :
  (trim (chatInput_value typed_blank) = EmptyString /\
   handleChatFormSubmit typed_blank = typed_blank) /\
  (chat typed_question = true /\
   submitting (handleChatFormSubmit typed_question) = Some (AwaitUserBubble "What is a cell?")) /\
  (submitting one_document = Some (AwaitUserBubble "Summarise it") /\
   exists s1 s2,
     dispatch (SubmitResume true) one_document = Some s1 /\
     dispatch (SubmitResume true) s1 = Some s2 /\
     log s2 = [ESendMessageStream
                 [TextPart ("DOCUMENT: " +:+ dquote +:+ "a.txt" +:+ dquote +:+ nl +:+ nl
                            +:+ "abc" +:+ nl +:+ nl +:+ "---" +:+ nl +:+ nl
                            +:+ "Based on the document(s) provided, please respond to the following: Summarise it")]]).
Proof.
  split; [split; [reflexivity|]|split; [split; [reflexivity|]|split; [reflexivity|]]].
  - exact (proj1 (composed_message_parts typed_blank) eq_refl eq_refl eq_refl).
  - refine (proj1 (proj1 (proj2 (composed_message_parts typed_question)) eq_refl _)).
    intros [H _]. vm_compute in H. discriminate.
  - destruct (proj2 (proj2 (composed_message_parts one_document)) "Summarise it" eq_refl)
      as (text_parts & s1 & s2 & H1 & _ & _ & _ & _ & H2 & H3 & H4 & _).
    exists s1, s2. split; [exact H1|]. split; [exact H2|].
    rewrite H3, (H4 ltac:(discriminate)). reflexivity.
Defined.

Example composed_message_example :
  composeParts
    [{| f_id := "p.png-1"; f_name := "p.png"; base64 := Some "AAAA";
        mimeType := "image/png"; sourceUrl := "data:image/png;base64,AAAA" |}]
    [{| d_id := "a.txt-2"; d_name := "a.txt"; textContent := "abc";
        summary := None; abortController := Some 0 |};
     {| d_id := "b.txt-3"; d_name := "b.txt"; textContent := "de";
        summary := None; abortController := Some 1 |}]
    "Compare them"
  = [InlineData "image/png" (Some "AAAA");
     TextPart ("DOCUMENT: " +:+ dquote +:+ "a.txt" +:+ dquote +:+ nl +:+ nl +:+ "abc"
               +:+ nl +:+ nl +:+ "---" +:+ nl +:+ nl
               +:+ "DOCUMENT: " +:+ dquote +:+ "b.txt" +:+ dquote +:+ nl +:+ nl +:+ "de"
               +:+ nl +:+ nl +:+ "---" +:+ nl +:+ nl
               +:+ "Based on the document(s) provided, please respond to the following: Compare them")].
Proof. vm_compute. reflexivity. Qed.

(** * Removing an attachment (lines 342-354) *)

Lemma docToCancel_Some id s a :
  docToCancel id s = Some a -> In a (attachedDocs s) /\ d_id (doc_at s a) = id.
Proof.
  unfold docToCancel. intros H. apply find_some in H as [H1 H2].
  apply String.eqb_eq in H2. auto.
Qed.

Lemma docToCancel_None id s a :
  docToCancel id s = None -> In a (attachedDocs s) -> d_id (doc_at s a) <> id.
Proof.
  unfold docToCancel. intros H Ha. apply (find_none _ _ H) in Ha.
  apply String.eqb_neq in Ha. exact Ha.
Qed.

Lemma discard_files id s f :
  In f (attachedFiles (discard id s)) <-> In f (attachedFiles s) /\ f_id f <> id.
Proof.
  unfold discard. fields. rewrite filter_In, negb_true_iff, String.eqb_neq. tauto.
Qed.

Lemma discard_docs id s a :
  In a (attachedDocs (discard id s)) <-> In a (attachedDocs s) /\ d_id (doc_at s a) <> id.
Proof.
  unfold discard, docs_without. fields.
  rewrite filter_In, negb_true_iff, String.eqb_neq. unfold doc_at. fields. tauto.
Qed.

(** [removeAttachment id]: when the pill with that id carries the
    'processing' class the attachment is removed without the dialog being
    shown, whatever the user would have answered; otherwise the dialog is shown
    first, declining it changes neither registry (nor anything but the record
    of the dialog), and accepting it removes.  Removing first signals the
    controller of the registered document with that id, while the document
    is still registered, and then drops from both registries exactly the
    attachments with that id, keeping all others in order. *)
Lemma removeAttachment_cases (id : string) (s : State) :
  (isProcessing id s = true -> forall answer,
     removeAttachment id answer s = discard id (signal_cancel id s) /\
     forall m, In (EConfirm m) (log (removeAttachment id answer s)) ->
               In (EConfirm m) (log s)) /\
  (isProcessing id s = false ->
     removeAttachment id false s = emit (EConfirm confirm_text) s /\
     attachedFiles (removeAttachment id false s) = attachedFiles s /\
     attachedDocs (removeAttachment id false s) = attachedDocs s /\
     removeAttachment id true s
       = discard id (signal_cancel id (emit (EConfirm confirm_text) s))) /\
  (forall s0, s0 = s \/ s0 = emit (EConfirm confirm_text) s ->
     let s1 := signal_cancel id s0 in
     let s2 := discard id s1 in
     (attachedFiles s1 = attachedFiles s /\ attachedDocs s1 = attachedDocs s /\
      docHeap s1 = docHeap s) /\
     (forall a c, docToCancel id s = Some a -> abortController (doc_at s a) = Some c ->
        c < length (ctrlHeap s) ->
        ctrlHeap s1 !! c = Some true /\ In a (attachedDocs s1) /\
        In (EAbort c) (log s1)) /\
     (forall c, ctrlHeap s1 !! c <> ctrlHeap s !! c ->
        exists a, docToCancel id s = Some a /\ abortController (doc_at s a) = Some c) /\
     (forall f, In f (attachedFiles s2) <-> In f (attachedFiles s) /\ f_id f <> id) /\
     (forall a, In a (attachedDocs s2) <-> In a (attachedDocs s) /\ d_id (doc_at s a) <> id) /\
     attachedFiles s2 = List.filter (fun f => negb (String.eqb (f_id f) id)) (attachedFiles s) /\
     attachedDocs s2 = docs_without id s /\
     docHeap s2 = docHeap s).
Proof.
  assert (Hsig : forall s0, s0 = s \/ s0 = emit (EConfirm confirm_text) s ->
            docToCancel id s0 = docToCancel id s /\
            (forall a, doc_at s0 a = doc_at s a) /\
            attachedFiles s0 = attachedFiles s /\ attachedDocs s0 = attachedDocs s /\
            docHeap s0 = docHeap s /\ ctrlHeap s0 = ctrlHeap s).
  { intros s0 [->| ->]; repeat split. }
  split; [|split].
  - intros Hp answer. unfold removeAttachment. rewrite Hp. split; [reflexivity|].
    intros m. unfold discard. fields. unfold signal_cancel.
    destruct (docToCancel id s) as [a|]; [|auto].
    destruct (abortController (doc_at s a)) as [c|]; [|auto].
    unfold abort. fields. intros H. apply in_app_or in H as [H|[H|[]]]; [exact H|discriminate].
  - intros Hp. unfold removeAttachment. rewrite Hp. repeat split.
  - intros s0 Hs0. destruct (Hsig s0 Hs0) as (Ec & Ed & Ef & Ea & Eh & Ect).
    cbn zeta.
    destruct (signal_cancel_fields id s0) as (F1 & F2 & F3 & _).
    split; [repeat split; congruence|].
    split; [|split; [|split; [|split; [|split; [|split]]]]].
    + intros a c Ha Hc Hlt. unfold signal_cancel. rewrite Ec, Ha, Ed, Hc.
      unfold abort. fields. rewrite Ect, Ea.
      split; [apply list_lookup_insert_eq; exact Hlt|].
      split; [apply docToCancel_Some in Ha; tauto|].
      apply in_or_app. right. left. reflexivity.
    + intros c Hne. unfold signal_cancel in Hne. rewrite Ec in Hne.
      destruct (docToCancel id s) as [a|]; [|congruence].
      rewrite Ed in Hne.
      destruct (abortController (doc_at s a)) as [c'|] eqn:Ec'; [|congruence].
      destruct (Nat.eq_dec c' c) as [->|Hcc]; [eauto|].
      contradict Hne. unfold abort. fields. rewrite Ect.
      apply list_lookup_insert_ne. exact Hcc.
    + intros f. rewrite discard_files, F1, Ef. reflexivity.
    + intros a. rewrite discard_docs, F2, Ea.
      rewrite (doc_at_heap s (signal_cancel id s0)) by congruence. reflexivity.
    + unfold discard. fields. rewrite F1, Ef. reflexivity.
    + unfold discard, docs_without. fields. rewrite F2, Ea.
      apply filter_ext. intros a. unfold doc_at. fields. rewrite F3, Eh. reflexivity.
    + unfold discard. fields. congruence.
Qed.

(** C7.  Removing works as claimed as far as the dialog is concerned when
    it is shown: declining it changes neither registry, accepting it first
    signals the controller of the registered document with that id and then
    drops from both registries exactly the attachments with that id.  But an
    item that is being processed is not always removed without the dialog:
    the code takes the 'processing' state from the class of the pill now
    shown (line 343), and that class is only ever put on the element the
    handler took from the page when it created the document (line 301).
    When a.png and b.pdf are selected together and the image loads while
    b.pdf is read, the list is rendered anew; [handleFileSelected] is still
    suspended on b.pdf, which is registered with its text still empty, but
    the pill now shown for b.pdf does not carry 'processing': a click on its
    remove button shows the dialog, and when the user declines, b.pdf stays
    attached and its controller is not signalled. *)
Theorem processing_item_asks_after_rerender :
  (forall id s,
     (isProcessing id s = false ->
        removeAttachment id false s = emit (EConfirm confirm_text) s /\
        attachedFiles (removeAttachment id false s) = attachedFiles s /\
        attachedDocs (removeAttachment id false s) = attachedDocs s /\
        removeAttachment id true s
          = discard id (signal_cancel id (emit (EConfirm confirm_text) s))) /\
     (forall s0, s0 = s \/ s0 = emit (EConfirm confirm_text) s ->
        let s1 := signal_cancel id s0 in
        let s2 := discard id s1 in
        (forall a c, docToCancel id s = Some a -> abortController (doc_at s a) = Some c ->
           c < length (ctrlHeap s) ->
           ctrlHeap s1 !! c = Some true /\ In a (attachedDocs s1) /\
           In (EAbort c) (log s1)) /\
        (forall f, In f (attachedFiles s2) <-> In f (attachedFiles s) /\ f_id f <> id) /\
        (forall a, In a (attachedDocs s2) <->
                   In a (attachedDocs s) /\ d_id (doc_at s a) <> id))) /\
  exists s fr s',
    run rendering_anew (initial true) = Some s /\
    handler s = Some fr /\ fr_fileId fr = "b.pdf-1001" /\
    fr_pc fr = AwaitArrayBuffer /\ attachedDocs s = [fr_doc fr] /\
    d_id (doc_at s (fr_doc fr)) = "b.pdf-1001" /\
    textContent (doc_at s (fr_doc fr)) = EmptyString /\
    shown s
    = [Some {| pill_id := "a.png-1000"; pill_kind := ImagePill; cls_processing := false;
               cls_error := false; inner := Thumbnail |};
       Some {| pill_id := "b.pdf-1001"; pill_kind := DocPill; cls_processing := false;
               cls_error := false; inner := Details "b.pdf" true None |}] /\
    isProcessing "b.pdf-1001" s = false /\
    dispatch (RemoveClick "b.pdf-1001" false) s = Some s' /\
    log s' = log s ++ [EConfirm confirm_text] /\
    attachedDocs s' = attachedDocs s /\ ctrlHeap s' = ctrlHeap s /\
    handler s' = Some fr.
Proof.
  split.
  - intros id s. destruct (removeAttachment_cases id s) as (_ & H2 & H3).
    split; [exact H2|]. intros s0 Hs0. destruct (H3 s0 Hs0) as (_ & H4 & _ & H5 & H6 & _).
    cbn zeta in *. auto.
  - eexists _, _, _. split; [vm_compute; reflexivity|].
    split; [reflexivity|]. vm_compute. repeat split.
Qed.

Example processing_item_asks_after_second_selection :
  option_map (fun s => (isProcessing "b.pdf-2000" s, is_suspended s, attachedDocs s,
                        log (removeAttachment "b.pdf-2000" false s),
                        attachedDocs (removeAttachment "b.pdf-2000" false s)))
    (run image_loads_while_pdf_is_read (initial true))
  = Some (false, true, [0],
          [EFocus; EUpdateProgress 0 "Reading document..." (Some 5%Q);
           EConfirm confirm_text], [0]).
Proof. vm_compute. reflexivity. Qed.

Example remove_processing_example :
  option_map (fun s => (attachedDocs s, ctrlHeap s, log s))
    (run [FilesSelected (Some [(a_txt, 1000%Z)]); RemoveClick "a.txt-1000" false]
       (initial true))
  = Some ([], [true],
          [EUpdateProgress 0 "Reading document..." (Some 25%Q); EAbort 0]).
Proof. vm_compute. reflexivity. Qed.

Example remove_completed_declined_example :
  option_map (fun s => (attachedDocs s, ctrlHeap s, log s))
    (run [FilesSelected (Some [(a_txt, 1000%Z)]); HandlerResume (Resolved (VText "abc"));
          RemoveClick "a.txt-1000" false] (initial true))
  = Some ([0], [false],
          [EUpdateProgress 0 "Reading document..." (Some 25%Q);
           EUpdateProgress 0 "a.txt" None; EFocus; EConfirm confirm_text]).
Proof. vm_compute. reflexivity. Qed.

(** The class is that of the pill now shown.  When an image of the same
    selection loads while b.pdf is read, the list is rendered anew: the
    handler is still suspended on b.pdf, but the pill now shown for it does
    not carry 'processing', and removing it shows the dialog. *)
Example rerendered_pill_is_not_processing :
  option_map (fun s => (isProcessing "b.pdf-1001" s, is_suspended s,
                        log (removeAttachment "b.pdf-1001" false s)))
    (run rendering_anew (initial true))
  = Some (false, true,
          [EUpdateProgress 0 "Reading document..." (Some 5%Q); EConfirm confirm_text]).
Proof. vm_compute. reflexivity. Qed.

(** * Document objects and the registry along a run *)

(** Files the loop passes over create at most one document: the loop then
    suspends.  Existing document objects are not touched. *)
Lemma begin_document_objects rest file now s b d :
  docHeap s !! b = Some d -> docHeap (begin_document rest file now s) !! b = Some d.
Proof.
  intros H. unfold begin_document.
  destruct (String.eqb (file_type file) "text/plain"); fields;
    apply lookup_app_l_Some; exact H.
Qed.

Lemma begin_document_registry rest file now s :
  attachedDocs (begin_document rest file now s) = attachedDocs s ++ [length (docHeap s)] /\
  attachedFiles (begin_document rest file now s) = attachedFiles s.
Proof.
  unfold begin_document.
  destruct (String.eqb (file_type file) "text/plain"); fields; auto.
Qed.

Lemma for_files_objects files : forall s b d,
  docHeap s !! b = Some d -> docHeap (for_files files s) !! b = Some d.
Proof.
  induction files as [|[file now] rest IH]; intros s b d H; cbn [for_files].
  - exact H.
  - destruct (startsWith (file_type file) "image/"); [apply IH; exact H|].
    destruct (_ || _); [apply begin_document_objects; exact H|apply IH; exact H].
Qed.

Lemma for_files_registry files : forall s,
  attachedFiles (for_files files s) = attachedFiles s /\
  (attachedDocs (for_files files s) = attachedDocs s \/
   attachedDocs (for_files files s) = attachedDocs s ++ [length (docHeap s)]).
Proof.
  induction files as [|[file now] rest IH]; intros s; cbn [for_files].
  - unfold after_loop. fields. auto.
  - destruct (startsWith (file_type file) "image/"); [exact (IH _)|].
    destruct (_ || _); [|apply IH].
    destruct (begin_document_registry rest file now s) as [-> ->]. auto.
Qed.

(** What one event does to an existing document object: nothing, unless the
    event resumes the handler working on this very object, which then has
    its text set. *)
Lemma dispatch_objects e s s' b d :
  dispatch e s = Some s' -> docHeap s !! b = Some d ->
  docHeap s' !! b = Some d \/
  exists o fr t, e = HandlerResume o /\ handler s = Some fr /\ b = fr_doc fr /\
                 docHeap s' !! b = Some (set_textContent t d).
Proof.
  intros Hd Hb.
  destruct e as [files|o|k url|id answer| |value| |ok]; cbn [dispatch] in Hd.
  - destruct (can_select s); [|discriminate]. injection Hd as <-. left.
    destruct files as [fs|]; [|exact Hb]. cbn [handleFileSelected].
    apply for_files_objects. destruct fs as [|[f t] fs']; exact Hb.
  - destruct (handler s) as [fr|] eqn:Eh; [|discriminate].
    assert (Hfin : forall t, docHeap (complete fr t s) !! b = Some d \/
              exists o fr0 t0, HandlerResume o = HandlerResume o /\ Some fr = Some fr0 /\
                b = fr_doc fr0 /\ docHeap (complete fr t s) !! b = Some (set_textContent t0 d)).
    { intros t. unfold complete.
      destruct (Nat.eq_dec (fr_doc fr) b) as [<-|Hne].
      - right. exists o, fr, t. repeat split. apply for_files_objects.
        unfold finish_document. fields. rewrite list_lookup_alter_eq, Hb. reflexivity.
      - left. apply for_files_objects. unfold finish_document. fields.
        rewrite list_lookup_alter_ne by exact Hne. exact Hb. }
    assert (Hfin' : forall t, docHeap (complete fr t s) !! b = Some d \/
              exists o0 fr0 t0, HandlerResume o = HandlerResume o0 /\ Some fr = Some fr0 /\
                b = fr_doc fr0 /\ docHeap (complete fr t s) !! b = Some (set_textContent t0 d)).
    { intros t. destruct (Hfin t) as [H|(o0 & fr0 & t0 & _ & H)]; [auto|].
      right. exists o, fr0, t0. tauto. }
    unfold resume in Hd. destruct o as [v|name].
    + destruct (fr_pc fr), v; try discriminate; injection Hd as <-;
        try apply Hfin'; try (left; exact Hb).
      all: unfold for_pages; destruct (Nat.leb _ _); [left; exact Hb|apply Hfin'].
    + injection Hd as <-. left. unfold catch.
      destruct (String.eqb name "AbortError"); [exact Hb|].
      apply for_files_objects. exact Hb.
  - unfold reader_onload in Hd. destruct (readers s !! k); [|discriminate].
    injection Hd as <-. left. exact Hb.
  - injection Hd as <-. left.
    destruct (signal_cancel_fields id s) as (_ & _ & E & _).
    destruct (signal_cancel_fields id (emit (EConfirm confirm_text) s)) as (_ & _ & E' & _).
    unfold removeAttachment, discard.
    destruct (isProcessing id s); [|destruct answer]; fields;
      rewrite ?E, ?E'; exact Hb.
  - injection Hd as <-. left. unfold handleNewChat. destruct (ai _); exact Hb.
  - destruct (chatInput_disabled s); [discriminate|]. injection Hd as <-. left. exact Hb.
  - destruct (can_submit s); [|discriminate]. injection Hd as <-. left.
    unfold handleChatFormSubmit. destruct (_ && _); [exact Hb|].
    destruct (negb (chat s)); exact Hb.
  - left. unfold submit_resume in Hd.
    destruct (submitting s) as [[u|parts| |]|]; try destruct ok; try discriminate;
      injection Hd as <-; exact Hb.
Qed.

(** One event registers no document object that existed before. *)
Lemma dispatch_registry e s s' b :
  dispatch e s = Some s' -> In b (attachedDocs s') ->
  In b (attachedDocs s) \/ b = length (docHeap s).
Proof.
  intros Hd Hb.
  assert (Hfor : forall fs s0, attachedDocs s0 = attachedDocs s \/
              (forall x, In x (attachedDocs s0) -> In x (attachedDocs s)) ->
            length (docHeap s0) = length (docHeap s) ->
            In b (attachedDocs (for_files fs s0)) ->
            In b (attachedDocs s) \/ b = length (docHeap s)).
  { intros fs s0 Hsub Hlen Hin.
    assert (Hsub' : forall x, In x (attachedDocs s0) -> In x (attachedDocs s)).
    { destruct Hsub as [->|H]; auto. }
    destruct (for_files_registry fs s0) as [_ [E|E]]; rewrite E in Hin.
    - auto.
    - apply in_app_or in Hin as [Hin|[<-|[]]]; auto. }
  destruct e as [files|o|k url|id answer| |value| |ok]; cbn [dispatch] in Hd.
  - destruct (can_select s); [|discriminate]. injection Hd as <-.
    destruct files as [fs|]; [|left; exact Hb]. cbn [handleFileSelected] in Hb.
    apply Hfor in Hb; [exact Hb|left|]; destruct fs as [|[f t] fs']; reflexivity.
  - destruct (handler s) as [fr|] eqn:Eh; [|discriminate].
    assert (Hc : forall t, In b (attachedDocs (complete fr t s)) ->
              In b (attachedDocs s) \/ b = length (docHeap s)).
    { intros t Hin. unfold complete in Hin. apply Hfor in Hin; [exact Hin|left|].
      - reflexivity.
      - unfold finish_document. fields. apply length_alter. }
    unfold resume in Hd. destruct o as [v|name].
    + destruct (fr_pc fr), v; try discriminate; injection Hd as <-; eauto.
      all: unfold for_pages in Hb; destruct (Nat.leb _ _); eauto.
    + injection Hd as <-. unfold catch in Hb.
      destruct (String.eqb name "AbortError"); [auto|].
      apply Hfor in Hb; [exact Hb|right|reflexivity].
      intros x Hx. unfold fail_document in Hx. fields.
      apply docs_without_In in Hx. exact Hx.
  - unfold reader_onload in Hd. destruct (readers s !! k); [|discriminate].
    injection Hd as <-. auto.
  - injection Hd as <-. left.
    destruct (signal_cancel_fields id s) as (_ & E & _).
    destruct (signal_cancel_fields id (emit (EConfirm confirm_text) s)) as (_ & E' & _).
    unfold removeAttachment in Hb.
    destruct (isProcessing id s); [|destruct answer]; try exact Hb.
    all: apply discard_docs in Hb as [Hb _]; rewrite ?E, ?E' in Hb; exact Hb.
  - injection Hd as <-. unfold handleNewChat in Hb. destruct (ai _); destruct Hb.
  - destruct (chatInput_disabled s); [discriminate|]. injection Hd as <-. auto.
  - destruct (can_submit s); [|discriminate]. injection Hd as <-.
    unfold handleChatFormSubmit in Hb. destruct (_ && _); [auto|].
    destruct (negb (chat s)); auto.
  - unfold submit_resume in Hd.
    destruct (submitting s) as [[u|parts| |]|]; try destruct ok; try discriminate;
      injection Hd as <-; first [now destruct Hb|auto].
Qed.

Lemma run_objects es : forall s s' b d,
  run es s = Some s' -> docHeap s !! b = Some d ->
  exists d', docHeap s' !! b = Some d' /\ d_id d' = d_id d /\ d_name d' = d_name d /\
             abortController d' = abortController d.
Proof.
  induction es as [|e es IH]; intros s s' b d; cbn [run].
  - intros [= <-] H. eauto.
  - destruct (dispatch e s) as [s1|] eqn:E; [|discriminate]. intros Hr Hb.
    destruct (dispatch_objects _ _ _ _ _ E Hb) as [H|(o & fr & t & _ & _ & _ & H)];
      destruct (IH _ _ _ _ Hr H) as (d' & H1 & H2 & H3 & H4); eauto.
Qed.

(** A document object that is not registered is never registered again. *)
Lemma run_not_registered es : forall s s' a,
  run es s = Some s' -> a < length (docHeap s) -> ~ In a (attachedDocs s) ->
  ~ In a (attachedDocs s').
Proof.
  induction es as [|e es IH]; intros s s' a; cbn [run].
  - intros [= <-] _ H. exact H.
  - destruct (dispatch e s) as [s1|] eqn:E; [|discriminate]. intros Hr Hlt Hn.
    apply (IH _ _ _ Hr).
    + destruct (lookup_lt_is_Some_2 _ _ Hlt) as [d Hd].
      destruct (dispatch_objects _ _ _ _ _ E Hd) as [H|(o & fr & t & _ & _ & _ & H)];
        apply lookup_lt_Some in H; exact H.
    + intros Hin. apply (dispatch_registry _ _ _ _ E) in Hin as [Hin| ->]; [auto|lia].
Qed.

(** The handler resumed with a result, or with an abort, removes nothing from
    the registries; it registers at most the document of the next file. *)
Lemma resume_keeps_registry fr o s s' :
  resume fr o s = Some s' ->
  (exists v, o = Resolved v) \/ o = Rejected "AbortError" ->
  attachedFiles s' = attachedFiles s /\
  (attachedDocs s' = attachedDocs s \/
   attachedDocs s' = attachedDocs s ++ [length (docHeap s)]).
Proof.
  assert (Hc : forall t, attachedFiles (complete fr t s) = attachedFiles s /\
     (attachedDocs (complete fr t s) = attachedDocs s \/
      attachedDocs (complete fr t s) = attachedDocs s ++ [length (docHeap s)])).
  { intros t. unfold complete.
    destruct (for_files_registry (fr_rest fr) (finish_document fr t s)) as [E1 E2].
    unfold finish_document in *. fields. rewrite length_alter in E2. auto. }
  intros Hd Ho. unfold resume in Hd. destruct o as [v|name].
  - destruct (fr_pc fr), v; try discriminate; injection Hd as <-; auto.
    all: unfold for_pages; destruct (Nat.leb _ _); auto.
  - destruct Ho as [[v [=]]|[= ->]]. injection Hd as <-. auto.
Qed.

Lemma fail_document_unregisters fr s :
  wf s -> handler s = Some fr -> ~ In (fr_doc fr) (attachedDocs (fail_document fr s)).
Proof.
  intros Hwf Hh. destruct (wf_frame _ Hwf _ Hh) as (_ & _ & Hid).
  unfold fail_document, docs_without. fields.
  rewrite filter_In, negb_true_iff, String.eqb_neq. unfold doc_at in *. fields.
  tauto.
Qed.

Lemma dead_form_dispatch e s s' :
  dead_form s -> dispatch e s = Some s' -> dead_form s' /\ docHeap s' = docHeap s.
Proof.
  intros (Hh & Hs & Hf) Hd. pose proof Hf as (F1 & F2 & F3 & F4).
  destruct e as [files|o|k url|id answer| |value| |ok]; cbn [dispatch] in Hd.
  - unfold can_select in Hd. rewrite F3, F4 in Hd. discriminate.
  - rewrite Hh in Hd. discriminate.
  - unfold reader_onload in Hd. destruct (readers s !! k); [|discriminate].
    injection Hd as <-. repeat split; assumption.
  - injection Hd as <-.
    destruct (signal_cancel_fields id s) as
      (_ & _ & E3 & _ & _ & E6 & E7 & E8 & E9 & E10 & E11 & _).
    destruct (signal_cancel_fields id (emit (EConfirm confirm_text) s)) as
      (_ & _ & E3' & _ & _ & E6' & E7' & E8' & E9' & E10' & E11' & _).
    unfold removeAttachment, discard, dead_form, form_disabled.
    destruct (isProcessing id s); [|destruct answer]; fields;
      rewrite ?E3, ?E6, ?E7, ?E8, ?E9, ?E10, ?E11, ?E3', ?E6', ?E7', ?E8', ?E9', ?E10', ?E11';
      fields; repeat split; assumption.
  - injection Hd as <-. unfold handleNewChat, dead_form, form_disabled.
    destruct (ai _); fields; repeat split; assumption.
  - rewrite F1 in Hd. discriminate.
  - unfold can_submit in Hd. rewrite F2 in Hd. discriminate.
  - unfold submit_resume in Hd. rewrite Hs in Hd. discriminate.
Qed.

Lemma dead_form_run es : forall s s',
  dead_form s -> run es s = Some s' -> dead_form s' /\ docHeap s' = docHeap s.
Proof.
  induction es as [|e es IH]; intros s s' Hdead; cbn [run].
  - intros [= <-]. auto.
  - destruct (dispatch e s) as [s1|] eqn:E; [|discriminate]. intros Hr.
    destruct (dead_form_dispatch _ _ _ Hdead E) as [Hdead1 E1].
    destruct (IH _ _ Hdead1 Hr) as [Hdead2 E2]. split; [exact Hdead2|congruence].
Qed.

(** * The rendered list and the element held by the handler *)

Lemma pills_persist_refl s : pills_persist s s.
Proof. intros p n H. eauto. Qed.

Lemma pills_persist_trans s1 s2 s3 :
  pills_persist s1 s2 -> pills_persist s2 s3 -> pills_persist s1 s3.
Proof.
  intros H12 H23 p n H. destruct (H12 _ _ H) as (n2 & H2 & E2).
  destruct (H23 _ _ H2) as (n3 & H3 & E3). exists n3. split; [exact H3|congruence].
Qed.

Lemma pills_persist_length s s' :
  pills_persist s s' -> length (pillHeap s) <= length (pillHeap s').
Proof.
  intros H. destruct (Nat.le_gt_cases (length (pillHeap s)) (length (pillHeap s')))
    as [Hle|Hgt]; [exact Hle|].
  destruct (lookup_lt_is_Some_2 (pillHeap s) (length (pillHeap s'))) as [n Hn]; [lia|].
  destruct (H _ _ Hn) as (n' & Hn' & _). apply lookup_lt_Some in Hn'. lia.
Qed.

Lemma pills_persist_heap s s' : pillHeap s' = pillHeap s -> pills_persist s s'.
Proof. intros E p n H. rewrite E. eauto. Qed.

Lemma on_pill_persist pill f s :
  (forall x, pill_id (f x) = pill_id x) -> pills_persist s (on_pill pill f s).
Proof.
  intros Hf p n H. unfold on_pill. fields. destruct pill as [q|]; [|eauto].
  destruct (Nat.eq_dec q p) as [->|Hne].
  - rewrite list_lookup_alter_eq, H. cbn. eauto.
  - rewrite list_lookup_alter_ne by exact Hne. eauto.
Qed.

Lemma on_pill_length pill f s :
  length (pillHeap (on_pill pill f s)) = length (pillHeap s).
Proof. unfold on_pill. fields. destruct pill; [apply length_alter|reflexivity]. Qed.

Lemma show_progress_id status pct x : pill_id (show_progress status pct x) = pill_id x.
Proof. unfold show_progress. destruct (inner x); reflexivity. Qed.

Lemma updateProgress_persist a pill status pct s :
  pills_persist s (updateProgress a pill status pct s).
Proof.
  unfold updateProgress.
  eapply pills_persist_trans; [|apply on_pill_persist, show_progress_id].
  apply pills_persist_heap. reflexivity.
Qed.

Lemma updateProgress_length a pill status pct s :
  length (pillHeap (updateProgress a pill status pct s)) = length (pillHeap s).
Proof. unfold updateProgress. rewrite on_pill_length. reflexivity. Qed.

Lemma render_persist s : pills_persist s (renderAttachments s).
Proof. intros p n H. fields. exists n. split; [apply lookup_app_l_Some, H|reflexivity]. Qed.

(** A fresh rendering shows new elements only. *)
Lemma render_container s p :
  In p (container (renderAttachments s)) ->
  length (pillHeap s) <= p < length (pillHeap (renderAttachments s)).
Proof. fields. rewrite in_seq, length_app. lia. Qed.

Lemma dom_step_container s s' :
  dom_step s s' -> (forall p, In p (container s) -> p < length (pillHeap s)) ->
  forall p, In p (container s') -> p < length (pillHeap s').
Proof.
  intros [Hp [(Ec & El & _)|Hfresh]] H p Hin.
  - rewrite Ec in Hin. rewrite El. auto.
  - apply Hfresh in Hin. lia.
Qed.

(** The handler stays on its document. *)
Lemma wf_dom_keep s s' fr pc :
  wf_dom s -> dom_step s s' -> handler s = Some fr ->
  handler s' = Some (with_pc fr pc) ->
  wf_dom s'.
Proof.
  intros [D1 D2 D3] Hstep Hh Hh'. split.
  - eapply dom_step_container; eassumption.
  - intros fr' E. rewrite Hh' in E. injection E as <-. fields.
    destruct (D2 _ Hh) as (p & n & Hp & Hn & Hid).
    destruct (proj1 Hstep _ _ Hn) as (n' & Hn' & Hid').
    exists p, n'. repeat split; congruence.
  - intros fr' p E Hp Hin. rewrite Hh' in E. injection E as <-. fields.
    destruct (D2 _ Hh) as (p0 & n & Hp0 & Hn & _).
    assert (p0 = p) by congruence. subst p0.
    destruct Hstep as [_ [(Ec & _ & Hreg)|Hfresh]].
    + rewrite Ec in Hin. eauto.
    + apply Hfresh in Hin. apply lookup_lt_Some in Hn. lia.
Qed.

(** The same for an event that is not a step of the handler. *)
Lemma wf_dom_other s s' :
  wf_dom s -> dom_step s s' -> handler s' = handler s -> wf_dom s'.
Proof.
  intros Hd Hstep Hh. destruct (handler s) as [fr|] eqn:E.
  - apply (wf_dom_keep s s' fr (fr_pc fr) Hd Hstep E).
    rewrite Hh. destruct fr; reflexivity.
  - destruct Hd as [D1 _ _]. split.
    + eapply dom_step_container; eassumption.
    + rewrite Hh. discriminate.
    + rewrite Hh. discriminate.
Qed.

Lemma wf_dom_idle s :
  (forall p, In p (container s) -> p < length (pillHeap s)) -> handler s = None ->
  wf_dom s.
Proof. intros H Hh. split; [exact H|rewrite Hh; discriminate..]. Qed.

Lemma getElementById_Some id s p :
  getElementById id s = Some p ->
  In p (container s) /\ exists n, pillHeap s !! p = Some n /\ pill_id n = id.
Proof.
  unfold getElementById. intros H. apply find_some in H as [Hin Hid].
  split; [exact Hin|]. unfold has_id in Hid.
  destruct (pillHeap s !! p) as [n|]; [|discriminate].
  apply String.eqb_eq in Hid. eauto.
Qed.

(** Right after the list is rendered with document [a] registered, an element
    with the id of [a] is found. *)
Lemma getElementById_rendered s a :
  In a (attachedDocs s) ->
  exists p, getElementById (d_id (doc_at s a)) (renderAttachments s) = Some p.
Proof.
  intros Ha. destruct (getElementById _ _) as [p|] eqn:E; [eauto|exfalso].
  unfold getElementById in E.
  apply in_split in Ha as (l1 & l2 & Hl).
  set (k := length (attachedFiles s) + length l1).
  assert (Hk : render_pills s !! k = Some (pill_of_doc (doc_at s a))).
  { unfold render_pills, k. rewrite lookup_app_r by (rewrite length_map; lia).
    rewrite length_map, Hl, map_app.
    replace (length (attachedFiles s) + length l1 - length (attachedFiles s))
      with (length l1) by lia.
    rewrite lookup_app_r by (rewrite length_map; lia).
    rewrite length_map, Nat.sub_diag. reflexivity. }
  assert (Ht : has_id (renderAttachments s) (d_id (doc_at s a))
                 (length (pillHeap s) + k) = true).
  { unfold has_id. fields. rewrite lookup_app_r by lia.
    replace (length (pillHeap s) + k - length (pillHeap s)) with k by lia.
    rewrite Hk. cbn. apply String.eqb_refl. }
  rewrite (find_none _ _ E) in Ht; [discriminate|].
  fields. apply in_seq. apply lookup_lt_Some in Hk. lia.
Qed.

Lemma first_update_wf_dom sr fr a p n st pct :
  (forall q, In q (container sr) -> q < length (pillHeap sr)) ->
  pillHeap sr !! p = Some n -> pill_id n = fr_fileId fr -> fr_pill fr = Some p ->
  In (fr_doc fr) (attachedDocs sr) ->
  wf_dom (set_handler (Some fr)
            (updateProgress a (Some p) st pct (on_pill (Some p) (set_processing true) sr))).
Proof.
  intros Hc Hn Hid Hp Hin. split; fields.
  - intros q Hq. rewrite !length_alter. auto.
  - intros fr' [= <-]. exists p, (show_progress st pct (set_processing true n)).
    split; [exact Hp|]. split; [rewrite !list_lookup_alter_eq, Hn; reflexivity|].
    rewrite show_progress_id. exact Hid.
  - intros fr' q [= <-] _ _. exact Hin.
Qed.

Lemma begin_document_wf_dom rest file now s :
  wf_dom (begin_document rest file now s).
Proof.
  unfold begin_document. cbv zeta.
  set (sa := set_attachedDocs _ (set_docHeap _ (set_ctrlHeap _ s))).
  set (sr := renderAttachments sa).
  assert (Hin : In (length (docHeap s)) (attachedDocs sa)).
  { unfold sa. fields. apply in_or_app. right. left. reflexivity. }
  assert (Hid : d_id (doc_at sa (length (docHeap s))) = fileId_of file now).
  { unfold sa, doc_at. fields. rewrite lookup_app_r, Nat.sub_diag by lia. reflexivity. }
  destruct (getElementById_rendered sa _ Hin) as (p & Hp). rewrite Hid in Hp.
  fold sr in Hp. rewrite Hp.
  apply getElementById_Some in Hp as (Hpc & n & Hn & Hnid).
  assert (Hc : forall q, In q (container sr) -> q < length (pillHeap sr)).
  { intros q Hq. apply render_container in Hq. apply Hq. }
  destruct (String.eqb (file_type file) "text/plain");
    eapply first_update_wf_dom; try eassumption; reflexivity.
Qed.

Lemma for_files_wf_dom files : forall s,
  (forall p, In p (container s) -> p < length (pillHeap s)) ->
  wf_dom (for_files files s).
Proof.
  induction files as [|[file now] rest IH]; intros s Hc; cbn [for_files].
  - apply wf_dom_idle; [exact Hc|reflexivity].
  - destruct (startsWith (file_type file) "image/"); [apply IH; exact Hc|].
    destruct (_ || _); [apply begin_document_wf_dom|apply IH; exact Hc].
Qed.

Lemma dom_step_same s s' :
  pillHeap s' = pillHeap s -> container s' = container s ->
  attachedDocs s' = attachedDocs s -> dom_step s s'.
Proof.
  intros Eh Ec Ed. split; [apply pills_persist_heap, Eh|]. left.
  rewrite Ec, Eh, Ed. auto.
Qed.

Lemma dom_step_render s0 s :
  pillHeap s = pillHeap s0 -> dom_step s0 (renderAttachments s).
Proof.
  intros Eh. split.
  - eapply pills_persist_trans; [apply pills_persist_heap, Eh|apply render_persist].
  - right. intros p Hp. apply render_container in Hp. rewrite <- Eh. exact Hp.
Qed.

Lemma finish_document_dom fr text s :
  container (finish_document fr text s) = container s /\
  pills_persist s (finish_document fr text s) /\
  length (pillHeap (finish_document fr text s)) = length (pillHeap s).
Proof.
  unfold finish_document, finally. split; [reflexivity|]. split.
  - eapply pills_persist_trans; [|apply on_pill_persist; reflexivity].
    eapply pills_persist_trans; [|apply updateProgress_persist].
    apply pills_persist_heap. reflexivity.
  - rewrite on_pill_length, updateProgress_length. reflexivity.
Qed.

Lemma fail_document_dom fr s :
  container (fail_document fr s) = container s /\
  pills_persist s (fail_document fr s) /\
  length (pillHeap (fail_document fr s)) = length (pillHeap s).
Proof.
  unfold fail_document, finally. split; [reflexivity|]. split.
  - eapply pills_persist_trans; [|apply on_pill_persist; reflexivity].
    eapply pills_persist_trans; [|apply updateProgress_persist].
    eapply pills_persist_trans; [|apply on_pill_persist; reflexivity].
    apply pills_persist_heap. reflexivity.
  - rewrite on_pill_length, updateProgress_length, on_pill_length. reflexivity.
Qed.

Theorem wf_dom_dispatch e s s' : wf_dom s -> dispatch e s = Some s' -> wf_dom s'.
Proof.
  intros Hd. pose proof Hd as [D1 D2 D3].
  assert (Hloop : forall fs s0, container s0 = container s ->
            length (pillHeap s0) = length (pillHeap s) -> wf_dom (for_files fs s0)).
  { intros fs s0 Ec El. apply for_files_wf_dom. rewrite Ec, El. exact D1. }
  destruct e as [files|o|k url|id answer| |value| |ok]; cbn [dispatch].
  - destruct (can_select s) eqn:E; intros [= <-].
    destruct files as [fs|]; [|exact Hd]. cbn [handleFileSelected].
    apply Hloop; destruct fs as [|[f t] fs']; reflexivity.
  - destruct (handler s) as [fr|] eqn:Eh; [|discriminate].
    assert (Hc : forall t, wf_dom (complete fr t s)).
    { intros t. unfold complete.
      destruct (finish_document_dom fr t s) as (Ec & _ & El). apply Hloop; assumption. }
    assert (Hs : forall pc st pct,
              wf_dom (set_handler (Some (with_pc fr pc))
                        (updateProgress (fr_doc fr) (fr_pill fr) st pct s))).
    { intros pc st pct. eapply wf_dom_keep; [exact Hd| |exact Eh|reflexivity].
      split; [apply updateProgress_persist|]. left.
      split; [reflexivity|]. split; [apply updateProgress_length|auto]. }
    unfold resume. destruct o as [v|name].
    + destruct (fr_pc fr), v; intros [= <-]; auto.
      all: try (unfold for_pages; destruct (Nat.leb _ _); auto).
      eapply wf_dom_keep; [exact Hd| |exact Eh|reflexivity].
      apply dom_step_same; reflexivity.
    + intros [= <-]. unfold catch. destruct (String.eqb name "AbortError").
      * apply wf_dom_idle; [|reflexivity]. unfold cancel_document, finally.
        intros p Hp. fields. destruct (fr_pill fr); rewrite ?length_alter; auto.
      * destruct (fail_document_dom fr s) as (Ec & _ & El). apply Hloop; assumption.
  - unfold reader_onload. destruct (readers s !! k); intros [= <-].
    eapply wf_dom_other; [exact Hd| |reflexivity].
    apply dom_step_render. reflexivity.
  - intros [= <-].
    destruct (signal_cancel_fields id s) as
      (_ & E2 & _ & _ & _ & E6 & _ & _ & _ & _ & _ & _ & _ & E14 & E15).
    destruct (signal_cancel_fields id (emit (EConfirm confirm_text) s)) as
      (_ & E2' & _ & _ & _ & E6' & _ & _ & _ & _ & _ & _ & _ & E14' & E15').
    unfold removeAttachment.
    destruct (isProcessing id s); [|destruct answer].
    + eapply wf_dom_other; [exact Hd| |exact E6].
      unfold discard. apply dom_step_render. exact E14.
    + eapply wf_dom_other; [exact Hd| |exact E6'].
      unfold discard. apply dom_step_render. exact E14'.
    + eapply wf_dom_other; [exact Hd| |reflexivity]. apply dom_step_same; reflexivity.
  - intros [= <-]. unfold handleNewChat.
    assert (Hclear : wf_dom (renderAttachments (set_attachedDocs [] (set_attachedFiles [] s)))).
    { eapply wf_dom_other; [exact Hd| |reflexivity]. apply dom_step_render. reflexivity. }
    destruct (ai _); [|exact Hclear].
    eapply wf_dom_other; [exact Hclear| |reflexivity]. apply dom_step_same; reflexivity.
  - destruct (chatInput_disabled s); intros [= <-].
    eapply wf_dom_other; [exact Hd| |reflexivity]. apply dom_step_same; reflexivity.
  - destruct (can_submit s); intros [= <-]. unfold handleChatFormSubmit.
    destruct (_ && _); [exact Hd|].
    destruct (negb (chat s));
      (eapply wf_dom_other; [exact Hd| |reflexivity]; apply dom_step_same; reflexivity).
  - unfold submit_resume, submit_finally. destruct (submitting s) as [[u|parts| |]|]; try destruct ok; intros [= <-].
    + eapply wf_dom_other; [exact Hd| |reflexivity]. apply dom_step_render. reflexivity.
    + eapply wf_dom_other; [exact Hd| |reflexivity]. apply dom_step_same; reflexivity.
    + eapply wf_dom_other; [exact Hd| |reflexivity]. apply dom_step_same; reflexivity.
    + eapply wf_dom_other; [exact Hd| |reflexivity]. apply dom_step_same; reflexivity.
    + eapply wf_dom_other; [exact Hd| |reflexivity]. apply dom_step_same; reflexivity.
    + eapply wf_dom_other; [exact Hd| |reflexivity]. apply dom_step_same; reflexivity.
    + eapply wf_dom_other; [exact Hd| |reflexivity]. apply dom_step_same; reflexivity.
    + eapply wf_dom_other; [exact Hd| |reflexivity]. apply dom_step_same; reflexivity.
Qed.

Lemma wf_dom_run es : forall s s', wf_dom s -> run es s = Some s' -> wf_dom s'.
Proof.
  induction es as [|e es IH]; intros s s' Hwf; cbn [run].
  - intros [= <-]. exact Hwf.
  - destruct (dispatch e s) as [s1|] eqn:E; [|discriminate].
    apply IH. eapply wf_dom_dispatch; eassumption.
Qed.

Lemma reachable_wf_dom s : reachable s -> wf_dom s.
Proof.
  intros (c & es & H). eapply wf_dom_run; [|exact H].
  apply wf_dom_idle; [intros p []|reflexivity].
Qed.

(** Beginning a document leaves the elements that existed before as they
    are: the element it marks is one of the new rendering. *)
Lemma begin_document_pills rest file now s q n :
  pillHeap s !! q = Some n -> pillHeap (begin_document rest file now s) !! q = Some n.
Proof.
  intros Hq. assert (Hlt : q < length (pillHeap s)) by (eapply lookup_lt_Some; eauto).
  unfold begin_document. cbv zeta.
  set (sa := set_attachedDocs _ (set_docHeap _ (set_ctrlHeap _ s))).
  destruct (getElementById (fileId_of file now) (renderAttachments sa)) as [p|] eqn:Hp.
  - apply getElementById_Some in Hp as (Hpc & _). apply render_container in Hpc.
    assert (Hne : p <> q) by (unfold sa in Hpc; fields; lia).
    destruct (String.eqb (file_type file) "text/plain"); fields;
      rewrite !list_lookup_alter_ne by exact Hne; apply lookup_app_l_Some; exact Hq.
  - destruct (String.eqb (file_type file) "text/plain"); fields;
      apply lookup_app_l_Some; exact Hq.
Qed.

Lemma for_files_pills files : forall s q n,
  pillHeap s !! q = Some n -> pillHeap (for_files files s) !! q = Some n.
Proof.
  induction files as [|[file now] rest IH]; intros s q n H; cbn [for_files].
  - exact H.
  - destruct (startsWith (file_type file) "image/"); [apply IH; exact H|].
    destruct (_ || _); [apply begin_document_pills; exact H|apply IH; exact H].
Qed.

(** A step of the handler changes, of the elements that exist, only the one
    the handler holds. *)
Lemma resume_pills fr o s s' q n :
  resume fr o s = Some s' -> fr_pill fr <> Some q ->
  pillHeap s !! q = Some n -> pillHeap s' !! q = Some n.
Proof.
  intros Hd Hne Hq.
  assert (Hon : forall f s0, pillHeap s0 !! q = Some n ->
            pillHeap (on_pill (fr_pill fr) f s0) !! q = Some n).
  { intros f s0 H. unfold on_pill. fields. destruct (fr_pill fr) as [p|]; [|exact H].
    rewrite list_lookup_alter_ne by congruence. exact H. }
  assert (Hup : forall a st pct s0, pillHeap s0 !! q = Some n ->
            pillHeap (updateProgress a (fr_pill fr) st pct s0) !! q = Some n).
  { intros a st pct s0 H. unfold updateProgress. apply Hon. exact H. }
  assert (Hc : forall t, pillHeap (complete fr t s) !! q = Some n).
  { intros t. unfold complete, finish_document, finally.
    apply for_files_pills, Hon, Hup. exact Hq. }
  unfold resume in Hd. destruct o as [v|name].
  - destruct (fr_pc fr), v; try discriminate; injection Hd as <-; auto.
    + apply Hup. exact Hq.
    + unfold for_pages. destruct (Nat.leb _ _); [apply Hup; exact Hq|auto].
    + unfold for_pages. destruct (Nat.leb _ _); [apply Hup; exact Hq|auto].
  - injection Hd as <-. unfold catch. destruct (String.eqb name "AbortError").
    + unfold cancel_document, finally. apply Hon. exact Hq.
    + unfold fail_document, finally. apply for_files_pills, Hon, Hup, Hon. exact Hq.
Qed.

(** * Failure and cancellation of an extraction (lines 322-339) *)

(** When the promise awaited for a document is rejected with an error that
    is not an abort, the handler drops from [attachedDocs] every document
    with the id of this one; the element it holds for the document, which
    has the id of the document, gets the 'error' class and loses
    'processing', and, if it has the details of a document pill, shows
    exactly 'Error: Could not read file.' with the progress bar hidden.  The
    images stay as they are, the list shown is not rendered anew by the
    failure itself, and the loop goes on with the remaining files ([s1] is
    the state in which it does). *)
Lemma failure_marks_held_element (s : State) (fr : Frame) (name : string) :
  reachable s -> handler s = Some fr -> name <> "AbortError" ->
  exists s1 s' p n',
    dispatch (HandlerResume (Rejected name)) s = Some s' /\
    s' = for_files (fr_rest fr) s1 /\
    ~ In (fr_doc fr) (attachedDocs s') /\
    (forall a, In a (attachedDocs s1) <->
               In a (attachedDocs s) /\ d_id (doc_at s a) <> fr_fileId fr) /\
    attachedFiles s' = attachedFiles s /\ container s1 = container s /\
    fr_pill fr = Some p /\ pillHeap s' !! p = Some n' /\
    pill_id n' = fr_fileId fr /\ cls_error n' = true /\ cls_processing n' = false /\
    (forall l h w, inner n' = Details l h w ->
       l = error_text /\ h = true /\ w = Some 0%Q) /\
    log s1 = log s ++ [EConsoleError; EUpdateProgress (fr_doc fr) error_text None].
Proof.
  intros Hr Hh Hname. pose proof (reachable_wf_dom _ Hr) as Hdom.
  apply reachable_wf in Hr.
  destruct (dom_pill _ Hdom _ Hh) as (p & n & Hp & Hn & Hnid).
  exists (fail_document fr s), (for_files (fr_rest fr) (fail_document fr s)), p,
    (set_processing false (show_progress error_text None (add_error n))).
  cbn [dispatch]. rewrite Hh. cbn [resume]. unfold catch.
  apply String.eqb_neq in Hname. rewrite Hname.
  assert (Hdocs : forall a, In a (attachedDocs (fail_document fr s)) <->
            In a (attachedDocs s) /\ d_id (doc_at s a) <> fr_fileId fr).
  { intros a. unfold fail_document, docs_without. fields.
    rewrite filter_In, negb_true_iff, String.eqb_neq. unfold doc_at. fields. tauto. }
  assert (Hout : ~ In (fr_doc fr) (attachedDocs (fail_document fr s)))
    by (apply fail_document_unregisters; assumption).
  destruct (for_files_registry (fr_rest fr) (fail_document fr s)) as [Ef Ed].
  split; [reflexivity|]. split; [reflexivity|]. split.
  { destruct Ed as [-> | ->]; [exact Hout|]. intros Hin.
    apply in_app_or in Hin as [Hin|[Hin|[]]]; [exact (Hout Hin)|].
    destruct (wf_frame _ Hr _ Hh) as (Hlast & _).
    unfold fail_document in Hin. fields. lia. }
  split; [exact Hdocs|]. split; [rewrite Ef; reflexivity|]. split; [reflexivity|].
  split; [exact Hp|]. split.
  { apply for_files_pills. unfold fail_document. fields. rewrite Hp. cbn beta iota.
    rewrite !list_lookup_alter_eq, Hn. reflexivity. }
  unfold show_progress. cbn. destruct (inner n) eqn:Ek; cbn; rewrite ?Ek.
  all: repeat split; try assumption; try congruence.
  all: unfold fail_document; fields; rewrite <- app_assoc; reflexivity.
Qed.

(** C8.  When the promise awaited for a document is rejected with an error
    that is not an abort, the document is removed from the registry, and the
    element the handler took from the page when it created the document gets
    the 'error' class and, if it has the details of a document pill, the
    text 'Error: Could not read file.'.  That element is not always the pill
    of the document: when a.png and b.pdf are selected together and the
    image loads while b.pdf is read, the list is rendered anew, and when
    b.pdf then fails, b.pdf is removed from the registry but the pill shown
    for it carries neither the 'error' class nor the text: it still shows
    'b.pdf'; the element that was marked is no longer on the page. *)
Theorem failure_mark_not_shown :
  (forall s fr name,
     reachable s -> handler s = Some fr -> name <> "AbortError" ->
     exists s1 s' p n',
       dispatch (HandlerResume (Rejected name)) s = Some s' /\
       s' = for_files (fr_rest fr) s1 /\
       ~ In (fr_doc fr) (attachedDocs s') /\
       (forall a, In a (attachedDocs s1) <->
                  In a (attachedDocs s) /\ d_id (doc_at s a) <> fr_fileId fr) /\
       attachedFiles s' = attachedFiles s /\ container s1 = container s /\
       fr_pill fr = Some p /\ pillHeap s' !! p = Some n' /\
       pill_id n' = fr_fileId fr /\ cls_error n' = true /\ cls_processing n' = false /\
       (forall l h w, inner n' = Details l h w ->
          l = error_text /\ h = true /\ w = Some 0%Q) /\
       log s1 = log s ++ [EConsoleError; EUpdateProgress (fr_doc fr) error_text None]) /\
  exists s',
    run damaged_b_pdf (initial true) = Some s' /\
    attachedDocs s' = [] /\
    shown s'
    = [Some {| pill_id := "a.png-1000"; pill_kind := ImagePill; cls_processing := false;
               cls_error := false; inner := Thumbnail |};
       Some {| pill_id := "b.pdf-1001"; pill_kind := DocPill; cls_processing := false;
               cls_error := false; inner := Details "b.pdf" true None |}] /\
    pillHeap s' !! 0
    = Some {| pill_id := "b.pdf-1001"; pill_kind := DocPill; cls_processing := false;
              cls_error := true; inner := Details error_text true (Some 0%Q) |} /\
    ~ In 0 (container s').
Proof.
  split; [exact failure_marks_held_element|].
  eexists. split; [vm_compute; reflexivity|]. vm_compute.
  repeat split; try reflexivity. intros [H|[H|[]]]; discriminate.
Qed.

Lemma failure_mark_not_shown_witness :
  reachable reading_a_txt /\
  handler reading_a_txt = Some a_txt_frame /\
  "NotReadableError" <> "AbortError" /\
  exists s',
    dispatch (HandlerResume (Rejected "NotReadableError")) reading_a_txt = Some s' /\
    ~ In 0 (attachedDocs s') /\
    shown s'
    = [Some {| pill_id := "a.txt-1000"; pill_kind := DocPill; cls_processing := false;
               cls_error := true; inner := Details error_text true (Some 0%Q) |}].
Proof.
  assert (Hr : reachable reading_a_txt).
  { exists true, [FilesSelected (Some [(a_txt, 1000%Z)])]. vm_compute. reflexivity. }
  split; [exact Hr|]. split; [vm_compute; reflexivity|]. split; [discriminate|].
  destruct (proj1 failure_mark_not_shown reading_a_txt a_txt_frame
              "NotReadableError" Hr ltac:(vm_compute; reflexivity) ltac:(discriminate))
    as (s1 & s' & p & n' & H1 & _ & H2 & _).
  exists s'. split; [exact H1|]. split; [exact H2|].
  vm_compute in H1. injection H1 as <-. vm_compute. reflexivity.
Defined.

(** The same when the image is selected first and the PDF next, while the
    image is still being read. *)
Example failure_mark_not_shown_after_second_selection :
  option_map (fun s => (attachedDocs s, shown s))
    (run (image_loads_while_pdf_is_read
          ++ [HandlerResume (Resolved VArrayBuffer);
              HandlerResume (Rejected "InvalidPDFException")]) (initial true))
  = Some ([],
          [Some {| pill_id := "a.png-1000"; pill_kind := ImagePill; cls_processing := false;
                   cls_error := false; inner := Thumbnail |};
           Some {| pill_id := "b.pdf-2000"; pill_kind := DocPill; cls_processing := false;
                   cls_error := false; inner := Details "b.pdf" true None |}]).
Proof. vm_compute. reflexivity. Qed.

Example failure_with_markup_in_name :
  option_map shown
    (run [FilesSelected (Some [(odd_name_txt, 1000%Z)]);
          HandlerResume (Rejected "NotReadableError")] (initial true))
  = Some [Some {| pill_id := "a<!--.txt-1000"; pill_kind := DocPill;
                  cls_processing := false; cls_error := true;
                  inner := Unparsed "a<!--.txt" |}].
Proof. vm_compute. reflexivity. Qed.

(** C10.  When the promise awaited for a document is rejected with an
    AbortError, the handler returns: it is no longer suspended and no later
    outcome can resume it, so the remaining files of the batch get neither a
    reader nor a document; the value of the file input is not reset and the
    chat input, the send button and both upload buttons stay disabled.  Only
    the cancellation is logged and the captured pill loses 'processing'.
    Nothing that can happen afterwards enables the form again or creates a
    document. *)
Theorem abort_leaves_handler (s : State) (fr : Frame) :
  reachable s -> handler s = Some fr ->
  exists s',
    dispatch (HandlerResume (Rejected "AbortError")) s = Some s' /\
    handler s' = None /\
    (forall o, dispatch (HandlerResume o) s' = None) /\
    attachedFiles s' = attachedFiles s /\ attachedDocs s' = attachedDocs s /\
    docHeap s' = docHeap s /\ ctrlHeap s' = ctrlHeap s /\ readers s' = readers s /\
    container s' = container s /\
    fileInput_value s' = fileInput_value s /\
    form_disabled s' /\
    log s' = log s ++ [EConsoleLog ("Processing of " +:+ file_name (fr_file fr)
                                    +:+ " was canceled.")] /\
    (forall es s'', run es s' = Some s'' ->
       handler s'' = None /\ form_disabled s'' /\ docHeap s'' = docHeap s).
Proof.
  intros Hr Hh. apply reachable_wf in Hr.
  assert (Hf : form_disabled s) by (apply (wf_gate _ Hr); left; eauto).
  assert (Hs : submitting s = None).
  { destruct (wf_excl _ Hr) as [H|H]; [congruence|exact H]. }
  exists (cancel_document fr s). cbn [dispatch]. rewrite Hh. cbn [resume].
  unfold catch. cbn [String.eqb Ascii.eqb Bool.eqb].
  assert (Hdead : dead_form (cancel_document fr s)).
  { unfold cancel_document, dead_form, form_disabled. fields.
    repeat split; solve [exact Hs | apply Hf]. }
  unfold cancel_document in *. fields.
  repeat split; try apply Hf.
  all: destruct (dead_form_run _ _ _ Hdead H) as [(H1 & H2 & H3) H4]; try assumption.
  all: apply H3.
Qed.

Lemma abort_leaves_handler_witness :
  let s := default (initial true) (run cancelling_a_pdf (initial true)) in
  reachable s /\ handler s = Some a_pdf_frame /\
  exists s', dispatch (HandlerResume (Rejected "AbortError")) s = Some s' /\
             handler s' = None /\ form_disabled s'.
Proof.
  cbn zeta.
  assert (Hr : reachable (default (initial true) (run cancelling_a_pdf (initial true)))).
  { exists true, cancelling_a_pdf. vm_compute. reflexivity. }
  split; [exact Hr|]. split; [vm_compute; reflexivity|].
  destruct (abort_leaves_handler _ a_pdf_frame Hr ltac:(vm_compute; reflexivity))
    as (s' & H1 & H2 & _ & _ & _ & _ & _ & _ & _ & _ & H3 & _).
  exists s'. auto.
Defined.

(** * The siblings of a file (lines 322-335) *)

(** Without the cancellation both files are processed. *)
Example both_siblings_processed :
  option_map (fun s => (map d_name (docHeap s), attachedDocs s, chatInput_disabled s))
    (run (parsing_a_pdf ++ [HandlerResume (Resolved (VPdf 0));
                            HandlerResume (Resolved (VText "abc"))]) (initial true))
  = Some (["a.pdf"; "b.txt"], [0; 1], false).
Proof. vm_compute. reflexivity. Qed.

(** A failure that is not an abort does not stop the loop. *)
Example failure_keeps_siblings :
  option_map (fun s => (map d_name (docHeap s), attachedDocs s, chatInput_disabled s))
    (run (parsing_a_pdf ++ [HandlerResume (Rejected "InvalidPDFException");
                            HandlerResume (Resolved (VText "abc"))]) (initial true))
  = Some (["a.pdf"; "b.txt"], [1], false).
Proof. vm_compute. reflexivity. Qed.

(** * Identities (line 267) *)

Lemma no_dash_cons c s : c <> "-"%char -> no_dash s -> no_dash (String c s).
Proof.
  intros Hc Hs [|c' x] y; cbn; intros [= E1 E2]; [apply Hc; exact E1|].
  exact (Hs _ _ E2).
Qed.

Lemma no_dash_digits d : no_dash (NilEmpty.string_of_uint d).
Proof.
  induction d; cbn; try (apply no_dash_cons; [discriminate|exact IHd]).
  intros [|c x] y; discriminate.
Qed.

Lemma dec_no_dash z : (0 <= z)%Z -> no_dash (dec z).
Proof.
  intros Hz. unfold dec. destruct z as [|p|p]; [| |lia]; cbn.
  - apply no_dash_cons; [discriminate|]. intros [|c x] y; discriminate.
  - destruct (Pos.to_uint p) eqn:E; try apply (no_dash_digits (_ u)).
    apply no_dash_cons; [discriminate|]. intros [|c x] y; discriminate.
Qed.

Lemma dec_inj z1 z2 : dec z1 = dec z2 -> z1 = z2.
Proof.
  unfold dec. intros H.
  assert (Hn : forall z, Z.to_int z <> Decimal.Pos Decimal.Nil /\
                         Z.to_int z <> Decimal.Neg Decimal.Nil).
  { intros [|p|p]; cbn; split; try discriminate; intros [= E];
      exact (DecimalPos.Unsigned.to_uint_nonnil _ E). }
  assert (E : Some (Z.to_int z1) = Some (Z.to_int z2)).
  { rewrite <- (NilZero.isi (Z.to_int z1)), <- (NilZero.isi (Z.to_int z2)); try apply Hn.
    rewrite H. reflexivity. }
  injection E as E. rewrite <- (DecimalZ.of_to z1), <- (DecimalZ.of_to z2), E. reflexivity.
Qed.

Lemma append_dash_inj n1 : forall n2 d1 d2,
  no_dash d1 -> no_dash d2 ->
  n1 +:+ "-" +:+ d1 = n2 +:+ "-" +:+ d2 -> n1 = n2 /\ d1 = d2.
Proof.
  induction n1 as [|c n1 IH]; intros [|c' n2] d1 d2 H1 H2; cbn; intros E.
  - injection E as E. auto.
  - exfalso. injection E as E1 E2. exact (H1 _ _ E2).
  - exfalso. injection E as E1 E2. exact (H2 _ _ (eq_sym E2)).
  - injection E as E1 E2. subst c'. destruct (IH _ _ _ H1 H2 E2) as [-> ->]. auto.
Qed.

(** Two ids made at line 267 are equal exactly when the two files have the
    same name and [Date.now()] returned the same millisecond. *)
Lemma fileId_of_eq f1 t1 f2 t2 :
  (0 <= t1)%Z -> (0 <= t2)%Z ->
  (fileId_of f1 t1 = fileId_of f2 t2 <-> file_name f1 = file_name f2 /\ t1 = t2).
Proof.
  intros H1 H2. unfold fileId_of. split.
  - intros E. apply append_dash_inj in E as [En Ed]; try (apply dec_no_dash; assumption).
    split; [exact En|apply dec_inj, Ed].
  - intros [-> ->]. reflexivity.
Qed.

(** C9.  Two images named a.png, selected together, for which [Date.now()]
    returns the same millisecond: both get the id "a.png-1000", and once
    loaded both are in [attachedFiles], two different attachments with one
    id. *)
Theorem same_name_same_time_same_id :
  exists s f1 f2,
    run [FilesSelected (Some [(a_png, 1000%Z); (a_png, 1000%Z)]);
         ReaderLoad 0 "data:image/png;base64,AAAA";
         ReaderLoad 0 "data:image/png;base64,BBBB"] (initial true) = Some s /\
    attachedFiles s = [f1; f2] /\ f1 <> f2 /\
    f_id f1 = "a.png-1000" /\ f_id f2 = "a.png-1000".
Proof.
  eexists _, _, _. split; [vm_compute; reflexivity|].
  split; [reflexivity|]. split; [discriminate|]. split; reflexivity.
Qed.

(** The same with two text files; one click then removes both. *)
Example same_id_documents :
  option_map (fun s => (map (fun a => d_id (doc_at s a)) (attachedDocs s)))
    (run [FilesSelected (Some [(a_txt, 1000%Z); (a_txt, 1000%Z)]);
          HandlerResume (Resolved (VText "first"));
          HandlerResume (Resolved (VText "second"))] (initial true))
  = Some ["a.txt-1000"; "a.txt-1000"]
  /\
  option_map attachedDocs
    (run [FilesSelected (Some [(a_txt, 1000%Z); (a_txt, 1000%Z)]);
          HandlerResume (Resolved (VText "first"));
          HandlerResume (Resolved (VText "second"));
          RemoveClick "a.txt-1000" true] (initial true))
  = Some [].
Proof. split; vm_compute; reflexivity. Qed.

(** * Sequential extraction *)





(** * The cancellation handle *)

(** C5 as stated does not hold.  After a.txt, selected alone, has been read,
    its document is registered, no extraction is in progress, and the
    document still has its handle. *)
Lemma handle_iff_extracting_counterexample :
  exists s,
    run [FilesSelected (Some [(a_txt, 1000%Z)]); HandlerResume (Resolved (VText "abc"))]
      (initial true) = Some s /\
    In 0 (attachedDocs s) /\ textContent (doc_at s 0) = "abc" /\
    ~ (is_Some (abortController (doc_at s 0)) <-> extracting s 0).
Proof.
  eexists. split; [vm_compute; reflexivity|]. split; [left; reflexivity|].
  split; [reflexivity|]. intros [H _].
  destruct H as (fr & Hfr & _); [eexists; reflexivity|discriminate].
Qed.

(** C5, amended.  In every state the page can reach, every registered
    document has its handle, and so has the document being extracted,
    registered or not; no event changes the handle of a document object;
    and after an extraction has failed with an error that is not an abort
    its document is not registered. *)
Theorem handle_never_cleared (s : State) :
  reachable s ->
  (forall a, In a (attachedDocs s) -> abortController (doc_at s a) = Some a) /\
  (forall a, extracting s a -> abortController (doc_at s a) = Some a) /\
  (forall e s' a d, dispatch e s = Some s' -> docHeap s !! a = Some d ->
     abortController (doc_at s' a) = abortController d) /\
  (forall fr name s', handler s = Some fr -> name <> "AbortError" ->
     dispatch (HandlerResume (Rejected name)) s = Some s' ->
     ~ In (fr_doc fr) (attachedDocs s')).
Proof.
  intros Hr. apply reachable_wf in Hr. pose proof Hr as [[H1 H2 H3 H4 H5] Hfr _ _].
  assert (Hat : forall a, a < length (docHeap s) -> abortController (doc_at s a) = Some a).
  { intros a Hlt. destruct (lookup_lt_is_Some_2 _ _ Hlt) as [d Hd].
    unfold doc_at. rewrite Hd. cbn. eauto. }
  split; [|split; [|split]].
  - intros a Ha. apply Hat, H1, Ha.
  - intros a (fr & Hh & <-). apply Hat. destruct (Hfr _ Hh) as (Hlast & _). lia.
  - intros e s' a d Hd Ha.
    destruct (run_objects [e] s s' a d) as (d' & Hd' & _ & _ & Hc).
    { cbn [run]. rewrite Hd. reflexivity. }
    { exact Ha. }
    unfold doc_at. rewrite Hd'. exact Hc.
  - intros fr name s' Hh Hname Hd. cbn [dispatch] in Hd. rewrite Hh in Hd.
    cbn [resume] in Hd. unfold catch in Hd.
    apply String.eqb_neq in Hname. rewrite Hname in Hd. injection Hd as <-.
    intros Hin.
    destruct (for_files_registry (fr_rest fr) (fail_document fr s)) as [_ [E|E]];
      rewrite E in Hin.
    + revert Hin. apply fail_document_unregisters; assumption.
    + apply in_app_or in Hin as [Hin|[Hin|[]]].
      * revert Hin. apply fail_document_unregisters; assumption.
      * destruct (Hfr _ Hh) as (Hlast & _).
        unfold fail_document in Hin. fields. lia.
Qed.

Lemma handle_never_cleared_witness :
  reachable reading_a_txt /\ In 0 (attachedDocs reading_a_txt) /\
  abortController (doc_at reading_a_txt 0) = Some 0.
Proof.
  assert (Hr : reachable reading_a_txt).
  { exists true, [FilesSelected (Some [(a_txt, 1000%Z)])]. vm_compute. reflexivity. }
  assert (Hin : In 0 (attachedDocs reading_a_txt)) by (left; reflexivity).
  split; [exact Hr|]. split; [exact Hin|].
  exact (proj1 (handle_never_cleared reading_a_txt Hr) 0 Hin).
Defined.

(** * Late results *)

(** C6.  Let a document object exist and not be registered (it was removed
    by the remove action, by new chat or by a send).  Then it is never
    registered again, whatever happens, so no later snapshot of the registry
    contains it.  And when a result, a progress step or an abort arrives for
    it, the snapshot of the registry stays as it is, but for the fresh
    document of the next file of the batch that the loop may go on with, and
    every element of the list shown keeps its state: the update goes to an
    element that is no longer shown. *)
Theorem late_result_discarded (s : State) (a : addr) :
  reachable s -> a < length (docHeap s) -> ~ In a (attachedDocs s) ->
  (forall es s', run es s = Some s' -> ~ In a (attachedDocs s')) /\
  (forall fr o s', handler s = Some fr -> fr_doc fr = a ->
     (exists v, o = Resolved v) \/ o = Rejected "AbortError" ->
     dispatch (HandlerResume o) s = Some s' ->
     ~ In a (attachedDocs s') /\
     (snapshotAll s' = snapshotAll s \/
      snapshotAll s' = snapshotAll s ++ [inr (doc_at s' (length (docHeap s)))] /\
      textContent (doc_at s' (length (docHeap s))) = EmptyString) /\
     (forall q, In q (container s) -> pillHeap s' !! q = pillHeap s !! q)).
Proof.
  intros Hr Hlt Hn. pose proof (reachable_wf_dom _ Hr) as Hdom.
  apply reachable_wf in Hr.
  split; [intros es s' Hrun; eapply run_not_registered; eauto|].
  intros fr o s' Hh Ha Ho Hd.
  assert (Hshown : forall q, In q (container s) -> pillHeap s' !! q = pillHeap s !! q).
  { intros q Hq.
    destruct (lookup_lt_is_Some_2 _ _ (dom_container _ Hdom _ Hq)) as [n Hqn].
    rewrite Hqn. cbn [dispatch] in Hd. rewrite Hh in Hd.
    apply (resume_pills _ _ _ _ _ _ Hd); [|exact Hqn].
    intros Hp. apply Hn. rewrite <- Ha. eapply (dom_shown _ Hdom); eassumption. }
  cut (~ In a (attachedDocs s') /\
       (snapshotAll s' = snapshotAll s \/
        snapshotAll s' = snapshotAll s ++ [inr (doc_at s' (length (docHeap s)))] /\
        textContent (doc_at s' (length (docHeap s))) = EmptyString)).
  { intros [H1 H2]. auto. }
  clear Hshown Hdom. revert fr o s' Hh Ha Ho Hd.
  intros fr o s' Hh Ha Ho Hd.
  assert (Hn' : ~ In a (attachedDocs s')).
  { apply (run_not_registered [HandlerResume o] s); [|exact Hlt|exact Hn].
    cbn [run]. rewrite Hd. reflexivity. }
  split; [exact Hn'|].
  assert (Hsame : map (fun b => inr (doc_at s' b)) (attachedDocs s)
                  = map (fun b => @inr AttachedFile _ (doc_at s b)) (attachedDocs s)).
  { apply map_ext_in. intros b Hb. f_equal.
    assert (Hbl : b < length (docHeap s)) by (apply (wf_docs _ (wf_data _ Hr)); exact Hb).
    destruct (lookup_lt_is_Some_2 _ _ Hbl) as [d Hbd].
    destruct (dispatch_objects _ _ _ _ _ Hd Hbd) as [H|(o' & fr' & t & _ & Hh' & Hb' & _)].
    - unfold doc_at. rewrite H, Hbd. reflexivity.
    - exfalso. apply Hn. rewrite Hh in Hh'. injection Hh' as <-. congruence. }
  cbn [dispatch] in Hd. rewrite Hh in Hd.
  pose proof Hd as Hd0.
  apply resume_keeps_registry in Hd as [Ef [Ed|Ed]]; [| |exact Ho].
  - left. unfold snapshotAll. rewrite Ef, Ed, Hsame. reflexivity.
  - right. unfold snapshotAll. rewrite Ef, Ed, map_app, Hsame, app_assoc.
    split; [reflexivity|].
    (* the appended document is the one [begin_document] has just created *)
    assert (Hnew : forall fs s0, length (docHeap s0) = length (docHeap s) ->
              attachedDocs (for_files fs s0) <> attachedDocs s0 ->
              textContent (doc_at (for_files fs s0) (length (docHeap s))) = EmptyString).
    { induction fs as [|[file now] rest IH]; intros s0 Hlen Hne; cbn [for_files] in *.
      - exfalso. apply Hne. reflexivity.
      - destruct (startsWith (file_type file) "image/"); [apply IH; assumption|].
        destruct (_ || _); [|apply IH; assumption].
        unfold begin_document, doc_at.
        destruct (String.eqb (file_type file) "text/plain"); fields;
          rewrite <- Hlen, lookup_app_r, Nat.sub_diag by lia; reflexivity. }
    assert (Hgrow : forall l : list nat, l = l ++ [length (docHeap s)] -> False).
    { intros l H. apply (f_equal (@length nat)) in H. rewrite length_app in H.
      cbn in H. lia. }
    unfold resume in Hd0. destruct o as [v|name].
    + destruct (fr_pc fr), v; try discriminate; injection Hd0 as <-.
      all: try (exfalso; fields; exact (Hgrow _ Ed)).
      all: try (unfold for_pages in *; destruct (Nat.leb _ _);
                [exfalso; fields; exact (Hgrow _ Ed)|]).
      all: unfold complete in *; apply Hnew;
        [unfold finish_document; fields; apply length_alter
        |rewrite Ed; unfold finish_document; fields;
         intros H; exact (Hgrow _ (eq_sym H))].
    + destruct Ho as [[v [=]]|[= ->]]. injection Hd0 as <-.
      exfalso. unfold catch in Ed. cbn [String.eqb Ascii.eqb Bool.eqb] in Ed.
      unfold cancel_document in Ed. fields. exact (Hgrow _ Ed).
Qed.

Lemma late_result_discarded_witness :
  reachable removed_a_txt /\ 0 < length (docHeap removed_a_txt) /\
  ~ In 0 (attachedDocs removed_a_txt) /\
  forall s', dispatch (HandlerResume (Resolved (VText "abc"))) removed_a_txt = Some s' ->
    ~ In 0 (attachedDocs s').
Proof.
  assert (Hr : reachable removed_a_txt).
  { exists true, [FilesSelected (Some [(a_txt, 1000%Z)]); RemoveClick "a.txt-1000" true].
    vm_compute. reflexivity. }
  assert (Hlt : 0 < length (docHeap removed_a_txt)) by (vm_compute; lia).
  assert (Hn : ~ In 0 (attachedDocs removed_a_txt)) by (vm_compute; tauto).
  split; [exact Hr|]. split; [exact Hlt|]. split; [exact Hn|].
  intros s' Hd.
  apply (proj1 (late_result_discarded removed_a_txt 0 Hr Hlt Hn)
           [HandlerResume (Resolved (VText "abc"))]).
  cbn [run]. rewrite Hd. reflexivity.
Defined.

Example late_result_example :
  option_map (fun s => (snapshotAll s, textContent (doc_at s 0), container s))
    (run [FilesSelected (Some [(a_txt, 1000%Z)]); RemoveClick "a.txt-1000" true;
          HandlerResume (Resolved (VText "abc"))] (initial true))
  = Some ([], "abc", []).
Proof. vm_compute. reflexivity. Qed.

(** * The selection loop (lines 259-340) *)

Lemma for_files_no_document files : forall s,
  forallb (fun fn => negb (is_document (fst fn))) files = true ->
  for_files files s
  = after_loop (set_readers (readers s ++ map reader_of (images_of files)) s).
Proof.
  induction files as [|[file now] rest IH]; intros s H; cbn [for_files].
  - unfold after_loop. fields. cbn [images_of List.filter map]. rewrite app_nil_r.
    reflexivity.
  - cbn [forallb fst] in H. apply andb_prop in H as [Hd Hrest].
    unfold is_document, is_image in Hd. unfold images_of.
    cbn [List.filter fst]. fold (images_of rest). unfold is_image at 1.
    destruct (startsWith (file_type file) "image/") eqn:Ei.
    + rewrite (IH _ Hrest). unfold after_loop. fields. cbn [map].
      unfold reader_of at 2. cbn [fst snd]. rewrite <- app_assoc. reflexivity.
    + cbn [negb andb] in Hd. apply negb_true_iff in Hd. rewrite Hd.
      apply IH. exact Hrest.
Qed.

(** X1.  A selection that holds no text and no PDF file, be it empty, is
    dealt with at once: the handler is not suspended when it returns, one
    reader is started for each image, in the order of the selection, with the
    id made of the file name and the time; the files of any other type leave
    no trace; no document, controller or pill is created and neither registry
    nor the list shown changes; the file input is reset, the four controls
    are enabled and the chat input gets the focus. *)
Theorem selection_without_documents (files : list (File * Z)) (s : State) :
  forallb (fun fn => negb (is_document (fst fn))) files = true ->
  let s' := handleFileSelected (Some files) s in
  handler s' = None /\
  readers s' = readers s ++ map reader_of (images_of files) /\
  attachedFiles s' = attachedFiles s /\ attachedDocs s' = attachedDocs s /\
  docHeap s' = docHeap s /\ ctrlHeap s' = ctrlHeap s /\
  pillHeap s' = pillHeap s /\ container s' = container s /\
  fileInput_value s' = EmptyString /\
  chatInput_disabled s' = false /\ sendButton_disabled s' = false /\
  imageUploadBtn_disabled s' = false /\ docUploadBtn_disabled s' = false /\
  log s' = log s ++ [EFocus].
Proof.
  intros H s'. unfold s'. cbn [handleFileSelected].
  rewrite (for_files_no_document _ _ H). unfold after_loop. fields.
  repeat split; reflexivity.
Qed.

Lemma selection_without_documents_witness :
  map rd_fileId (readers (handleFileSelected (Some mixed_selection) (initial true)))
  = ["a.png-1000"; "b.png-1001"].
Proof.
  destruct (selection_without_documents mixed_selection (initial true)
              ltac:(reflexivity)) as (_ & -> & _).
  reflexivity.
Defined.

(** * Text files (lines 303-305 and 320-321) *)

Lemma begin_text_document rest file now s0 :
  file_type file = "text/plain" ->
  exists fr sB, begin_document rest file now s0 = set_handler (Some fr) sB /\
    fr_pc fr = AwaitText /\ fr_rest fr = rest /\ fr_file fr = file /\
    fr_doc fr = length (docHeap s0) /\
    length (docHeap sB) = S (length (docHeap s0)) /\
    progress_calls (log sB) = progress_calls (log s0)
      ++ [(length (docHeap s0), "Reading document...", Some 25%Q)].
Proof.
  intros Hty. unfold begin_document. rewrite Hty. cbn [String.eqb Ascii.eqb Bool.eqb].
  eexists {| fr_rest := rest; fr_pc := AwaitText |}, _.
  split; [reflexivity|]. fields. repeat split.
  - rewrite length_app. cbn. lia.
  - rewrite progress_calls_app. reflexivity.
Qed.

(** X2.  When the loop of [handleFileSelected] reaches a text file and
    [file.text()] resolves with [t], the calls of [updateProgress] for its
    document are, whatever other events come in between, 'Reading
    document...' at 25 and then the file name with no percentage, and the
    text stored in the document is exactly [t]; the loop then goes on with
    the rest of the selection.  The handler does get there when nothing
    interferes. *)
Theorem text_file_extraction (s0 : State) (rest : list (File * Z)) (file : File)
    (now : Z) (t : string) :
  file_type file = "text/plain" ->
  (exists s1, run [HandlerResume (Resolved (VText t))]
                (begin_document rest file now s0) = Some s1) /\
  (forall s1, settles [Resolved (VText t)] (begin_document rest file now s0) s1 ->
     exists sfin, s1 = for_files rest sfin /\
       progress_calls (log sfin) =
         progress_calls (log s0)
         ++ [(length (docHeap s0), "Reading document...", Some 25%Q);
             (length (docHeap s0), file_name file, None)] /\
       textContent (doc_at sfin (length (docHeap s0))) = t).
Proof.
  intros Hty.
  destruct (begin_text_document rest file now s0 Hty)
    as (fr & sB & -> & Hpc & Hrest & Hfile & Hdoc & Hlen & Hlog).
  split.
  - cbn [run dispatch]. fields. unfold resume. rewrite Hpc. eauto.
  - intros s1 Hs.
    apply settles_cons_inv in Hs as (s2 & s3 & Eh & Ed & El & Hd & Hs). fields.
    apply settles_nil_inv in Hs. subst s1.
    cbn [dispatch] in Hd. rewrite Eh in Hd. unfold resume in Hd. rewrite Hpc in Hd.
    injection Hd as <-. unfold complete. rewrite Hrest.
    exists (finish_document fr t s2). split; [reflexivity|]. split.
    + unfold finish_document. fields. rewrite progress_calls_app, El, Hlog, Hdoc, Hfile.
      rewrite <- app_assoc. reflexivity.
    + rewrite <- Hdoc. apply doc_at_finish. rewrite Ed. lia.
Qed.

Lemma text_file_extraction_witness :
  exists s1, run [HandlerResume (Resolved (VText "abc"))]
               (begin_document [] a_txt 1000 (initial true)) = Some s1.
Proof.
  apply (text_file_extraction (initial true) [] a_txt 1000 "abc").
  reflexivity.
Defined.

(** X3.  In any state the page can be in, when [file.text()] resolves for
    the text file the handler is reading, the text is stored in the document
    object the handler holds, be the document still registered or not; the
    registries and the list shown are left as they are; the element the
    handler holds, which has the id of the document, loses 'processing'; if
    it has the details of a document pill (the name was plain text when the
    pill was made), it shows the file name with the progress bar hidden and
    reset to 0; an image pill is left as it is ([updateProgress] returns
    early), and a pill whose name holds markup stays opaque; the only call
    recorded is the last progress update; and
    the loop goes on with the remaining files ([s1] is the state in which it
    does). *)
Theorem success_stores_text_and_names_pill (s : State) (fr : Frame) (t : string) :
  reachable s -> handler s = Some fr -> fr_pc fr = AwaitText ->
  exists s1 s' p n n',
    dispatch (HandlerResume (Resolved (VText t))) s = Some s' /\
    s' = for_files (fr_rest fr) s1 /\
    textContent (doc_at s1 (fr_doc fr)) = t /\
    attachedDocs s1 = attachedDocs s /\ attachedFiles s1 = attachedFiles s /\
    container s1 = container s /\
    fr_pill fr = Some p /\ pillHeap s !! p = Some n /\ pillHeap s' !! p = Some n' /\
    pill_id n' = fr_fileId fr /\ cls_processing n' = false /\
    inner n' = match inner n with
               | Details _ _ _ => Details (file_name (fr_file fr)) true (Some 0%Q)
               | other => other
               end /\
    log s1 = log s ++ [EUpdateProgress (fr_doc fr) (file_name (fr_file fr)) None].
Proof.
  intros Hr Hh Hpc. pose proof (reachable_wf_dom _ Hr) as Hdom.
  apply reachable_wf in Hr.
  destruct (dom_pill _ Hdom _ Hh) as (p & n & Hp & Hn & Hnid).
  destruct (wf_frame _ Hr _ Hh) as (Hlast & _).
  exists (finish_document fr t s), (for_files (fr_rest fr) (finish_document fr t s)), p, n,
    (set_processing false (show_progress (file_name (fr_file fr)) None n)).
  cbn [dispatch]. rewrite Hh. unfold resume. rewrite Hpc.
  split; [reflexivity|]. split; [reflexivity|].
  split; [apply doc_at_finish; lia|].
  split; [reflexivity|]. split; [reflexivity|]. split; [reflexivity|].
  split; [exact Hp|]. split; [exact Hn|]. split.
  { apply for_files_pills. unfold finish_document. fields. rewrite Hp. cbn beta iota.
    rewrite !list_lookup_alter_eq, Hn. reflexivity. }
  unfold show_progress. destruct (inner n) eqn:Ek; cbn; rewrite ?Ek.
  all: repeat split; try assumption; try discriminate.
Qed.

Lemma success_stores_text_and_names_pill_witness :
  exists s',
    dispatch (HandlerResume (Resolved (VText "abc"))) reading_a_txt = Some s' /\
    shown s'
    = [Some {| pill_id := "a.txt-1000"; pill_kind := DocPill; cls_processing := false;
               cls_error := false; inner := Details "a.txt" true (Some 0%Q) |}].
Proof.
  assert (Hr : reachable reading_a_txt).
  { exists true, [FilesSelected (Some [(a_txt, 1000%Z)])]. vm_compute. reflexivity. }
  destruct (success_stores_text_and_names_pill reading_a_txt a_txt_frame "abc" Hr
              ltac:(vm_compute; reflexivity) ltac:(reflexivity))
    as (s1 & s' & p & n & n' & H1 & _).
  exists s'. split; [exact H1|].
  vm_compute in H1. injection H1 as <-. vm_compute. reflexivity.
Defined.

(** * The percentages of the page loop (lines 296 and 311-313) *)

Lemma Qlt_bool_iff x y : Qlt_bool x y = true <-> (x < y)%Q.
Proof.
  unfold Qlt_bool. rewrite negb_true_iff. split.
  - intros H. apply Qnot_le_lt. intros Hle. apply Qle_bool_iff in Hle. congruence.
  - intros H. destruct (Qle_bool y x) eqn:E; [|reflexivity].
    apply Qle_bool_iff in E. exfalso. exact (Qlt_not_le _ _ H E).
Qed.

Lemma pages_checked_spec N :
  pages_checked N = true ->
  forall P i, P <= N -> 1 <= i -> i <= P ->
    page_checked P i = true /\ Qeq_bool (page_percentage P P) 85 = true.
Proof.
  unfold pages_checked. intros H P i HP Hi HiP.
  rewrite forallb_forall in H. specialize (H P).
  destruct (andb_prop _ _ (H ltac:(apply in_seq; lia))) as [Hall Hlast].
  rewrite forallb_forall in Hall. split; [|exact Hlast].
  apply Hall. apply in_seq. lia.
Qed.

Lemma pages_checked_all : pages_checked checked_pages = true.
Proof. vm_compute. reflexivity. Qed.

(** X4.  For a PDF of up to 200 pages, a one page PDF included, the
    percentage the code computes in doubles for page [i] of [P] is above 15
    and at most 85; it grows strictly from each page to the next; it is
    exactly 85 for the last page; the clamping of line 296 leaves it as it
    is; and it differs from the exact value of [15 + (i/P)*70] by at most
    10^-13. *)
Theorem page_percentages_advance (i P : nat) :
  1 <= i -> i <= P -> P <= checked_pages ->
  (15 < page_percentage i P)%Q /\ (page_percentage i P <= 85)%Q /\
  (i < P -> (page_percentage i P < page_percentage (S i) P)%Q) /\
  (page_percentage P P == 85)%Q /\
  (clamp (page_percentage i P) == page_percentage i P)%Q /\
  (Qabs (page_percentage i P - exact_percentage i P) <= 1 # 10 ^ 13)%Q.
Proof.
  intros Hi HiP HP.
  destruct (pages_checked_spec checked_pages pages_checked_all P i HP Hi HiP)
    as [Hall Hlast].
  unfold page_checked in Hall. cbn zeta in Hall.
  apply andb_prop in Hall as [Hall Hacc]. apply andb_prop in Hall as [Hall Hnext].
  apply andb_prop in Hall as [Hlow Hhigh].
  apply Qlt_bool_iff in Hlow. apply Qle_bool_iff in Hhigh. apply Qle_bool_iff in Hacc.
  apply Qeq_bool_iff in Hlast.
  split; [exact Hlow|]. split; [exact Hhigh|]. split.
  { intros Hlt. apply orb_prop in Hnext as [Hnext|Hnext].
    - apply Nat.eqb_eq in Hnext. lia.
    - apply Qlt_bool_iff. exact Hnext. }
  split; [exact Hlast|]. split; [|exact Hacc].
  unfold clamp. rewrite Q.min_r by lra. apply Q.max_r. lra.
Qed.

Lemma page_percentages_advance_witness :
  (15 < page_percentage 1 1)%Q /\ (page_percentage 1 1 == 85)%Q /\
  (page_percentage 1 3 < page_percentage 2 3)%Q.
Proof.
  destruct (page_percentages_advance 1 1 ltac:(lia) ltac:(lia)
              ltac:(unfold checked_pages; lia)) as (H1 & _ & _ & H2 & _).
  destruct (page_percentages_advance 1 3 ltac:(lia) ltac:(lia)
              ltac:(unfold checked_pages; lia)) as (_ & _ & H3 & _).
  split; [exact H1|]. split; [exact H2|]. apply H3. lia.
Defined.

(** X5.  The ids the loop gives to the files of a selection are pairwise
    different exactly when no two of the files have both the same name and
    the same time of [Date.now()]. *)
Theorem selection_ids_distinct_iff (files : list (File * Z)) :
  forallb (fun fn => Z.leb 0 (snd fn)) files = true ->
  (NoDup (map (fun fn => fileId_of (fst fn) (snd fn)) files)
   <-> NoDup (map (fun fn => (file_name (fst fn), snd fn)) files)).
Proof.
  induction files as [|[f t] rest IH]; cbn [forallb map fst snd]; intros H.
  - split; intros _; constructor.
  - apply andb_prop in H as [Ht Hrest]. apply Z.leb_le in Ht.
    rewrite !NoDup_cons, (IH Hrest).
    assert (Hin : fileId_of f t ∈ map (fun fn => fileId_of (fst fn) (snd fn)) rest
                  <-> (file_name f, t) ∈ map (fun fn => (file_name (fst fn), snd fn)) rest).
    { rewrite !list_elem_of_fmap. split.
      - intros ([f' t'] & E & Hin). exists (f', t'). split; [|exact Hin].
        cbn [fst snd] in *. apply fileId_of_eq in E as [-> ->]; [reflexivity|exact Ht|].
        rewrite forallb_forall in Hrest. apply Z.leb_le.
        apply (Hrest (f', t')). apply list_elem_of_In. exact Hin.
      - intros ([f' t'] & E & Hin). exists (f', t'). split; [|exact Hin].
        cbn [fst snd] in *. injection E as E1 E2. unfold fileId_of. congruence. }
    rewrite Hin. reflexivity.
Qed.

Lemma selection_ids_distinct_iff_witness :
  NoDup (map (fun fn => fileId_of (fst fn) (snd fn)) two_text_files).
Proof.
  apply (selection_ids_distinct_iff two_text_files ltac:(reflexivity)).
  apply (bool_decide_unpack _). vm_compute. exact I.
Defined.

(** * The text of a document along a run *)

(** The loop suspends on a document it has just created, the text of which
    is empty. *)
Lemma for_files_frame files : forall s fr,
  handler (for_files files s) = Some fr ->
  fr_doc fr = length (docHeap s) /\
  textContent (doc_at (for_files files s) (fr_doc fr)) = EmptyString.
Proof.
  induction files as [|[file now] rest IH]; intros s fr; cbn [for_files].
  - unfold after_loop. fields. discriminate.
  - destruct (startsWith (file_type file) "image/");
      [intros H; apply IH in H; exact H|].
    destruct (_ || _); [|apply IH].
    unfold begin_document, doc_at.
    destruct (String.eqb (file_type file) "text/plain"); fields; intros [= <-]; fields.
    all: rewrite lookup_app_r, Nat.sub_diag by lia; auto.
Qed.

Lemma for_files_heap_length files : forall s,
  length (docHeap s) <= length (docHeap (for_files files s)).
Proof.
  induction files as [|[file now] rest IH]; intros s; cbn [for_files].
  - unfold after_loop. fields. lia.
  - destruct (startsWith (file_type file) "image/"); [exact (IH (set_readers _ s))|].
    destruct (_ || _); [|apply IH].
    unfold begin_document.
    destruct (String.eqb (file_type file) "text/plain"); fields;
      rewrite length_app; lia.
Qed.

(** After one event the handler is suspended on the document it was
    suspended on before, which the event has not touched, or on a document
    created by this event. *)
Lemma dispatch_frame e s s' fr' :
  dispatch e s = Some s' -> handler s' = Some fr' ->
  (exists fr, handler s = Some fr /\ fr_doc fr' = fr_doc fr /\ docHeap s' = docHeap s) \/
  (length (docHeap s) <= fr_doc fr' /\
   textContent (doc_at s' (fr_doc fr')) = EmptyString).
Proof.
  intros Hd Hh'.
  assert (Hloop : forall fs s0, length (docHeap s0) = length (docHeap s) ->
            handler (for_files fs s0) = Some fr' ->
            length (docHeap s) <= fr_doc fr' /\
            textContent (doc_at (for_files fs s0) (fr_doc fr')) = EmptyString).
  { intros fs s0 El H. destruct (for_files_frame _ _ _ H) as [E1 E2].
    split; [lia|exact E2]. }
  destruct (quiet e) eqn:Eq.
  { destruct (quiet_dispatch _ _ _ Eq Hd) as (E1 & E2 & _). left.
    exists fr'. rewrite <- E1. auto. }
  destruct e as [files|o|k url|id answer| |value| |ok]; try discriminate;
    cbn [dispatch] in Hd.
  - destruct (can_select s) eqn:Ec; [|discriminate]. injection Hd as <-. right.
    destruct files as [fs|]; cbn [handleFileSelected browser_value] in *.
    + apply Hloop in Hh'; [exact Hh'|]. destruct fs as [|[f t] fs']; reflexivity.
    + exfalso. unfold can_select in Ec. rewrite Hh' in Ec.
      rewrite andb_false_r in Ec. discriminate.
  - destruct (handler s) as [fr|] eqn:Eh; [|discriminate].
    assert (Hc : forall t, handler (complete fr t s) = Some fr' ->
              length (docHeap s) <= fr_doc fr' /\
              textContent (doc_at (complete fr t s) (fr_doc fr')) = EmptyString).
    { intros t H. apply Hloop in H; [exact H|].
      unfold finish_document. fields. apply length_alter. }
    unfold resume in Hd. destruct o as [v|name].
    + destruct (fr_pc fr), v; try discriminate; injection Hd as <-.
      * right. apply Hc. exact Hh'.
      * left. exists fr. fields. injection Hh' as <-. auto.
      * unfold for_pages in *. destruct (Nat.leb _ _).
        -- left. exists fr. fields. injection Hh' as <-. auto.
        -- right. apply Hc. exact Hh'.
      * left. exists fr. fields. injection Hh' as <-. auto.
      * unfold for_pages in *. destruct (Nat.leb _ _).
        -- left. exists fr. fields. injection Hh' as <-. auto.
        -- right. apply Hc. exact Hh'.
    + injection Hd as <-. unfold catch in *.
      destruct (String.eqb name "AbortError").
      * unfold cancel_document in Hh'. fields. discriminate.
      * right. apply Hloop in Hh'; [exact Hh'|]. reflexivity.
Qed.

Lemma handler_text_empty_run es : forall s s',
  (forall fr, handler s = Some fr -> textContent (doc_at s (fr_doc fr)) = EmptyString) ->
  run es s = Some s' ->
  forall fr, handler s' = Some fr -> textContent (doc_at s' (fr_doc fr)) = EmptyString.
Proof.
  induction es as [|e es IH]; intros s s' Hinv; cbn [run].
  - intros [= <-]. exact Hinv.
  - destruct (dispatch e s) as [s1|] eqn:E; [|discriminate].
    apply IH. intros fr1 H1.
    destruct (dispatch_frame _ _ _ _ E H1) as [(fr & Hh & Ed & Eheap)|[_ Ht]]; [|exact Ht].
    rewrite Ed. rewrite (doc_at_heap _ _ _ Eheap). apply Hinv. exact Hh.
Qed.

(** X6.  In every state the page can be in, the document that is being
    extracted still has the empty text it was created with: the text is
    written in one piece when the extraction has succeeded (line 320), never
    page by page. *)
Theorem text_empty_while_extracting (s : State) (fr : Frame) :
  reachable s -> handler s = Some fr ->
  textContent (doc_at s (fr_doc fr)) = EmptyString.
Proof.
  intros (connected & es & Hrun) Hh.
  apply (handler_text_empty_run es (initial connected) s); [|exact Hrun|exact Hh].
  intros fr0 H0. discriminate H0.
Qed.

Lemma text_empty_while_extracting_witness :
  textContent (doc_at (default (initial true) (run parsing_a_pdf (initial true))) 0)
  = EmptyString.
Proof.
  apply (text_empty_while_extracting _
           {| fr_rest := [(b_txt, 1001%Z)]; fr_file := a_pdf; fr_fileId := "a.pdf-1000";
              fr_doc := 0; fr_ctrl := 0; fr_pill := Some 0; fr_pc := AwaitGetDocument |}).
  - exists true, parsing_a_pdf. vm_compute. reflexivity.
  - vm_compute. reflexivity.
Defined.

(** X7.  A document object the handler is not working on is never changed
    again, whatever happens: once the extraction of a document has ended, by
    success, failure or cancellation, its id, name, text and controller are
    final. *)
Theorem finished_document_is_final (es : list Event) : forall (s s' : State)
    (b : addr) (d : AttachedDocument),
  run es s = Some s' -> docHeap s !! b = Some d ->
  (forall fr, handler s = Some fr -> fr_doc fr <> b) ->
  docHeap s' !! b = Some d.
Proof.
  induction es as [|e es IH]; intros s s' b d; cbn [run].
  - intros [= <-] H _. exact H.
  - destruct (dispatch e s) as [s1|] eqn:E; [|discriminate]. intros Hr Hb Hh.
    apply (IH _ _ _ _ Hr).
    + destruct (dispatch_objects _ _ _ _ _ E Hb) as [H|(o & fr & t & _ & Hfr & -> & _)];
        [exact H|]. destruct (Hh _ Hfr eq_refl).
    + intros fr1 H1.
      destruct (dispatch_frame _ _ _ _ E H1) as [(fr & Hfr & Ed & _)|[Hle _]].
      * rewrite Ed. apply Hh. exact Hfr.
      * apply lookup_lt_Some in Hb. lia.
Qed.

Lemma finished_document_is_final_witness :
  exists s', run [RemoveClick "a.txt-1000" true; NewChat] read_a_txt = Some s' /\
    docHeap s' !! 0 = Some {| d_id := "a.txt-1000"; d_name := "a.txt"; textContent := "abc";
                              summary := None; abortController := Some 0 |}.
Proof.
  eexists. split; [vm_compute; reflexivity|].
  apply (finished_document_is_final [RemoveClick "a.txt-1000" true; NewChat] read_a_txt).
  - vm_compute. reflexivity.
  - vm_compute. reflexivity.
  - intros fr H. vm_compute in H. discriminate H.
Defined.

(** * The abort controllers along a run *)

Lemma for_files_ctrls files : forall s,
  ctrlHeap (for_files files s) = ctrlHeap s \/
  ctrlHeap (for_files files s) = ctrlHeap s ++ [false].
Proof.
  induction files as [|[file now] rest IH]; intros s; cbn [for_files].
  - unfold after_loop. fields. auto.
  - destruct (startsWith (file_type file) "image/"); [exact (IH (set_readers _ s))|].
    destruct (_ || _); [|apply IH].
    unfold begin_document.
    destruct (String.eqb (file_type file) "text/plain"); fields; auto.
Qed.

(** What one event does to the controllers: nothing, or it creates one that
    is not signalled, or it is a click on the remove button that signals the
    controller of the first registered document with the id. *)
Lemma dispatch_ctrls e s s' :
  dispatch e s = Some s' ->
  ctrlHeap s' = ctrlHeap s \/ ctrlHeap s' = ctrlHeap s ++ [false] \/
  exists id answer a c, e = RemoveClick id answer /\ docToCancel id s = Some a /\
    abortController (doc_at s a) = Some c /\ ctrlHeap s' = <[c := true]> (ctrlHeap s).
Proof.
  intros Hd.
  assert (Hloop : forall fs s0, ctrlHeap s0 = ctrlHeap s ->
            ctrlHeap (for_files fs s0) = ctrlHeap s \/
            ctrlHeap (for_files fs s0) = ctrlHeap s ++ [false]).
  { intros fs s0 E. rewrite <- E. apply for_files_ctrls. }
  destruct e as [files|o|k url|id answer| |value| |ok]; cbn [dispatch] in Hd.
  - destruct (can_select s); [|discriminate]. injection Hd as <-.
    destruct files as [fs|]; [|auto]. cbn [handleFileSelected].
    destruct (Hloop fs (toggleChatForm false (browser_value (Some fs) s))) as [H|H]; auto.
    destruct fs as [|[f t] fs']; reflexivity.
  - destruct (handler s) as [fr|] eqn:Eh; [|discriminate].
    assert (Hc : forall t, ctrlHeap (complete fr t s) = ctrlHeap s \/
              ctrlHeap (complete fr t s) = ctrlHeap s ++ [false]).
    { intros t. apply Hloop. reflexivity. }
    unfold resume in Hd. destruct o as [v|name].
    + destruct (fr_pc fr), v; try discriminate; injection Hd as <-;
        try (unfold for_pages; destruct (Nat.leb _ _)); auto;
        match goal with |- context [complete fr ?t s] => destruct (Hc t); auto end.
    + injection Hd as <-. unfold catch. destruct (String.eqb name "AbortError"); [auto|].
      destruct (Hloop (fr_rest fr) (fail_document fr s) eq_refl); auto.
  - unfold reader_onload in Hd. destruct (readers s !! k); [|discriminate].
    injection Hd as <-. auto.
  - injection Hd as <-.
    assert (Hsig : forall s0, attachedDocs s0 = attachedDocs s -> docHeap s0 = docHeap s ->
              ctrlHeap s0 = ctrlHeap s ->
              ctrlHeap (discard id (signal_cancel id s0)) = ctrlHeap s \/
              exists a c, docToCancel id s = Some a /\
                abortController (doc_at s a) = Some c /\
                ctrlHeap (discard id (signal_cancel id s0)) = <[c := true]> (ctrlHeap s)).
    { intros s0 E1 E2 E3. unfold discard. fields. unfold signal_cancel.
      assert (Ef : docToCancel id s0 = docToCancel id s).
      { unfold docToCancel, doc_at. rewrite E1, E2. reflexivity. }
      rewrite Ef. destruct (docToCancel id s) as [a|] eqn:Ea; [|auto].
      rewrite (doc_at_heap _ _ _ E2).
      destruct (abortController (doc_at s a)) as [c|] eqn:Ecc; [|auto].
      right. exists a, c. unfold abort. fields. rewrite E3. auto. }
    unfold removeAttachment. destruct (isProcessing id s).
    + destruct (Hsig s eq_refl eq_refl eq_refl) as [H|(a & c & H1 & H2 & H3)]; [auto|].
      right. right. exists id, answer, a, c. auto.
    + destruct answer; [|auto].
      destruct (Hsig (emit (EConfirm confirm_text) s) eq_refl eq_refl eq_refl)
        as [H|(a & c & H1 & H2 & H3)]; [auto|].
      right. right. exists id, true, a, c. auto.
  - injection Hd as <-. unfold handleNewChat. destruct (ai _); auto.
  - destruct (chatInput_disabled s); [discriminate|]. injection Hd as <-. auto.
  - destruct (can_submit s); [|discriminate]. injection Hd as <-.
    unfold handleChatFormSubmit. destruct (_ && _); [auto|].
    destruct (negb (chat s)); auto.
  - unfold submit_resume in Hd.
    destruct (submitting s) as [[u|parts| |]|]; try destruct ok; try discriminate;
      injection Hd as <-; auto.
Qed.

(** X8.  Along any run from a state the page can be in, a controller that
    has been signalled stays signalled, and a controller is signalled only by
    a click on the remove button of the document that owns it, the click
    carrying the id of that document: neither a new chat, nor sending the
    message, nor the failure or the end of an extraction aborts anything. *)
Theorem abort_only_by_removal (es : list Event) : forall (s s' : State) (c : addr),
  reachable s -> run es s = Some s' ->
  (ctrlHeap s !! c = Some true -> ctrlHeap s' !! c = Some true) /\
  (ctrlHeap s' !! c = Some true ->
   ctrlHeap s !! c = Some true \/
   exists answer, In (RemoveClick (d_id (doc_at s' c)) answer) es).
Proof.
  induction es as [|e es IH]; intros s s' c Hr; cbn [run].
  - intros [= <-]. auto.
  - destruct (dispatch e s) as [s1|] eqn:E; [|discriminate]. intros Hrun.
    assert (Hr1 : reachable s1).
    { apply (reachable_run [e] s s1 Hr). cbn [run]. rewrite E. reflexivity. }
    destruct (IH _ _ c Hr1 Hrun) as [Hup Hdown].
    destruct (dispatch_ctrls _ _ _ E) as [Ec|[Ec|(id & answer & a & c0 & -> & Ha & Hc0 & Ec)]].
    + rewrite Ec in *. split; [exact Hup|]. intros H.
      destruct (Hdown H) as [H'|(answer & Hin)]; [auto|]. right. exists answer. right. exact Hin.
    + split.
      * intros H. apply Hup. rewrite Ec. apply lookup_app_l_Some. exact H.
      * intros H. destruct (Hdown H) as [H'|(answer & Hin)].
        -- left. rewrite Ec in H'. apply lookup_app_Some in H' as [H'|[_ H']]; [exact H'|].
           apply list_lookup_singleton_Some in H' as [_ [=]].
        -- right. exists answer. right. exact Hin.
    + split.
      * intros H. apply Hup. rewrite Ec.
        destruct (Nat.eq_dec c0 c) as [->|Hne].
        -- rewrite list_lookup_insert_eq by (eapply lookup_lt_Some; eauto). reflexivity.
        -- rewrite list_lookup_insert_ne by exact Hne. exact H.
      * intros H. destruct (Hdown H) as [H'|(answer' & Hin)].
        -- rewrite Ec in H'. destruct (Nat.eq_dec c0 c) as [->|Hne].
           ++ right. exists answer. left.
              apply docToCancel_Some in Ha as [Hreg Hid].
              pose proof (reachable_wf _ Hr) as [[Hdocs Hown _ _ _] _ _ _].
              destruct (lookup_lt_is_Some_2 _ _ (Hdocs _ Hreg)) as [d Hd].
              assert (Ed : doc_at s a = d) by (unfold doc_at; rewrite Hd; reflexivity).
              rewrite Ed in *. rewrite (Hown _ _ Hd) in Hc0. injection Hc0 as ->.
              destruct (run_objects (RemoveClick id answer :: es) s s' c d) as
                (d' & Hd' & Hid' & _); [cbn [run]; rewrite E; exact Hrun|exact Hd|].
              unfold doc_at. rewrite Hd'. cbn. rewrite Hid', Hid. reflexivity.
           ++ rewrite list_lookup_insert_ne in H' by exact Hne. auto.
        -- right. exists answer'. right. exact Hin.
Qed.

Lemma abort_only_by_removal_witness :
  exists s', run cancelling_a_pdf (initial true) = Some s' /\
    ctrlHeap s' !! 0 = Some true /\
    exists answer, In (RemoveClick (d_id (doc_at s' 0)) answer) cancelling_a_pdf.
Proof.
  assert (Hr : reachable (initial true)) by (exists true, []; reflexivity).
  eexists. split; [vm_compute; reflexivity|]. split; [vm_compute; reflexivity|].
  destruct (abort_only_by_removal cancelling_a_pdf (initial true) _ 0 Hr
              ltac:(vm_compute; reflexivity)) as [_ H].
  destruct (H ltac:(vm_compute; reflexivity)) as [H0|H1]; [|exact H1].
  vm_compute in H0. discriminate H0.
Defined.

(** * The gate of the form *)

(** X9.  In every state the page can be in: while [handleFileSelected] or
    [handleChatFormSubmit] is suspended at an [await], the chat input, the
    send button and both upload buttons are disabled; the two handlers are
    never suspended together; and so a selection or a send can only start
    when neither of them is under way. *)
Theorem busy_form_is_disabled (s : State) :
  reachable s ->
  (is_Some (handler s) \/ is_Some (submitting s) -> form_disabled s) /\
  (handler s = None \/ submitting s = None) /\
  (can_select s = true \/ can_submit s = true ->
   handler s = None /\ submitting s = None).
Proof.
  intros Hr. apply reachable_wf in Hr. split; [apply (wf_gate _ Hr)|].
  split; [apply (wf_excl _ Hr)|].
  intros H. apply (not_disabled_idle _ Hr).
  unfold can_select, can_submit in H.
  destruct H as [H|H]; apply andb_prop in H as [H _]; auto.
Qed.

Lemma busy_form_is_disabled_witness :
  form_disabled reading_a_txt.
Proof.
  assert (Hr : reachable reading_a_txt).
  { exists true, [FilesSelected (Some [(a_txt, 1000%Z)])]. vm_compute. reflexivity. }
  apply (busy_form_is_disabled reading_a_txt Hr). left. vm_compute. eauto.
Defined.

(** * The rendered list (lines 356-400) *)

Lemma lookup_seq_app {A} (l1 l2 : list A) :
  map (fun p => (l1 ++ l2) !! p) (seq (length l1) (length l2)) = map Some l2.
Proof.
  revert l1. induction l2 as [|x l2 IH]; intros l1; [reflexivity|].
  cbn [length seq map]. f_equal.
  - rewrite lookup_app_r, Nat.sub_diag by lia. reflexivity.
  - specialize (IH (l1 ++ [x])). rewrite <- app_assoc, length_app in IH.
    cbn [length app] in IH. rewrite Nat.add_1_r in IH. exact IH.
Qed.

Lemma shown_render s : shown (renderAttachments s) = map Some (render_pills s).
Proof. unfold shown. fields. apply lookup_seq_app. Qed.

Lemma find_filter_imp {A} (p q : A -> bool) (l : list A) :
  (forall x, p x = true -> q x = true) ->
  List.find p (List.filter q l) = List.find p l.
Proof.
  intros H. induction l as [|x l IH]; [reflexivity|]. cbn [List.filter List.find].
  destruct (q x) eqn:Eq; cbn [List.find].
  - rewrite IH. reflexivity.
  - destruct (p x) eqn:Ep; [|exact IH]. rewrite (H _ Ep) in Eq. discriminate.
Qed.

Lemma find_filter_negb {A} (p : A -> bool) (l : list A) :
  List.find p (List.filter (fun x => negb (p x)) l) = None.
Proof.
  induction l as [|x l IH]; [reflexivity|]. cbn [List.filter].
  destruct (p x) eqn:Ep; cbn [negb List.find]; [exact IH|]. rewrite Ep. exact IH.
Qed.

Lemma filter_filter_comm {A} (p q : A -> bool) (l : list A) :
  List.filter p (List.filter q l) = List.filter q (List.filter p l).
Proof.
  induction l as [|x l IH]; [reflexivity|]. cbn [List.filter].
  destruct (p x) eqn:Ep, (q x) eqn:Eq; cbn [List.filter]; rewrite ?Ep, ?Eq, IH; reflexivity.
Qed.

Lemma filter_idem {A} (p : A -> bool) (l : list A) :
  List.filter p (List.filter p l) = List.filter p l.
Proof.
  induction l as [|x l IH]; [reflexivity|]. cbn [List.filter].
  destruct (p x) eqn:Ep; cbn [List.filter]; rewrite ?Ep, IH; reflexivity.
Qed.

(** The controllers after the signal of lines 347-348. *)
Lemma signal_cancel_ctrls id s :
  ctrlHeap (signal_cancel id s)
  = match docToCancel id s with
    | Some a => match abortController (doc_at s a) with
                | Some c => <[c := true]> (ctrlHeap s)
                | None => ctrlHeap s
                end
    | None => ctrlHeap s
    end.
Proof.
  unfold signal_cancel. destruct (docToCancel id s) as [a|]; [|reflexivity].
  destruct (abortController (doc_at s a)); reflexivity.
Qed.

(** What an effective removal leaves of the registries, the documents and
    the controllers. *)
Lemma removeAttachment_accepted id s :
  let s' := removeAttachment id true s in
  attachedFiles s'
  = List.filter (fun f => negb (String.eqb (f_id f) id)) (attachedFiles s) /\
  attachedDocs s' = docs_without id s /\ docHeap s' = docHeap s /\
  ctrlHeap s' = ctrlHeap (signal_cancel id s).
Proof.
  assert (H : forall s0, attachedFiles s0 = attachedFiles s ->
            attachedDocs s0 = attachedDocs s -> docHeap s0 = docHeap s ->
            ctrlHeap s0 = ctrlHeap s ->
            let s' := discard id (signal_cancel id s0) in
            attachedFiles s'
            = List.filter (fun f => negb (String.eqb (f_id f) id)) (attachedFiles s) /\
            attachedDocs s' = docs_without id s /\ docHeap s' = docHeap s /\
            ctrlHeap s' = ctrlHeap (signal_cancel id s)).
  { intros s0 E1 E2 E3 E4.
    destruct (signal_cancel_fields id s0) as (F1 & F2 & F3 & _).
    unfold discard, docs_without, doc_at. fields.
    rewrite F1, F2, F3, E1, E2, E3, !signal_cancel_ctrls.
    unfold docToCancel, doc_at. rewrite E2, E3, E4. auto. }
  unfold removeAttachment. destruct (isProcessing id s); apply H; reflexivity.
Qed.

(** X11.  Removing is idempotent and the order of two removals does not
    matter: removing the same id a second time changes neither registry and
    signals no controller, and removing two ids in either order leaves the
    same registries, the same document objects and the same controllers
    signalled. *)
Theorem removals_compose (id id' : string) (s : State) :
  let r := fun i => removeAttachment i true in
  (attachedFiles (r id (r id s)) = attachedFiles (r id s) /\
   attachedDocs (r id (r id s)) = attachedDocs (r id s) /\
   ctrlHeap (r id (r id s)) = ctrlHeap (r id s)) /\
  (attachedFiles (r id (r id' s)) = attachedFiles (r id' (r id s)) /\
   attachedDocs (r id (r id' s)) = attachedDocs (r id' (r id s)) /\
   docHeap (r id (r id' s)) = docHeap (r id' (r id s)) /\
   ctrlHeap (r id (r id' s)) = ctrlHeap (r id' (r id s))).
Proof.
  intros r. unfold r.
  assert (Hone : forall i s0,
            docToCancel i (removeAttachment i true s0) = None).
  { intros i s0. destruct (removeAttachment_accepted i s0) as (_ & E2 & E3 & _).
    unfold docToCancel, doc_at. rewrite E2, E3. unfold docs_without, doc_at.
    apply (find_filter_negb (fun a => String.eqb (d_id (default undefined_doc (docHeap s0 !! a))) i)). }
  assert (Hother : forall i j s0, i <> j ->
            docToCancel i (removeAttachment j true s0) = docToCancel i s0).
  { intros i j s0 Hne. destruct (removeAttachment_accepted j s0) as (_ & E2 & E3 & _).
    unfold docToCancel, doc_at. rewrite E2, E3. unfold docs_without, doc_at.
    apply find_filter_imp. intros a Ha. apply String.eqb_eq in Ha.
    apply negb_true_iff, String.eqb_neq. congruence. }
  assert (Hctrl : forall i j s0, i <> j ->
            ctrlHeap (removeAttachment i true (removeAttachment j true s0))
            = ctrlHeap (removeAttachment j true (removeAttachment i true s0))).
  { intros i j s0 Hne.
    destruct (removeAttachment_accepted i s0) as (_ & _ & Ei3 & Ei4).
    destruct (removeAttachment_accepted j s0) as (_ & _ & Ej3 & Ej4).
    destruct (removeAttachment_accepted i (removeAttachment j true s0)) as (_ & _ & _ & ->).
    destruct (removeAttachment_accepted j (removeAttachment i true s0)) as (_ & _ & _ & ->).
    rewrite !signal_cancel_ctrls, (Hother i j), (Hother j i) by congruence.
    rewrite Ei4, Ej4, !signal_cancel_ctrls. unfold doc_at. rewrite Ei3, Ej3.
    destruct (docToCancel i s0) as [a|]; [|reflexivity].
    destruct (abortController (default undefined_doc (docHeap s0 !! a))) as [c|];
      [|reflexivity].
    destruct (docToCancel j s0) as [b|]; [|reflexivity].
    destruct (abortController (default undefined_doc (docHeap s0 !! b))) as [c'|];
      [|reflexivity].
    destruct (Nat.eq_dec c c') as [->|Hc]; [reflexivity|].
    apply list_insert_insert_ne. exact Hc. }
  destruct (removeAttachment_accepted id s) as (E1 & E2 & E3 & E4).
  destruct (removeAttachment_accepted id' s) as (E1' & E2' & E3' & E4').
  destruct (removeAttachment_accepted id (removeAttachment id true s))
    as (D1 & D2 & D3 & D4).
  destruct (removeAttachment_accepted id (removeAttachment id' true s))
    as (C1 & C2 & C3 & C4).
  destruct (removeAttachment_accepted id' (removeAttachment id true s))
    as (B1 & B2 & B3 & B4).
  split; [split; [|split]|split; [|split; [|split]]].
  - rewrite D1, E1. apply filter_idem.
  - rewrite D2. unfold docs_without, doc_at. rewrite E3, E2. unfold docs_without, doc_at.
    apply filter_idem.
  - rewrite D4, signal_cancel_ctrls, Hone. reflexivity.
  - rewrite C1, B1, E1, E1'. apply filter_filter_comm.
  - rewrite C2, B2. unfold docs_without, doc_at. rewrite E3, E3', E2, E2'.
    unfold docs_without, doc_at. apply filter_filter_comm.
  - rewrite C3, B3, E3, E3'. reflexivity.
  - destruct (String.eqb_spec id id') as [->|Hne]; [reflexivity|]. apply Hctrl. exact Hne.
Qed.

(** X12.  Removing an id that no attachment has changes neither registry,
    touches no document and signals no controller; the dialog is still shown,
    since no element with that id is found (line 343), and when it is
    accepted the list is rendered anew. *)
Theorem remove_unknown_id (id : string) (answer : bool) (s : State) :
  forallb (fun f => negb (String.eqb (f_id f) id)) (attachedFiles s) = true ->
  forallb (fun a => negb (String.eqb (d_id (doc_at s a)) id)) (attachedDocs s) = true ->
  forallb (fun o => match o with
                    | Some n => negb (String.eqb (pill_id n) id)
                    | None => true
                    end) (shown s) = true ->
  let s' := removeAttachment id answer s in
  attachedFiles s' = attachedFiles s /\ attachedDocs s' = attachedDocs s /\
  docHeap s' = docHeap s /\ ctrlHeap s' = ctrlHeap s /\
  log s' = log s ++ [EConfirm confirm_text] /\
  shown s' = if answer then map Some (render_pills s) else shown s.
Proof.
  intros Hf Hd Hp s'. unfold s'.
  assert (Hproc : isProcessing id s = false).
  { unfold isProcessing. destruct (getElementById id s) as [p|] eqn:E; [|reflexivity].
    apply getElementById_Some in E as (Hin & n & Hn & Hid). exfalso.
    rewrite forallb_forall in Hp.
    specialize (Hp (Some n)). cbn in Hp. rewrite Hid, String.eqb_refl in Hp.
    enough (true = false) by discriminate. symmetry. apply Hp.
    unfold shown. apply in_map_iff. exists p. auto. }
  assert (Hnone : docToCancel id s = None).
  { unfold docToCancel. destruct (List.find _ _) as [a|] eqn:E; [|reflexivity].
    apply find_some in E as [Hin Hid]. rewrite forallb_forall in Hd.
    apply Hd in Hin. rewrite Hid in Hin. discriminate. }
  assert (Hfiles : List.filter (fun f => negb (String.eqb (f_id f) id)) (attachedFiles s)
                   = attachedFiles s).
  { clear -Hf. induction (attachedFiles s) as [|f l IH]; [reflexivity|].
    cbn [forallb List.filter] in *. apply andb_prop in Hf as [-> Hl].
    rewrite (IH Hl). reflexivity. }
  assert (Hdocs : docs_without id s = attachedDocs s).
  { unfold docs_without. clear -Hd. induction (attachedDocs s) as [|a l IH]; [reflexivity|].
    cbn [forallb List.filter] in *. apply andb_prop in Hd as [-> Hl].
    rewrite (IH Hl). reflexivity. }
  unfold removeAttachment. rewrite Hproc. destruct answer; [|fields; repeat split].
  assert (Hsig : signal_cancel id (emit (EConfirm confirm_text) s)
                 = emit (EConfirm confirm_text) s).
  { unfold signal_cancel.
    change (docToCancel id (emit (EConfirm confirm_text) s)) with (docToCancel id s).
    rewrite Hnone. reflexivity. }
  rewrite Hsig. unfold discard. rewrite shown_render. unfold render_pills. fields.
  change (docs_without id (set_attachedFiles _ (emit _ s))) with (docs_without id s).
  rewrite Hfiles, Hdocs. repeat split.
Qed.

Lemma remove_unknown_id_witness :
  attachedDocs (removeAttachment "b.txt-1" true read_a_txt) = attachedDocs read_a_txt.
Proof.
  apply (remove_unknown_id "b.txt-1" true read_a_txt); vm_compute; reflexivity.
Defined.

(** * The image read by a [FileReader] (lines 269-276) *)

Lemma split_absent c s : occurs c s = false -> split c s = [s].
Proof.
  induction s as [|a s IH]; cbn [occurs split]; [reflexivity|].
  intros H. apply orb_false_elim in H as [-> H]. rewrite (IH H). reflexivity.
Qed.

Lemma split_first c p d :
  occurs c p = false -> split c (p +:+ String c d) = p :: split c d.
Proof.
  induction p as [|a p IH]; cbn [occurs]; intros H.
  - change (EmptyString +:+ String c d) with (String c d). cbn [split].
    rewrite Ascii.eqb_refl. reflexivity.
  - apply orb_false_elim in H as [Ha H].
    change (String a p +:+ String c d) with (String a (p +:+ String c d)).
    cbn [split]. rewrite Ha, (IH H). reflexivity.
Qed.

(** X13.  When the [k]-th reader still reading loads with the result [url],
    one image is appended to [attachedFiles], after the images loaded before
    it, with the id and the file the reader was started for and [url] as its
    source; the reader is done and the list is rendered anew.  For a data URL
    made of a header without comma, a comma, and data without comma, the
    base64 kept is exactly the data; for a result that has no comma at all it
    is [undefined].  The documents are not touched. *)
Theorem image_loaded (k : nat) (r : Reader) (url : string) (s : State) :
  readers s !! k = Some r ->
  exists s' img,
    reader_onload k url s = Some s' /\
    attachedFiles s' = attachedFiles s ++ [img] /\
    f_id img = rd_fileId r /\ f_name img = file_name (rd_file r) /\
    mimeType img = file_type (rd_file r) /\ sourceUrl img = url /\
    (forall header data, url = header +:+ "," +:+ data ->
       occurs "," header = false -> occurs "," data = false ->
       base64 img = Some data) /\
    (occurs "," url = false -> base64 img = None) /\
    readers s' = delete k (readers s) /\
    attachedDocs s' = attachedDocs s /\ docHeap s' = docHeap s /\
    shown s' = map Some (render_pills s').
Proof.
  intros Hk. unfold reader_onload. rewrite Hk. eexists _, _.
  split; [reflexivity|]. rewrite shown_render. fields.
  split; [reflexivity|]. cbn [f_id f_name mimeType sourceUrl base64].
  repeat split.
  - intros header data -> Hh Hd.
    change ("," +:+ data) with (String ","%char data).
    rewrite (split_first _ _ _ Hh), (split_absent _ _ Hd). reflexivity.
  - intros H. rewrite (split_absent _ _ H). reflexivity.
Qed.

Lemma image_loaded_witness :
  exists s', reader_onload 0 "data:image/png;base64,AAAA" loading_a_png = Some s' /\
    map base64 (attachedFiles s') = [Some "AAAA"].
Proof.
  destruct (image_loaded 0 {| rd_fileId := "a.png-1000"; rd_file := a_png |}
              "data:image/png;base64,AAAA" loading_a_png ltac:(reflexivity))
    as (s' & img & H1 & _).
  exists s'. split; [exact H1|].
  vm_compute in H1. injection H1 as <-. reflexivity.
Defined.

(** * Sending, from the click to the end (lines 178-245) *)

(** X14.  When the form can be submitted, the chat is set up and there is
    something to send, [handleChatFormSubmit] disables the form and empties
    the input, and then goes on step by step.  When every step succeeds, one
    message is sent, composed of what is attached and typed at that time;
    afterwards nothing is attached, nothing is shown and the container is
    hidden, the chat input is empty, the four controls are enabled again and
    the chat input has the focus.  When the stream fails, the error is
    logged and the handler ends in the same way, whether the error bubble
    can be shown or not.  When the first step fails (the bubble of the user
    or the saving of the history, line 195), nothing is sent, what is
    attached stays attached and the form stays disabled; when the second
    fails (the bubble of the answer), nothing is sent either, the
    attachments are gone and the form stays disabled.  No document object
    and no controller is touched, and a suspended [handleFileSelected] stays
    suspended. *)
Theorem send_clears_attachments (s : State) :
  can_submit s = true -> chat s = true ->
  String.eqb (trim (chatInput_value s)) EmptyString
  && Nat.eqb (length (attachedFiles s) + length (attachedDocs s)) 0 = false ->
  let parts := composeParts (attachedFiles s) (map (doc_at s) (attachedDocs s))
                 (trim (chatInput_value s)) in
  let sent (rest : list Event) (calls : list Effect) :=
    exists s',
      run (Submit :: SubmitResume true :: SubmitResume true :: rest) s = Some s' /\
      attachedFiles s' = [] /\ attachedDocs s' = [] /\ shown s' = [] /\
      containerHidden s' = true /\ chatInput_value s' = EmptyString /\
      chatInput_disabled s' = false /\ sendButton_disabled s' = false /\
      imageUploadBtn_disabled s' = false /\ docUploadBtn_disabled s' = false /\
      submitting s' = None /\ handler s' = handler s /\
      docHeap s' = docHeap s /\ ctrlHeap s' = ctrlHeap s /\
      log s' = log s ++ ESendMessageStream parts :: calls in
  let stuck (steps : list Event) (files : list AttachedFile) (docs : list addr) :=
    exists s',
      run (Submit :: steps) s = Some s' /\
      attachedFiles s' = files /\ attachedDocs s' = docs /\
      chatInput_value s' = EmptyString /\
      chatInput_disabled s' = true /\ sendButton_disabled s' = true /\
      imageUploadBtn_disabled s' = true /\ docUploadBtn_disabled s' = true /\
      submitting s' = None /\ handler s' = handler s /\
      docHeap s' = docHeap s /\ ctrlHeap s' = ctrlHeap s /\
      log s' = log s in
  sent [SubmitResume true] [EFocus] /\
  (forall ok, sent [SubmitResume false; SubmitResume ok] [EConsoleError; EFocus]) /\
  stuck [SubmitResume false] (attachedFiles s) (attachedDocs s) /\
  stuck [SubmitResume true; SubmitResume false] [] [].
Proof.
  intros Hc Hchat Hne parts sent stuck. unfold sent, stuck, parts.
  assert (Hshown : forall t, container t = seq (length (pillHeap t)) 0 -> shown t = []).
  { intros t Ht. unfold shown. rewrite Ht. reflexivity. }
  repeat split; [|intros ok|..]; eexists;
    cbn [run dispatch]; rewrite Hc; unfold handleChatFormSubmit; rewrite Hne, Hchat;
    cbn [negb]; unfold submit_resume, submit_finally; fields;
    repeat (cbn [run dispatch]; unfold submit_resume, submit_finally; fields);
    (split; [reflexivity|]); unfold shown; fields; unfold render_pills; fields;
    cbn [map app length seq]; rewrite <- ?app_assoc; repeat split.
Qed.

Lemma send_clears_attachments_witness :
  exists s',
    run [Submit; SubmitResume true; SubmitResume true; SubmitResume true] typed_question
    = Some s' /\
    log s' = [ESendMessageStream [TextPart "What is a cell?"]; EFocus].
Proof.
  destruct (send_clears_attachments typed_question ltac:(reflexivity) ltac:(reflexivity)
              ltac:(reflexivity)) as ((s' & H1 & H2) & _).
  exists s'. split; [exact H1|]. vm_compute in H1. injection H1 as <-. reflexivity.
Defined.

(** * A selection that is read without failure (lines 259-340) *)

Lemma alter_last {A} (f : A -> A) (l : list A) (x : A) :
  alter f (length l) (l ++ [x]) = l ++ [f x].
Proof. induction l as [|y l IH]; cbn; [reflexivity|]. f_equal. exact IH. Qed.

(** The page loop run without interference: it ends in the rest of the
    selection loop, having changed of the data only the text of its
    document. *)
Lemma pages_run_data pages : forall i text s fr n,
  i + length pages = S n ->
  exists s2,
    run (map HandlerResume (page_outcomes pages)) (for_pages fr n i text s)
    = Some (for_files (fr_rest fr) s2) /\
    attachedFiles s2 = attachedFiles s /\ attachedDocs s2 = attachedDocs s /\
    docHeap s2 = alter (set_textContent (text +:+ pages_text pages)) (fr_doc fr) (docHeap s) /\
    ctrlHeap s2 = ctrlHeap s /\ readers s2 = readers s.
Proof.
  induction pages as [|items pages IH]; intros i text s fr n Hn;
    cbn [length] in Hn; unfold for_pages.
  - replace (Nat.leb i n) with false by (symmetry; apply Nat.leb_gt; lia).
    exists (finish_document fr text s). split; [reflexivity|].
    unfold finish_document. fields. cbn [pages_text]. rewrite append_nil_r.
    repeat split.
  - replace (Nat.leb i n) with true by (symmetry; apply Nat.leb_le; lia).
    cbn [page_outcomes flat_map app map run dispatch]. fields. cbn [resume fr_pc with_pc].
    fields. cbn [resume fr_pc].
    match goal with |- context [for_pages ?fr2 n (S i) ?t2 ?s2] =>
      destruct (IH (S i) t2 s2 fr2 n ltac:(lia)) as (s3 & Hrun & H1 & H2 & H3 & H4 & H5)
    end.
    fields. exists s3. split; [exact Hrun|].
    rewrite H3. cbn [pages_text]. rewrite !append_assoc. auto.
Qed.

(** One document file of the selection, read without interference. *)
Lemma document_run rest x s :
  is_document (sel_file x) = true ->
  exists s2,
    run (map HandlerResume (sel_outcomes x))
      (begin_document rest (sel_file x) (sel_now x) s)
    = Some (for_files rest s2) /\
    attachedFiles s2 = attachedFiles s /\
    attachedDocs s2 = attachedDocs s ++ [length (docHeap s)] /\
    docHeap s2 = docHeap s ++ [extracted_doc (length (ctrlHeap s)) x] /\
    ctrlHeap s2 = ctrlHeap s ++ [false] /\ readers s2 = readers s.
Proof.
  unfold is_document, sel_outcomes, extracted_doc, sel_content. intros H.
  apply andb_prop in H as [Hi Hd]. apply negb_true_iff in Hi. rewrite Hi.
  unfold begin_document.
  destruct (String.eqb (file_type (sel_file x)) "text/plain") eqn:Et.
  - cbn [map run dispatch]. fields. cbn [resume fr_pc]. unfold complete. fields.
    eexists. split; [reflexivity|]. unfold finish_document. fields.
    rewrite alter_last. repeat split.
  - cbn [orb] in Hd. rewrite Hd.
    cbn [pdf_outcomes map run dispatch]. fields. cbn [resume fr_pc with_pc].
    fields. cbn [resume fr_pc].
    match goal with |- context [for_pages ?fr2 ?n 1 ?t2 ?s2] =>
      destruct (pages_run_data (sel_pages x) 1 t2 s2 fr2 n ltac:(lia))
        as (s3 & Hrun & H1 & H2 & H3 & H4 & H5)
    end.
    fields. exists s3. split; [exact Hrun|].
    rewrite H3, alter_last. repeat split; assumption.
Qed.

(** X15.  A selection of any files, every read of which succeeds and which
    nothing interferes with, is worked off to its end: the handler returns,
    the four controls are enabled again and the file input is reset; exactly
    the text and PDF files have got a document, registered in the order of
    the selection after the documents that were there, each with the id made
    of its name and time, its name, its whole text and a controller of its
    own that is not signalled; one reader has been started for each image,
    and the files of any other type have left no trace. *)
Theorem selection_succeeds (xs : list Selected) (s : State) :
  exists s',
    run (map HandlerResume (flat_map sel_outcomes xs))
      (handleFileSelected (Some (files_of xs)) s) = Some s' /\
    handler s' = None /\
    chatInput_disabled s' = false /\ sendButton_disabled s' = false /\
    imageUploadBtn_disabled s' = false /\ docUploadBtn_disabled s' = false /\
    fileInput_value s' = EmptyString /\
    attachedFiles s' = attachedFiles s /\
    attachedDocs s' = attachedDocs s ++ seq (length (docHeap s)) (length (documents_of xs)) /\
    docHeap s' = docHeap s ++ extracted (length (ctrlHeap s)) (documents_of xs) /\
    ctrlHeap s' = ctrlHeap s ++ repeat false (length (documents_of xs)) /\
    readers s' = readers s ++ map reader_of (images_of (files_of xs)).
Proof.
  enough (H : forall s,
    exists s',
      run (map HandlerResume (flat_map sel_outcomes xs)) (for_files (files_of xs) s)
      = Some s' /\
      handler s' = None /\
      chatInput_disabled s' = false /\ sendButton_disabled s' = false /\
      imageUploadBtn_disabled s' = false /\ docUploadBtn_disabled s' = false /\
      fileInput_value s' = EmptyString /\
      attachedFiles s' = attachedFiles s /\
      attachedDocs s' = attachedDocs s ++ seq (length (docHeap s)) (length (documents_of xs)) /\
      docHeap s' = docHeap s ++ extracted (length (ctrlHeap s)) (documents_of xs) /\
      ctrlHeap s' = ctrlHeap s ++ repeat false (length (documents_of xs)) /\
      readers s' = readers s ++ map reader_of (images_of (files_of xs)))
    by (cbn [handleFileSelected]; apply (H (toggleChatForm false s))).
  clear s.
  induction xs as [|x xs IH]; intros s.
  - exists (after_loop s). split; [reflexivity|]. unfold after_loop. fields. cbn.
    rewrite !app_nil_r. repeat split.
  - cbn [files_of map for_files flat_map]. fold (files_of xs).
    unfold documents_of, images_of. cbn [List.filter fst].
    fold (documents_of xs). fold (images_of (files_of xs)).
    destruct (is_document (sel_file x)) eqn:Ed.
    + assert (Hi : is_image (sel_file x) = false).
      { unfold is_document in Ed. apply andb_prop in Ed as [Ed _].
        apply negb_true_iff in Ed. exact Ed. }
      assert (Hty : String.eqb (file_type (sel_file x)) "text/plain"
                    || String.eqb (file_type (sel_file x)) "application/pdf" = true).
      { unfold is_document in Ed. apply andb_prop in Ed as [_ Ed]. exact Ed. }
      rewrite Hi. unfold is_image in Hi. rewrite Hi, Hty.
      destruct (document_run (files_of xs) x s Ed) as (s2 & Hrun & H1 & H2 & H3 & H4 & H5).
      destruct (IH s2) as (s' & Hrun' & G1 & G2 & G3 & G4 & G5 & G6 & G7 & G8 & G9 & G10 & G11).
      exists s'. rewrite map_app, run_app, Hrun.
      split; [exact Hrun'|].
      rewrite G7, G8, G9, G10, G11, H1, H2, H3, H4, H5, !length_app, <- !app_assoc.
      cbn [length app seq extracted repeat]. rewrite !Nat.add_1_r.
      repeat split; assumption.
    + unfold sel_outcomes. unfold is_document in Ed.
      destruct (is_image (sel_file x)) eqn:Ei; unfold is_image in Ei; rewrite Ei.
      * destruct (IH (set_readers (readers s ++ [reader_of (sel_file x, sel_now x)]) s))
          as (s' & Hrun' & G1 & G2 & G3 & G4 & G5 & G6 & G7 & G8 & G9 & G10 & G11).
        exists s'. split; [exact Hrun'|]. fields.
        rewrite G11, <- app_assoc. cbn [map app]. repeat split; assumption.
      * cbn [negb andb] in Ed. rewrite Ed.
        destruct (String.eqb (file_type (sel_file x)) "text/plain") eqn:Et;
          [discriminate|].
        destruct (String.eqb (file_type (sel_file x)) "application/pdf") eqn:Ep;
          [discriminate|].
        apply IH.
Qed.

Example selection_succeeds_example :
  option_map (fun s => (map (fun a => (d_id (doc_at s a), textContent (doc_at s a)))
                          (attachedDocs s),
                        map rd_fileId (readers s), handler s, chatInput_disabled s))
    (run (map HandlerResume (flat_map sel_outcomes mixed_documents))
       (handleFileSelected (Some (files_of mixed_documents)) (initial true)))
  = Some ([("a.txt-1001", "abc");
           ("notes.pdf-1003", "Hello world" +:+ nl +:+ nl +:+ "bye" +:+ nl +:+ nl)],
          ["a.png-1000"], None, false).
Proof. vm_compute. reflexivity. Qed.

(** * A batch is worked off, whatever happens in between (lines 259-340) *)








(** * The 'processing' class along a run (lines 301, 332 and 343) *)

Lemma idle_processing_held s : idle_pills (pillHeap s) -> processing_held s.
Proof. intros H p n Hn Hp. rewrite (H _ _ Hn) in Hp. discriminate. Qed.

Lemma idle_no_handler s : processing_held s -> handler s = None -> idle_pills (pillHeap s).
Proof.
  intros H Hh p n Hn. destruct (cls_processing n) eqn:E; [|reflexivity].
  destruct (H _ _ Hn E) as (fr & Hfr & _). congruence.
Qed.

Lemma idle_rendered h s : idle_pills h -> idle_pills (h ++ render_pills s).
Proof.
  intros H p n Hn. apply lookup_app_Some in Hn as [Hn|[_ Hn]]; [exact (H _ _ Hn)|].
  apply list_elem_of_lookup_2, list_elem_of_In in Hn. unfold render_pills in Hn.
  apply in_app_or in Hn as [Hn|Hn]; apply in_map_iff in Hn as (x & <- & _); reflexivity.
Qed.

Lemma show_progress_processing status pct x :
  cls_processing (show_progress status pct x) = cls_processing x.
Proof. unfold show_progress. destruct (inner x); reflexivity. Qed.

(** When the flag of the held element is cleared, no element carries it. *)
Lemma idle_released s fr (f : Pill -> Pill) :
  processing_held s -> handler s = Some fr ->
  (forall x, cls_processing (f x) = false) ->
  idle_pills match fr_pill fr with
             | Some p => alter f p (pillHeap s)
             | None => pillHeap s
             end.
Proof.
  intros H Hh Hf q n Hn. destruct (cls_processing n) eqn:E; [exfalso|reflexivity].
  destruct (fr_pill fr) as [p|] eqn:Ep.
  - destruct (Nat.eq_dec p q) as [->|Hne].
    + rewrite list_lookup_alter_eq in Hn. destruct (pillHeap s !! q); [|discriminate].
      injection Hn as <-. rewrite Hf in E. discriminate.
    + rewrite list_lookup_alter_ne in Hn by exact Hne.
      destruct (H _ _ Hn E) as (fr' & Hfr' & Hp'). congruence.
  - destruct (H _ _ Hn E) as (fr' & Hfr' & Hp'). congruence.
Qed.

(** A change of the held element that keeps its flag. *)
Lemma marks_kept (h : list Pill) (pill : option nat) (f : Pill -> Pill) (q : nat) n' :
  (forall x, cls_processing (f x) = cls_processing x) ->
  match pill with Some p => alter f p h | None => h end !! q = Some n' ->
  cls_processing n' = true ->
  exists n, h !! q = Some n /\ cls_processing n = true.
Proof.
  intros Hf Hn E. destruct pill as [p|]; [|eauto].
  destruct (Nat.eq_dec p q) as [->|Hne].
  - rewrite list_lookup_alter_eq in Hn. destruct (h !! q) as [n|]; [|discriminate].
    injection Hn as <-. rewrite Hf in E. eauto.
  - rewrite list_lookup_alter_ne in Hn by exact Hne. eauto.
Qed.

Lemma begin_document_processing rest file now s :
  idle_pills (pillHeap s) -> processing_held (begin_document rest file now s).
Proof.
  intros Hidle q n' Hn E. unfold begin_document in *. cbv zeta in *.
  set (sa := set_attachedDocs _ (set_docHeap _ (set_ctrlHeap _ s))) in *.
  assert (Hr : idle_pills (pillHeap (renderAttachments sa))).
  { fields. apply idle_rendered. exact Hidle. }
  destruct (getElementById (fileId_of file now) (renderAttachments sa)) as [p|] eqn:Hp.
  - destruct (Nat.eq_dec p q) as [->|Hne].
    + destruct (String.eqb (file_type file) "text/plain"); fields; eauto.
    + exfalso. destruct (String.eqb (file_type file) "text/plain"); fields;
        cbn [pillHeap renderAttachments set_container set_pillHeap] in Hn;
        rewrite !list_lookup_alter_ne in Hn by exact Hne;
        rewrite (Hr _ _ Hn) in E; discriminate.
  - exfalso. destruct (String.eqb (file_type file) "text/plain"); fields;
      rewrite (Hr _ _ Hn) in E; discriminate.
Qed.

Lemma for_files_processing files : forall s,
  idle_pills (pillHeap s) -> processing_held (for_files files s).
Proof.
  induction files as [|[file now] rest IH]; intros s H; cbn [for_files].
  - apply idle_processing_held. exact H.
  - destruct (startsWith (file_type file) "image/"); [apply IH; exact H|].
    destruct (_ || _); [apply begin_document_processing; exact H|apply IH; exact H].
Qed.

(** An event that is not a step of the handler marks no element. *)
Lemma quiet_marks e s s' q n' :
  quiet e = true -> dispatch e s = Some s' ->
  pillHeap s' !! q = Some n' -> cls_processing n' = true -> pillHeap s !! q = Some n'.
Proof.
  assert (Hr : forall s0, pillHeap s0 = pillHeap s ->
            pillHeap (renderAttachments s0) !! q = Some n' -> cls_processing n' = true ->
            pillHeap s !! q = Some n').
  { intros s0 E0 Hn E. fields. rewrite E0 in Hn.
    apply lookup_app_Some in Hn as [Hn|[_ Hn]]; [exact Hn|exfalso].
    apply list_elem_of_lookup_2, list_elem_of_In in Hn. unfold render_pills in Hn.
    apply in_app_or in Hn as [Hn|Hn]; apply in_map_iff in Hn as (x & <- & _);
      discriminate. }
  destruct e as [files|o|k url|id answer| |value| |ok]; try discriminate;
    intros _; cbn [dispatch].
  - unfold reader_onload. destruct (readers s !! k); intros [= <-].
    apply Hr. reflexivity.
  - intros [= <-].
    destruct (signal_cancel_fields id s) as (_ & _ & _ & _ & _ & _ & _ & _ & _ & _ & _ & _ & _ & E & _).
    destruct (signal_cancel_fields id (emit (EConfirm confirm_text) s))
      as (_ & _ & _ & _ & _ & _ & _ & _ & _ & _ & _ & _ & _ & E' & _).
    unfold removeAttachment, discard.
    destruct (isProcessing id s); [|destruct answer]; try (apply Hr; fields; assumption).
    fields. auto.
  - intros [= <-]. unfold handleNewChat.
    destruct (ai _); [change (pillHeap (set_chat true ?x)) with (pillHeap x)|];
      apply Hr; reflexivity.
  - destruct (chatInput_disabled s); intros [= <-]. fields. auto.
  - destruct (can_submit s); intros [= <-]. unfold handleChatFormSubmit.
    destruct (_ && _); [auto|]. destruct (negb (chat s)); fields; auto.
  - unfold submit_resume, submit_finally. destruct (submitting s) as [[u|parts| |]|]; try destruct ok; intros [= <-];
      try (fields; solve [auto]).
    change (pillHeap (set_submitting ?v ?x)) with (pillHeap x). apply Hr. reflexivity.
Qed.

Lemma processing_held_dispatch e s s' :
  processing_held s -> dispatch e s = Some s' -> processing_held s'.
Proof.
  intros Hinv Hd.
  destruct (quiet e) eqn:Eq.
  { destruct (quiet_dispatch _ _ _ Eq Hd) as (Eh & _).
    intros q n' Hn E. rewrite Eh. apply (Hinv _ _ (quiet_marks _ _ _ _ _ Eq Hd Hn E) E). }
  destruct e as [files|o|k url|id answer| |value| |ok]; try discriminate;
    cbn [dispatch] in Hd.
  - destruct (can_select s) eqn:Ec; [|discriminate]. injection Hd as <-.
    assert (Hh : handler s = None).
    { unfold can_select in Ec. destruct (handler s); [|reflexivity].
      rewrite andb_false_r in Ec. discriminate. }
    destruct files as [fs|]; [|exact Hinv]. cbn [handleFileSelected].
    apply for_files_processing.
    replace (pillHeap (toggleChatForm false (browser_value (Some fs) s)))
      with (pillHeap s) by (destruct fs as [|[f t] fs']; reflexivity).
    apply idle_no_handler; assumption.
  - destruct (handler s) as [fr|] eqn:Eh; [|discriminate].
    assert (Hkeep : forall pc st pct,
              processing_held (set_handler (Some (with_pc fr pc))
                                 (updateProgress (fr_doc fr) (fr_pill fr) st pct s))).
    { intros pc st pct q n' Hn E. fields.
      destruct (marks_kept _ _ _ _ _ (show_progress_processing st pct) Hn E)
        as (n & Hq & En).
      destruct (Hinv _ _ Hq En) as (fr' & Hfr' & Hp').
      assert (fr' = fr) by congruence. subst fr'. eauto. }
    assert (Hc : forall t, processing_held (complete fr t s)).
    { intros t. unfold complete. apply for_files_processing.
      unfold finish_document. fields.
      pose proof (idle_released s fr
                    (fun x => set_processing false (show_progress (file_name (fr_file fr)) None x))
                    Hinv Eh ltac:(reflexivity)) as H.
      destruct (fr_pill fr); [|exact H].
      rewrite list_alter_alter_eq. exact H. }
    unfold resume in Hd. destruct o as [v|name].
    + destruct (fr_pc fr), v; try discriminate; injection Hd as <-;
        try (unfold for_pages; destruct (Nat.leb _ _)); auto.
      intros q n' Hn E. fields. destruct (Hinv _ _ Hn E) as (fr' & Hfr' & Hp').
      assert (fr' = fr) by congruence. subst fr'. eauto.
    + injection Hd as <-. unfold catch. destruct (String.eqb name "AbortError").
      * apply idle_processing_held. unfold cancel_document. fields.
        apply (idle_released s fr (set_processing false) Hinv Eh). reflexivity.
      * apply for_files_processing. unfold fail_document. fields.
        pose proof (idle_released s fr
                      (fun x => set_processing false
                                  (show_progress "Error: Could not read file." None (add_error x)))
                      Hinv Eh ltac:(reflexivity)) as H.
        destruct (fr_pill fr); [|exact H].
        rewrite !list_alter_alter_eq. exact H.
Qed.

Lemma processing_held_run es : forall s s',
  processing_held s -> run es s = Some s' -> processing_held s'.
Proof.
  induction es as [|e es IH]; intros s s' H; cbn [run].
  - intros [= <-]. exact H.
  - destruct (dispatch e s) as [s1|] eqn:E; [|discriminate].
    apply IH. eapply processing_held_dispatch; eassumption.
Qed.

(** X22.  In every state the page can be in, an element carries
    'processing' only if it is the element held by the suspended handler.
    So [removeAttachment] skips the dialog only for the id of the document
    that is being extracted at that time, which is then still registered. *)
Theorem processing_only_while_extracting (s : State) (id : string) :
  reachable s -> isProcessing id s = true ->
  exists fr, handler s = Some fr /\ fr_fileId fr = id /\
             In (fr_doc fr) (attachedDocs s) /\ d_id (doc_at s (fr_doc fr)) = id.
Proof.
  intros Hr Hp. pose proof (reachable_wf_dom _ Hr) as Hdom.
  pose proof (reachable_wf _ Hr) as Hwf.
  assert (Hinv : processing_held s).
  { destruct Hr as (connected & es & Hrun).
    apply (processing_held_run es (initial connected)); [|exact Hrun].
    apply idle_processing_held. intros p n Hn. destruct p; discriminate Hn. }
  unfold isProcessing in Hp. destruct (getElementById id s) as [p|] eqn:Eg; [|discriminate].
  apply getElementById_Some in Eg as (Hin & n & Hn & Hid). rewrite Hn in Hp.
  destruct (Hinv _ _ Hn Hp) as (fr & Hh & Hpill). exists fr.
  destruct (dom_pill _ Hdom _ Hh) as (p' & n0 & Hp' & Hn0 & Hid0).
  assert (p' = p) by congruence. subst p'.
  assert (n0 = n) by congruence. subst n0.
  destruct (wf_frame _ Hwf _ Hh) as (_ & _ & Hdid).
  split; [exact Hh|]. split; [congruence|].
  split; [exact (dom_shown _ Hdom _ _ Hh Hpill Hin)|congruence].
Qed.

Lemma processing_only_while_extracting_witness :
  exists fr, handler reading_a_txt = Some fr /\ fr_fileId fr = "a.txt-1000".
Proof.
  assert (Hr : reachable reading_a_txt).
  { exists true, [FilesSelected (Some [(a_txt, 1000%Z)])]. vm_compute. reflexivity. }
  destruct (processing_only_while_extracting reading_a_txt "a.txt-1000" Hr
              ltac:(vm_compute; reflexivity)) as (fr & H1 & H2 & _).
  exists fr. split; [exact H1|exact H2].
Defined.

(** * The controls when nothing is under way *)

Lemma for_files_idle files : forall s,
  handler (for_files files s) = None ->
  chatInput_disabled (for_files files s) = false /\
  sendButton_disabled (for_files files s) = false /\
  imageUploadBtn_disabled (for_files files s) = false /\
  docUploadBtn_disabled (for_files files s) = false.
Proof.
  induction files as [|[file now] rest IH]; intros s; cbn [for_files].
  - unfold after_loop. fields. auto.
  - destruct (startsWith (file_type file) "image/"); [apply IH|].
    destruct (_ || _); [|apply IH].
    unfold begin_document.
    destruct (String.eqb (file_type file) "text/plain"); fields; discriminate.
Qed.

Lemma idle_enabled_dispatch e s s' :
  idle_enabled s -> leaves_early e s = false -> dispatch e s = Some s' -> idle_enabled s'.
Proof.
  intros Hinv Ha Hd.
  assert (Hsame : forall s1, handler s1 = handler s -> submitting s1 = submitting s ->
            chatInput_disabled s1 = chatInput_disabled s ->
            sendButton_disabled s1 = sendButton_disabled s ->
            imageUploadBtn_disabled s1 = imageUploadBtn_disabled s ->
            docUploadBtn_disabled s1 = docUploadBtn_disabled s -> idle_enabled s1).
  { intros s1 E1 E2 E3 E4 E5 E6 H1 H2. rewrite E3, E4, E5, E6.
    apply Hinv; congruence. }
  destruct e as [files|o|k url|id answer| |value| |ok]; cbn [dispatch] in Hd.
  - destruct (can_select s); [|discriminate]. injection Hd as <-.
    destruct files as [fs|]; [|exact Hinv]. cbn [handleFileSelected].
    intros H _. apply for_files_idle. exact H.
  - destruct (handler s) as [fr|] eqn:Eh; [|discriminate].
    assert (Hc : forall t, idle_enabled (complete fr t s)).
    { intros t H _. apply for_files_idle. exact H. }
    unfold resume in Hd. destruct o as [v|name].
    + destruct (fr_pc fr), v; try discriminate; injection Hd as <-;
        try (unfold for_pages; destruct (Nat.leb _ _)); auto.
      all: intros H; fields; discriminate H.
    + injection Hd as <-. unfold catch. cbn [leaves_early] in Ha. rewrite Ha.
      intros H _. apply for_files_idle. exact H.
  - unfold reader_onload in Hd. destruct (readers s !! k); [|discriminate].
    injection Hd as <-. apply Hsame; reflexivity.
  - injection Hd as <-.
    destruct (signal_cancel_fields id s) as
      (_ & _ & _ & _ & _ & E6 & E7 & E8 & E9 & E10 & E11 & _).
    destruct (signal_cancel_fields id (emit (EConfirm confirm_text) s)) as
      (_ & _ & _ & _ & _ & E6' & E7' & E8' & E9' & E10' & E11' & _).
    unfold removeAttachment, discard.
    destruct (isProcessing id s); [|destruct answer]; apply Hsame; fields;
      rewrite ?E6, ?E7, ?E8, ?E9, ?E10, ?E11, ?E6', ?E7', ?E8', ?E9', ?E10', ?E11';
      reflexivity.
  - injection Hd as <-. unfold handleNewChat. destruct (ai _); apply Hsame; reflexivity.
  - destruct (chatInput_disabled s) eqn:Ec; [discriminate|]. injection Hd as <-.
    apply Hsame; try reflexivity. exact Ec.
  - destruct (can_submit s); [|discriminate]. injection Hd as <-.
    unfold handleChatFormSubmit. destruct (_ && _); [exact Hinv|].
    destruct (negb (chat s)); [apply Hsame; reflexivity|].
    intros _ H. fields. discriminate H.
  - unfold submit_resume, submit_finally in Hd. cbn [leaves_early] in Ha.
    destruct (submitting s) as [[u|parts| |]|]; try destruct ok; try discriminate;
      injection Hd as <-; intros H1 H2; fields; try discriminate; auto.
Qed.

Lemma leaves_early_stuck e s s' :
  wf s -> leaves_early e s = true -> dispatch e s = Some s' ->
  handler s' = None /\ submitting s' = None /\ form_disabled s'.
Proof.
  intros [_ _ Hg He] Ha Hd.
  destruct e as [files|o|k url|id answer| |value| |ok]; try discriminate;
    cbn [dispatch leaves_early] in *.
  - destruct o as [v|name]; [discriminate|].
    destruct (handler s) as [fr|] eqn:Eh; [|discriminate].
    cbn [resume] in Hd. injection Hd as <-. unfold catch. rewrite Ha.
    destruct He as [He|He]; [discriminate|].
    unfold cancel_document. fields. split; [reflexivity|]. split; [exact He|].
    apply Hg. left. eauto.
  - destruct ok; [discriminate|]. unfold submit_resume in Hd.
    destruct (submitting s) as [[u|parts| |]|] eqn:Es; try discriminate;
      injection Hd as <-; fields.
    all: destruct He as [He|He]; [|discriminate].
    all: split; [exact He|]; split; [reflexivity|]; apply Hg; right; eauto.
Qed.

(** X23.  The four controls are enabled whenever neither
    [handleFileSelected] nor [handleChatFormSubmit] is under way, unless a
    handler was left early: as long as no call awaited by
    [handleFileSelected] has been rejected with an AbortError and no step of
    [handleChatFormSubmit] has failed outside its [try] block, a failure of
    an extraction, the end of a selection, the end of a send and a failed
    stream all give the form back.  A step that does leave a handler early
    ends that handler with the four controls disabled, in every state the
    page can be in. *)
Theorem form_given_back :
  (forall es s s',
     idle_enabled s -> completes es s = true -> run es s = Some s' -> idle_enabled s') /\
  (forall e s s',
     reachable s -> leaves_early e s = true -> dispatch e s = Some s' ->
     handler s' = None /\ submitting s' = None /\ form_disabled s').
Proof.
  split.
  - induction es as [|e es IH]; intros s s' Hinv Hes; cbn [run].
    + intros [= <-]. exact Hinv.
    + cbn [completes] in Hes. apply andb_prop in Hes as [He Hes].
      apply negb_true_iff in He.
      destruct (dispatch e s) as [s1|] eqn:E; [|discriminate].
      apply IH; [|exact Hes]. eapply idle_enabled_dispatch; eassumption.
  - intros e s s' Hr. apply leaves_early_stuck. apply reachable_wf. exact Hr.
Qed.

Lemma form_given_back_witness :
  (exists s', run failing_a_txt (initial true) = Some s' /\ sendButton_disabled s' = false) /\
  (exists s', run failing_stream (initial true) = Some s' /\ sendButton_disabled s' = false).
Proof.
  split; eexists; (split; [vm_compute; reflexivity|]).
  - apply (proj1 form_given_back failing_a_txt (initial true)).
    + intros _ _. repeat split.
    + vm_compute. reflexivity.
    + vm_compute. reflexivity.
    + vm_compute. reflexivity.
    + vm_compute. reflexivity.
  - apply (proj1 form_given_back failing_stream (initial true)).
    + intros _ _. repeat split.
    + vm_compute. reflexivity.
    + vm_compute. reflexivity.
    + vm_compute. reflexivity.
    + vm_compute. reflexivity.
Defined.

(** * What is attached is shown *)

Lemma render_listed s : attached_listed (renderAttachments s).
Proof.
  assert (H : forall n, In n (render_pills s) ->
            listed (renderAttachments s) (pill_id n) (pill_kind n)).
  { intros n Hn. apply list_elem_of_In, list_elem_of_lookup_1 in Hn as [k Hk].
    exists (length (pillHeap s) + k), n. fields. split; [|split; [|auto]].
    - apply in_seq. apply lookup_lt_Some in Hk. lia.
    - rewrite lookup_app_r by lia.
      replace (length (pillHeap s) + k - length (pillHeap s)) with k by lia. exact Hk. }
  split.
  - intros f Hf. apply (H (pill_of_file f)). unfold render_pills.
    apply in_or_app. left. apply in_map. exact Hf.
  - intros a Ha. apply (H (pill_of_doc (doc_at s a))). unfold render_pills.
    apply in_or_app. right. apply (in_map (fun a => pill_of_doc (doc_at s a))). exact Ha.
Qed.

(** A step that shows the same list, keeps the id and kind of the elements
    and the id of the documents, and attaches nothing. *)
Lemma attached_listed_keep s s' :
  attached_listed s -> container s' = container s ->
  (forall p n, pillHeap s !! p = Some n ->
     exists n', pillHeap s' !! p = Some n' /\ pill_id n' = pill_id n /\
                pill_kind n' = pill_kind n) ->
  (forall f, In f (attachedFiles s') -> In f (attachedFiles s)) ->
  (forall a, In a (attachedDocs s') ->
     In a (attachedDocs s) /\ d_id (doc_at s' a) = d_id (doc_at s a)) ->
  attached_listed s'.
Proof.
  intros [Hf Hd] Ec Hp Hfs Hds.
  assert (Hl : forall id kind, listed s id kind -> listed s' id kind).
  { intros id kind (p & n & Hin & Hn & Hid & Hk).
    destruct (Hp _ _ Hn) as (n' & Hn' & Hid' & Hk').
    exists p, n'. rewrite Ec. repeat split; congruence. }
  split.
  - intros f H. apply Hl, Hf, Hfs, H.
  - intros a H. destruct (Hds _ H) as [Hin ->]. apply Hl, Hd, Hin.
Qed.

Lemma on_pill_keep pill (f : Pill -> Pill) s p n :
  (forall x, pill_id (f x) = pill_id x /\ pill_kind (f x) = pill_kind x) ->
  pillHeap s !! p = Some n ->
  exists n', pillHeap (on_pill pill f s) !! p = Some n' /\ pill_id n' = pill_id n /\
             pill_kind n' = pill_kind n.
Proof.
  intros Hf Hn. unfold on_pill. fields. destruct pill as [q|]; [|eauto].
  destruct (Nat.eq_dec q p) as [->|Hne].
  - rewrite list_lookup_alter_eq, Hn. cbn. destruct (Hf n). eauto.
  - rewrite list_lookup_alter_ne by exact Hne. eauto.
Qed.

Lemma show_progress_keep status pct x :
  pill_id (show_progress status pct x) = pill_id x /\
  pill_kind (show_progress status pct x) = pill_kind x.
Proof. unfold show_progress. destruct (inner x) eqn:E; cbn; auto. Qed.

(** The changes the handler makes to the element it holds, one after the
    other. *)
Lemma on_pills_keep (fs : list (Pill -> Pill)) pill s s' :
  Forall (fun f => forall x, pill_id (f x) = pill_id x /\ pill_kind (f x) = pill_kind x) fs ->
  pillHeap s' = match pill with
                | Some q => alter (fun x => fold_left (fun y f => f y) fs x) q (pillHeap s)
                | None => pillHeap s
                end ->
  forall p n, pillHeap s !! p = Some n ->
    exists n', pillHeap s' !! p = Some n' /\ pill_id n' = pill_id n /\
               pill_kind n' = pill_kind n.
Proof.
  intros Hfs E p n Hn. rewrite E. destruct pill as [q|]; [|eauto].
  assert (Hall : forall x, pill_id (fold_left (fun y f => f y) fs x) = pill_id x /\
                           pill_kind (fold_left (fun y f => f y) fs x) = pill_kind x).
  { clear -Hfs. induction Hfs as [|f fs Hf _ IH]; intros x; cbn [fold_left]; [auto|].
    destruct (IH (f x)) as [-> ->]. apply Hf. }
  destruct (Nat.eq_dec q p) as [->|Hne].
  - rewrite list_lookup_alter_eq, Hn. cbn. destruct (Hall n). eauto.
  - rewrite list_lookup_alter_ne by exact Hne. eauto.
Qed.

Lemma begin_document_listed rest file now s :
  attached_listed (begin_document rest file now s).
Proof.
  unfold begin_document. cbv zeta.
  set (sa := set_attachedDocs _ (set_docHeap _ (set_ctrlHeap _ s))).
  set (pill := getElementById (fileId_of file now) (renderAttachments sa)).
  assert (Hkeep : forall st pct fr,
            attached_listed (set_handler fr
              (updateProgress (length (docHeap (set_ctrlHeap (ctrlHeap s ++ [false]) s)))
                 pill st pct (on_pill pill (set_processing true) (renderAttachments sa))))).
  { intros st pct fr.
    apply (attached_listed_keep (renderAttachments sa) _ (render_listed sa));
      [reflexivity| |intros f Hf; exact Hf|intros a Ha; split; [exact Ha|reflexivity]].
    apply (on_pills_keep [set_processing true; show_progress st pct] pill).
    - apply List.Forall_cons; [intros x; split; reflexivity|].
      apply List.Forall_cons; [intros x; apply show_progress_keep|apply List.Forall_nil].
    - fields. destruct pill; [|reflexivity]. rewrite list_alter_alter_eq. reflexivity. }
  destruct (String.eqb (file_type file) "text/plain"); apply Hkeep.
Qed.

(** A step that changes neither the list shown, nor the elements, nor the
    registries, nor the documents. *)
Lemma attached_listed_same s s' :
  attached_listed s -> container s' = container s -> pillHeap s' = pillHeap s ->
  attachedFiles s' = attachedFiles s -> attachedDocs s' = attachedDocs s ->
  docHeap s' = docHeap s -> attached_listed s'.
Proof.
  intros Hinv E1 E2 E3 E4 E5. apply (attached_listed_keep s s' Hinv E1).
  - intros p n Hn. rewrite E2. eauto.
  - intros f. rewrite E3. auto.
  - intros a. rewrite E4. unfold doc_at. rewrite E5. auto.
Qed.

Lemma for_files_listed files : forall s,
  attached_listed s -> attached_listed (for_files files s).
Proof.
  induction files as [|[file now] rest IH]; intros s H; cbn [for_files].
  - apply (attached_listed_same s _ H); reflexivity.
  - destruct (startsWith (file_type file) "image/").
    + apply IH. apply (attached_listed_same s _ H); reflexivity.
    + destruct (_ || _); [apply begin_document_listed|apply IH; exact H].
Qed.

Lemma attached_listed_dispatch e s s' :
  attached_listed s -> dispatch e s = Some s' -> attached_listed s'.
Proof.
  intros Hinv Hd.
  pose proof (attached_listed_same s) as Hsame.
  assert (Hclear : forall s0, attachedFiles s0 = [] -> attachedDocs s0 = [] ->
            attached_listed s0).
  { intros s0 E1 E2. split; intros x; rewrite ?E1, ?E2; intros []. }
  destruct e as [files|o|k url|id answer| |value| |ok]; cbn [dispatch] in Hd.
  - destruct (can_select s); [|discriminate]. injection Hd as <-.
    destruct files as [fs|]; [|exact Hinv]. cbn [handleFileSelected].
    apply for_files_listed.
    apply (Hsame _ Hinv); destruct fs as [|[f t] fs']; reflexivity.
  - destruct (handler s) as [fr|] eqn:Eh; [|discriminate].
    assert (Hup : forall fr' st pct,
              attached_listed (set_handler fr'
                (updateProgress (fr_doc fr) (fr_pill fr) st pct s))).
    { intros fr' st pct.
      apply (attached_listed_keep s _ Hinv);
        [reflexivity| |intros f Hf; exact Hf|intros a Ha; split; [exact Ha|reflexivity]].
      apply (on_pills_keep [show_progress st pct] (fr_pill fr)).
      - apply List.Forall_cons; [intros x; apply show_progress_keep|apply List.Forall_nil].
      - fields. reflexivity. }
    assert (Hc : forall t, attached_listed (complete fr t s)).
    { intros t. unfold complete. apply for_files_listed.
      apply (attached_listed_keep s _ Hinv); [reflexivity| |intros f Hf; exact Hf|].
      - apply (on_pills_keep [show_progress (file_name (fr_file fr)) None;
                              set_processing false] (fr_pill fr)).
        + apply List.Forall_cons; [intros x; apply show_progress_keep|].
          apply List.Forall_cons; [intros x; split; reflexivity|apply List.Forall_nil].
        + unfold finish_document. fields. destruct (fr_pill fr); [|reflexivity].
          rewrite list_alter_alter_eq. reflexivity.
      - intros a Ha. split; [exact Ha|]. unfold finish_document, doc_at. fields.
        destruct (Nat.eq_dec (fr_doc fr) a) as [->|Hne].
        + rewrite list_lookup_alter_eq. destruct (docHeap s !! a); reflexivity.
        + rewrite list_lookup_alter_ne by exact Hne. reflexivity. }
    unfold resume in Hd. destruct o as [v|name].
    + destruct (fr_pc fr), v; try discriminate; injection Hd as <-;
        try (unfold for_pages; destruct (Nat.leb _ _)); auto;
        apply (Hsame _ Hinv); reflexivity.
    + injection Hd as <-. unfold catch. destruct (String.eqb name "AbortError").
      * apply (attached_listed_keep s _ Hinv);
          [reflexivity| |intros f Hf; exact Hf|intros a Ha; split; [exact Ha|reflexivity]].
        apply (on_pills_keep [set_processing false] (fr_pill fr)).
        -- apply List.Forall_cons; [intros x; split; reflexivity|apply List.Forall_nil].
        -- unfold cancel_document. fields. reflexivity.
      * apply for_files_listed.
        apply (attached_listed_keep s _ Hinv); [reflexivity| |intros f Hf; exact Hf|].
        -- apply (on_pills_keep [add_error; show_progress "Error: Could not read file." None;
                                 set_processing false] (fr_pill fr)).
           ++ apply List.Forall_cons; [intros x; split; reflexivity|].
              apply List.Forall_cons; [intros x; apply show_progress_keep|].
              apply List.Forall_cons; [intros x; split; reflexivity|apply List.Forall_nil].
           ++ unfold fail_document. fields. destruct (fr_pill fr); [|reflexivity].
              rewrite !list_alter_alter_eq. reflexivity.
        -- intros a Ha. unfold fail_document in Ha. fields.
           apply docs_without_In in Ha. fields. split; [exact Ha|reflexivity].
  - unfold reader_onload in Hd. destruct (readers s !! k); [|discriminate].
    injection Hd as <-. apply render_listed.
  - injection Hd as <-. unfold removeAttachment, discard.
    destruct (isProcessing id s); [apply render_listed|].
    destruct answer; [apply render_listed|]. apply (Hsame _ Hinv); reflexivity.
  - injection Hd as <-. apply Hclear; unfold handleNewChat; destruct (ai _); reflexivity.
  - destruct (chatInput_disabled s); [discriminate|]. injection Hd as <-.
    apply (Hsame _ Hinv); reflexivity.
  - destruct (can_submit s); [|discriminate]. injection Hd as <-.
    unfold handleChatFormSubmit. destruct (_ && _); [exact Hinv|].
    destruct (negb (chat s)); apply (Hsame _ Hinv); reflexivity.
  - unfold submit_resume in Hd.
    destruct (submitting s) as [[u|parts| |]|]; try destruct ok; try discriminate;
      injection Hd as <-; try (apply (Hsame _ Hinv); reflexivity).
    apply Hclear; reflexivity.
Qed.

Lemma attached_listed_run es : forall s s',
  attached_listed s -> run es s = Some s' -> attached_listed s'.
Proof.
  induction es as [|e es IH]; intros s s' H; cbn [run].
  - intros [= <-]. exact H.
  - destruct (dispatch e s) as [s1|] eqn:E; [|discriminate].
    apply IH. eapply attached_listed_dispatch; eassumption.
Qed.

(** X24.  In every state the page can be in, every image of [attachedFiles]
    and every document of [attachedDocs] has its pill in the list shown, an
    element with the id of the attachment and of its kind: the registries
    never hold an attachment the user does not see and cannot remove. *)
Theorem attached_is_shown (s : State) :
  reachable s ->
  (forall f, In f (attachedFiles s) ->
     exists n, In (Some n) (shown s) /\ pill_id n = f_id f /\ pill_kind n = ImagePill) /\
  (forall a, In a (attachedDocs s) ->
     exists n, In (Some n) (shown s) /\ pill_id n = d_id (doc_at s a) /\
               pill_kind n = DocPill).
Proof.
  intros (connected & es & Hrun).
  assert (Hinv : attached_listed s).
  { apply (attached_listed_run es (initial connected)); [|exact Hrun].
    split; intros x []. }
  assert (Hl : forall id kind, listed s id kind ->
            exists n, In (Some n) (shown s) /\ pill_id n = id /\ pill_kind n = kind).
  { intros id kind (p & n & Hin & Hn & Hid & Hk). exists n. split; [|auto].
    unfold shown. apply in_map_iff. exists p. auto. }
  destruct Hinv as [Hf Hd]. split; intros x Hx; apply Hl; auto.
Qed.

Lemma attached_is_shown_witness :
  exists n, In (Some n) (shown read_a_txt) /\ pill_id n = "a.txt-1000".
Proof.
  assert (Hr : reachable read_a_txt).
  { exists true, [FilesSelected (Some [(a_txt, 1000%Z)]);
                  HandlerResume (Resolved (VText "abc"))]. vm_compute. reflexivity. }
  destruct (attached_is_shown read_a_txt Hr) as [_ H].
  destruct (H 0 ltac:(vm_compute; auto)) as (n & H1 & H2 & _).
  exists n. split; [exact H1|exact H2].
Defined.

(** * The order of the registries *)

Lemma filter_none {A} (l : list A) : List.filter (fun _ => false) l = [].
Proof. induction l as [|x l IH]; [reflexivity|exact IH]. Qed.

Lemma sorted_lt_filter (f : nat -> bool) (l : list nat) :
  StronglySorted lt l -> StronglySorted lt (List.filter f l).
Proof.
  induction 1 as [|x l Hs IH Hx]; cbn [List.filter]; [constructor|].
  destruct (f x); [|exact IH]. constructor; [exact IH|].
  rewrite List.Forall_forall in *. intros y Hy. apply filter_In in Hy as [Hy _]. auto.
Qed.

Lemma sorted_lt_snoc (l : list nat) (x : nat) :
  StronglySorted lt l -> (forall y, In y l -> y < x) -> StronglySorted lt (l ++ [x]).
Proof.
  intros Hs Hb. apply StronglySorted_app. split; [|split].
  - intros y z Hy Hz. apply list_elem_of_In in Hy.
    apply list_elem_of_singleton in Hz. subst z. auto.
  - exact Hs.
  - repeat constructor.
Qed.

(** What one event does to the registries: each keeps its attachments in
    their order, loses some of them, and gets at most one new attachment,
    at its end. *)
Lemma dispatch_registry_shape e s s' :
  dispatch e s = Some s' ->
  (exists f, attachedDocs s' = List.filter f (attachedDocs s) \/
             attachedDocs s' = List.filter f (attachedDocs s) ++ [length (docHeap s)]) /\
  (exists g, attachedFiles s' = List.filter g (attachedFiles s) \/
             exists image, attachedFiles s' = attachedFiles s ++ [image]).
Proof.
  intros Hd.
  assert (Hloop : forall fs s0 f, attachedDocs s0 = List.filter f (attachedDocs s) ->
            attachedFiles s0 = attachedFiles s -> length (docHeap s0) = length (docHeap s) ->
            (exists f, attachedDocs (for_files fs s0) = List.filter f (attachedDocs s) \/
               attachedDocs (for_files fs s0)
               = List.filter f (attachedDocs s) ++ [length (docHeap s)]) /\
            (exists g, attachedFiles (for_files fs s0) = List.filter g (attachedFiles s) \/
               exists image, attachedFiles (for_files fs s0) = attachedFiles s ++ [image])).
  { intros fs s0 f E1 E2 E3. destruct (for_files_registry fs s0) as [Hf Hdocs].
    split.
    - exists f. rewrite <- E1, <- E3. exact Hdocs.
    - exists (fun _ => true). left. rewrite Hf, E2, filter_true. reflexivity. }
  assert (Hsame : forall s0, attachedDocs s0 = attachedDocs s ->
            attachedFiles s0 = attachedFiles s ->
            (exists f, attachedDocs s0 = List.filter f (attachedDocs s) \/
               attachedDocs s0 = List.filter f (attachedDocs s) ++ [length (docHeap s)]) /\
            (exists g, attachedFiles s0 = List.filter g (attachedFiles s) \/
               exists image, attachedFiles s0 = attachedFiles s ++ [image])).
  { intros s0 E1 E2. split; exists (fun _ => true); left; rewrite filter_true; assumption. }
  assert (Hclear : forall s0, attachedDocs s0 = [] -> attachedFiles s0 = [] ->
            (exists f, attachedDocs s0 = List.filter f (attachedDocs s) \/
               attachedDocs s0 = List.filter f (attachedDocs s) ++ [length (docHeap s)]) /\
            (exists g, attachedFiles s0 = List.filter g (attachedFiles s) \/
               exists image, attachedFiles s0 = attachedFiles s ++ [image])).
  { intros s0 E1 E2. split; exists (fun _ => false); left; rewrite filter_none; assumption. }
  destruct e as [files|o|k url|id answer| |value| |ok]; cbn [dispatch] in Hd.
  - destruct (can_select s); [|discriminate]. injection Hd as <-.
    destruct files as [fs|]; [|apply Hsame; reflexivity]. cbn [handleFileSelected].
    apply (Hloop fs _ (fun _ => true)); rewrite ?filter_true;
      destruct fs as [|[f t] fs']; reflexivity.
  - destruct (handler s) as [fr|] eqn:Eh; [|discriminate].
    assert (Hc : forall t,
              (exists f, attachedDocs (complete fr t s) = List.filter f (attachedDocs s) \/
                 attachedDocs (complete fr t s)
                 = List.filter f (attachedDocs s) ++ [length (docHeap s)]) /\
              (exists g, attachedFiles (complete fr t s) = List.filter g (attachedFiles s) \/
                 exists image, attachedFiles (complete fr t s) = attachedFiles s ++ [image])).
    { intros t. apply (Hloop _ _ (fun _ => true)); rewrite ?filter_true;
        unfold finish_document; fields; try reflexivity. apply length_alter. }
    unfold resume in Hd. destruct o as [v|name].
    + destruct (fr_pc fr), v; try discriminate; injection Hd as <-;
        try (unfold for_pages; destruct (Nat.leb _ _)); auto;
        apply Hsame; reflexivity.
    + injection Hd as <-. unfold catch. destruct (String.eqb name "AbortError").
      * apply Hsame; reflexivity.
      * apply (Hloop _ _ (fun a => negb (String.eqb (d_id (doc_at s a)) (fr_fileId fr))));
          reflexivity.
  - unfold reader_onload in Hd. destruct (readers s !! k); [|discriminate].
    injection Hd as <-. split.
    + exists (fun _ => true). left. rewrite filter_true. reflexivity.
    + exists (fun _ => true). right. eexists. reflexivity.
  - injection Hd as <-.
    assert (Hdis : forall s0, attachedDocs s0 = attachedDocs s ->
              attachedFiles s0 = attachedFiles s -> docHeap s0 = docHeap s ->
              (exists f, attachedDocs (discard id (signal_cancel id s0))
                         = List.filter f (attachedDocs s) \/
                 attachedDocs (discard id (signal_cancel id s0))
                 = List.filter f (attachedDocs s) ++ [length (docHeap s)]) /\
              (exists g, attachedFiles (discard id (signal_cancel id s0))
                         = List.filter g (attachedFiles s) \/
                 exists image, attachedFiles (discard id (signal_cancel id s0))
                               = attachedFiles s ++ [image])).
    { intros s0 E1 E2 E3. destruct (signal_cancel_fields id s0) as (F1 & F2 & F3 & _).
      unfold discard, docs_without, doc_at. fields. rewrite F1, F2, F3, E1, E2, E3.
      split; eexists; left; reflexivity. }
    unfold removeAttachment. destruct (isProcessing id s); [apply Hdis; reflexivity|].
    destruct answer; [apply Hdis; reflexivity|apply Hsame; reflexivity].
  - injection Hd as <-. apply Hclear; unfold handleNewChat; destruct (ai _); reflexivity.
  - destruct (chatInput_disabled s); [discriminate|]. injection Hd as <-.
    apply Hsame; reflexivity.
  - destruct (can_submit s); [|discriminate]. injection Hd as <-.
    unfold handleChatFormSubmit. destruct (_ && _); [apply Hsame; reflexivity|].
    destruct (negb (chat s)); apply Hsame; reflexivity.
  - unfold submit_resume in Hd.
    destruct (submitting s) as [[u|parts| |]|]; try destruct ok; try discriminate;
      injection Hd as <-; first [apply Hclear; reflexivity|apply Hsame; reflexivity].
Qed.

(** X25.  The registries keep the order of insertion.  In every state the
    page can be in, [attachedDocs] lists its documents in the order in which
    they were created, each at most once; and one event leaves of each
    registry the attachments it had, in their order, without some that it
    drops, and adds at most one attachment, at the end: a document it has
    just created, or the image of the reader that has loaded. *)
Theorem registries_keep_insertion_order (s : State) :
  reachable s ->
  StronglySorted lt (attachedDocs s) /\ NoDup (attachedDocs s) /\
  forall e s', dispatch e s = Some s' ->
    (exists f, attachedDocs s' = List.filter f (attachedDocs s) \/
               attachedDocs s' = List.filter f (attachedDocs s) ++ [length (docHeap s)]) /\
    (exists g, attachedFiles s' = List.filter g (attachedFiles s) \/
               exists image, attachedFiles s' = attachedFiles s ++ [image]).
Proof.
  intros (connected & es & Hrun).
  assert (Hs : StronglySorted lt (attachedDocs s)).
  { assert (H0 : wf (initial connected) /\ StronglySorted lt (attachedDocs (initial connected)))
      by (split; [apply wf_initial|constructor]).
    revert Hrun H0. generalize (initial connected) as s0.
    induction es as [|e es IH]; intros s0; cbn [run].
    - intros [= <-] [_ H]. exact H.
    - destruct (dispatch e s0) as [s1|] eqn:E; [|discriminate]. intros Hrun [Hwf Hsort].
      apply (IH _ Hrun). split; [exact (wf_dispatch _ _ _ Hwf E)|].
      destruct (dispatch_registry_shape _ _ _ E) as [(f & [-> | ->]) _].
      + apply sorted_lt_filter. exact Hsort.
      + apply sorted_lt_snoc; [apply sorted_lt_filter; exact Hsort|].
        intros y Hy. apply filter_In in Hy as [Hy _].
        apply (wf_docs _ (wf_data _ Hwf)). exact Hy. }
  split; [exact Hs|]. split.
  - clear -Hs. induction Hs as [|x l Hl IH Hx]; constructor; [|exact IH].
    intros Hin. apply list_elem_of_In in Hin. rewrite List.Forall_forall in Hx.
    specialize (Hx _ Hin). lia.
  - intros e s'. apply dispatch_registry_shape.
Qed.

Lemma registries_keep_insertion_order_witness :
  NoDup (attachedDocs read_a_txt).
Proof.
  apply (registries_keep_insertion_order read_a_txt).
  exists true, [FilesSelected (Some [(a_txt, 1000%Z)]);
                HandlerResume (Resolved (VText "abc"))]. vm_compute. reflexivity.
Defined.

(** * A new chat while work is pending (lines 443-452) *)

(** X21.  A new chat empties both registries, shows an empty, hidden list
    and, when there is a client, sets the chat up anew; it stops nothing that
    is under way: the readers go on reading, a suspended
    [handleFileSelected] and a suspended [handleChatFormSubmit] stay
    suspended, the controls stay as they are, no controller is signalled and
    no document object is touched.  So an image whose reader loads
    afterwards is attached to the new chat, as its only attachment. *)
Theorem new_chat_stops_nothing (s : State) :
  let s' := handleNewChat s in
  attachedFiles s' = [] /\ attachedDocs s' = [] /\ shown s' = [] /\
  containerHidden s' = true /\ chat s' = (ai s || chat s) /\
  readers s' = readers s /\ handler s' = handler s /\ submitting s' = submitting s /\
  docHeap s' = docHeap s /\ ctrlHeap s' = ctrlHeap s /\
  chatInput_disabled s' = chatInput_disabled s /\
  sendButton_disabled s' = sendButton_disabled s /\
  imageUploadBtn_disabled s' = imageUploadBtn_disabled s /\
  docUploadBtn_disabled s' = docUploadBtn_disabled s /\
  chatInput_value s' = chatInput_value s /\ log s' = log s /\
  forall k r url, readers s !! k = Some r ->
    exists s2 img, reader_onload k url s' = Some s2 /\
      attachedFiles s2 = [img] /\ f_id img = rd_fileId r /\ sourceUrl img = url /\
      shown s2 = [Some (pill_of_file img)].
Proof.
  intros s'. unfold s', handleNewChat, shown.
  destruct (ai s) eqn:Ea; fields; rewrite ?Ea; cbn [orb map render_pills length seq].
  all: unfold render_pills; fields; cbn [map app length seq].
  all: repeat split; try reflexivity.
  all: try (destruct (chat s); reflexivity).
  all: intros k r url Hk; unfold reader_onload; fields; rewrite Hk; eexists _, _.
  all: split; [reflexivity|]; fields; unfold render_pills; fields.
  all: cbn [app map length seq f_id sourceUrl].
  all: rewrite lookup_app_r, Nat.sub_diag by lia; repeat split.
Qed.

(** * The exported history (lines 403-425) *)

Lemma fold_export_attachments atts : forall t,
  fold_left (fun t att => t +:+ "Attached: " +:+ attachment_name att +:+ nl) atts t
  = t +:+ concat_all (map (fun att => "Attached: " +:+ attachment_name att +:+ nl) atts).
Proof.
  induction atts as [|a atts IH]; intros t; cbn [fold_left map concat_all foldr].
  - symmetry. apply append_nil_r.
  - rewrite IH. fold (concat_all (map (fun att => "Attached: " +:+ attachment_name att +:+ nl) atts)).
    rewrite !append_assoc. reflexivity.
Qed.

Lemma export_message_block t m : export_message t m = t +:+ message_block m.
Proof.
  unfold export_message, message_block.
  assert (Htag : toUpperCase (sender_name (m_sender m))
                 = match m_sender m with User => "USER" | Assistant => "AI" end).
  { destruct (m_sender m); reflexivity. }
  rewrite Htag.
  assert (Hatts : match m_attachments m with
                  | Some ((_ :: _) as attachments) =>
                      fold_left (fun t att => t +:+ "Attached: " +:+ attachment_name att +:+ nl)
                        attachments
                        (t +:+ "[" +:+ match m_sender m with User => "USER" | Assistant => "AI" end
                           +:+ "]" +:+ nl)
                  | _ => t +:+ "[" +:+ match m_sender m with User => "USER" | Assistant => "AI" end
                           +:+ "]" +:+ nl
                  end
                  = (t +:+ "[" +:+ match m_sender m with User => "USER" | Assistant => "AI" end
                       +:+ "]" +:+ nl)
                    +:+ concat_all (map (fun att => "Attached: " +:+ attachment_name att +:+ nl)
                                      (default [] (m_attachments m)))).
  { destruct (m_attachments m) as [[|a atts]|]; cbn [default];
      [symmetry; apply append_nil_r|exact (fold_export_attachments (a :: atts) _)
      |symmetry; apply append_nil_r]. }
  rewrite Hatts. destruct (m_sender m); rewrite !append_assoc; reflexivity.
Qed.

Lemma fold_export history : forall t,
  fold_left export_message history t = t +:+ concat_all (map message_block history).
Proof.
  induction history as [|m history IH]; intros t; cbn [fold_left map concat_all foldr].
  - symmetry. apply append_nil_r.
  - rewrite IH, export_message_block. fold (concat_all (map message_block history)).
    apply append_assoc.
Qed.

(** X20.  The text export is a file named chat-history.txt of type
    text/plain.  It starts with the title line, the date and an empty line,
    and then holds one block per message of the history, in order: the
    sender in capitals between brackets, one line 'Attached: name' for each
    attachment of the message, images and documents alike and in their
    order, then the text of the message and an empty line.  A message
    without attachments and one with an empty list are exported alike, and
    the export of a history that has grown extends that of the shorter
    one. *)
Theorem exported_text (date : string) (history more : list ChatMessage) :
  dl_filename (handleDownloadTxt date history) = "chat-history.txt" /\
  dl_mimeType (handleDownloadTxt date history) = "text/plain" /\
  dl_content (handleDownloadTxt date history)
  = "EdTech Chat History - " +:+ date +:+ nl +:+ nl
    +:+ concat_all (map message_block history) /\
  dl_content (handleDownloadTxt date (history ++ more))
  = dl_content (handleDownloadTxt date history) +:+ concat_all (map message_block more) /\
  (forall sender text,
     message_block {| m_sender := sender; m_text := text; m_attachments := Some [] |}
     = message_block {| m_sender := sender; m_text := text; m_attachments := None |}).
Proof.
  split; [reflexivity|]. split; [reflexivity|]. cbn [handleDownloadTxt dl_content].
  split; [|split].
  - rewrite fold_export, !append_assoc. reflexivity.
  - rewrite fold_left_app, (fold_export more). reflexivity.
  - reflexivity.
Qed.

Example exported_text_example :
  dl_content
    (handleDownloadTxt "1/2/2025, 10:00:00 AM"
       [{| m_sender := Assistant; m_text := "Hello!"; m_attachments := None |};
        {| m_sender := User; m_text := "Summarise it";
           m_attachments :=
             Some [inr {| d_id := "a.txt-1"; d_name := "a.txt"; textContent := "abc";
                          summary := None; abortController := Some 0 |}] |}])
  = "EdTech Chat History - 1/2/2025, 10:00:00 AM" +:+ nl +:+ nl
    +:+ "[AI]" +:+ nl +:+ "Hello!" +:+ nl +:+ nl
    +:+ "[USER]" +:+ nl +:+ "Attached: a.txt" +:+ nl +:+ "Summarise it" +:+ nl +:+ nl.
Proof. vm_compute. reflexivity. Qed.

(** * Starting the application (lines 71-82, 104-112, 434-482) *)

Lemma begins_split w : forall s, begins w s = true -> exists r, s = w +:+ r.
Proof.
  induction w as [|a w IH]; intros s H; [exists s; reflexivity|].
  destruct s as [|b s]; [discriminate|]. cbn [begins] in H.
  apply andb_prop in H as [Hab H]. apply Ascii.eqb_eq in Hab. subst b.
  destruct (IH _ H) as [r ->]. exists r. reflexivity.
Qed.

Lemma trim_start_skip u : forall s,
  trim_start_from (String.length u) (u +:+ s) = trim_start_from 0 s.
Proof.
  induction u as [|a u IH]; intros s; [destruct s; reflexivity|].
  cbn [String.length append trim_start_from]. apply IH.
Qed.

Lemma leading_space_Some s w :
  leading_space s = Some w ->
  In w white_space /\ exists a u r, w = String a u /\ s = String a (u +:+ r).
Proof.
  intros H. unfold leading_space in H. apply find_some in H as [Hin Hp].
  split; [exact Hin|]. apply begins_split in Hp as [r ->].
  assert (Hne : Forall (fun w => w <> EmptyString) white_space).
  { repeat constructor; discriminate. }
  rewrite Forall_forall in Hne. apply list_elem_of_In, Hne in Hin.
  destruct w as [|a u]; [congruence|]. exists a, u, r. auto.
Qed.

Lemma trim_start_space w s : In w white_space -> trim_start (w +:+ s) = trim_start s.
Proof.
  intros H. unfold white_space in H. cbn [map] in H.
  repeat (destruct H as [<-|H]; [reflexivity|]). destruct H.
Qed.

Lemma blank_all_space s : blank s -> all_space s = true.
Proof.
  unfold all_space. induction 1 as [|w s Hw Hs IH]; [reflexivity|].
  rewrite trim_start_space by exact Hw. exact IH.
Qed.

(** What [trim_start] removes is white space, and what it leaves does not
    start with any. *)
Lemma trim_start_spec s :
  exists pre, blank pre /\ s = pre +:+ trim_start s /\
    (trim_start s = EmptyString \/ leading_space (trim_start s) = None).
Proof.
  remember (String.length s) as n eqn:En. revert s En.
  induction n as [n IH] using lt_wf_ind. intros s En.
  destruct s as [|a s].
  { exists EmptyString. split; [constructor|]. auto. }
  unfold trim_start. cbn [trim_start_from].
  destruct (leading_space (String a s)) as [w|] eqn:E.
  - apply leading_space_Some in E as (Hin & b & u & r & -> & [= <- ->]).
    cbn [String.length Nat.sub]. rewrite Nat.sub_0_r, trim_start_skip.
    destruct (IH (String.length r)) with (s := r) as (pre & Hpre & Hr & Hlead);
      [|reflexivity|].
    { subst n. cbn [String.length]. apply Nat.lt_succ_r. clear.
      induction u as [|c u IH]; cbn [append String.length]; [reflexivity|].
      apply Nat.le_le_succ_r. exact IH. }
    exists (String a u +:+ pre). split; [constructor; assumption|]. split; [|exact Hlead].
    fold (trim_start r). rewrite append_assoc, <- Hr. reflexivity.
  - exists EmptyString. split; [constructor|]. split; [reflexivity|]. right. exact E.
Qed.

Lemma all_space_blank s : all_space s = true -> blank s.
Proof.
  unfold all_space. intros H. apply String.eqb_eq in H.
  destruct (trim_start_spec s) as (pre & Hpre & Hs & _).
  rewrite H, append_nil_r in Hs. subst s. exact Hpre.
Qed.

Lemma trim_start_idem s : trim_start (trim_start s) = trim_start s.
Proof.
  destruct (trim_start_spec s) as (_ & _ & _ & [->| H]); [reflexivity|].
  unfold trim_start at 1. destruct (trim_start s) as [|a t]; [reflexivity|].
  cbn [trim_start_from]. rewrite H. reflexivity.
Qed.

Lemma trim_blank s : blank s -> trim s = EmptyString.
Proof.
  intros H. apply blank_all_space in H. unfold all_space in H.
  apply String.eqb_eq in H. unfold trim. rewrite H. reflexivity.
Qed.

Lemma trim_empty s : trim s = EmptyString -> blank s.
Proof.
  unfold trim. intros H. apply all_space_blank. unfold all_space.
  apply String.eqb_eq. destruct (trim_start s) as [|a t] eqn:E; [reflexivity|].
  cbn [trim_end] in H. destruct (all_space (String a t)) eqn:Ea; [|discriminate].
  unfold all_space in Ea. apply String.eqb_eq in Ea.
  rewrite <- E, trim_start_idem, E in Ea. discriminate.
Qed.







(** X16.  Starting the application on the freshly loaded page: when the
    client cannot be created, [initializeAI] logs the error, shows the
    message and disables the four controls, there is neither client nor
    chat; when it can, both exist.  In either case, when [initializeChat] has
    returned, [initializeApp] enables the four controls and focuses the chat
    input, so that the page is as [initial] describes it, whatever the HTML
    said about the controls.  After a failed start a message that is typed
    and sent is therefore accepted by the form, and answered with the
    'not initialized' message only. *)
Theorem app_start (created input send image doc : bool) :
  let s1 := initializeChat (initializeAI created (page_loaded input send image doc)) in
  let s2 := initializeApp_resume s1 in
  ai s1 = created /\ chat s1 = created /\
  (created = false -> form_disabled s1) /\
  s2 = fold_left (fun s e => emit e s)
         ((if created then [] else [EConsoleError; EAddAiMessage connection_error])
          ++ [EFocus]) (initial created) /\
  (created = false -> forall v, ~ blank v ->
     dispatch Submit (set_chatInput_value v s2)
     = Some (emit (EAddAiMessage not_initialized) (set_chatInput_value v s2))).
Proof.
  intros s1 s2. unfold s2, s1.
  destruct created; cbn; repeat split; try discriminate.
  intros _ v Hv. unfold handleChatFormSubmit. fields.
  destruct (String.eqb_spec (trim v) EmptyString) as [E|_]; [|reflexivity].
  apply trim_empty in E. contradiction.
Qed.




(** X19.  Blank input is ignored: a login whose name is empty or consists of
    white space only (any of the white space and line terminator characters
    of ECMAScript, the no-break space among them) changes nothing, neither
    the storage nor the screens, and starts nothing; a chat message that is
    empty or white space only, with nothing attached, is not sent and
    changes nothing either.  Nothing else is ignored: a login with any other
    name, when the storage takes it, shows the application, and a message
    with any other text is taken by the form. *)
Theorem blank_input_is_ignored (stored created : bool) (ss : Session) (s : State) :
  (blank (usernameInput_value ss) ->
   handleLogin stored created (ss, s) = (ss, s)) /\
  (blank (chatInput_value s) -> attachedFiles s = [] -> attachedDocs s = [] ->
   can_submit s = true -> dispatch Submit s = Some s) /\
  (~ blank (usernameInput_value ss) ->
   appLayout_hidden (fst (handleLogin true created (ss, s))) = false) /\
  (~ blank (chatInput_value s) -> can_submit s = true ->
   exists s', dispatch Submit s = Some s' /\
     (if chat s then submitting s' = Some (AwaitUserBubble (trim (chatInput_value s)))
      else log s' = log s ++ [EAddAiMessage not_initialized])).
Proof.
  split; [|split; [|split]].
  - intros H. unfold handleLogin. cbn [fst]. rewrite (trim_blank _ H). reflexivity.
  - intros H Hf Hd Hc. cbn [dispatch]. rewrite Hc. unfold handleChatFormSubmit.
    rewrite (trim_blank _ H), Hf, Hd. reflexivity.
  - intros H. unfold handleLogin. cbn [fst snd].
    destruct (String.eqb_spec (trim (usernameInput_value ss)) EmptyString) as [E|_].
    + apply trim_empty in E. contradiction.
    + reflexivity.
  - intros H Hc. cbn [dispatch]. rewrite Hc. eexists. split; [reflexivity|].
    unfold handleChatFormSubmit.
    destruct (String.eqb_spec (trim (chatInput_value s)) EmptyString) as [E|_].
    + apply trim_empty in E. contradiction.
    + cbn [andb]. destruct (chat s); reflexivity.
Qed.

Lemma blank_input_is_ignored_witness :
  handleLogin true true
    ({| localStorage := ∅; loginOverlay_hidden := false; appLayout_hidden := true;
        headerUsername_text := EmptyString;
        usernameInput_value := utf8 [32; 194; 160; 226; 128; 175; 9] |},
     page_loaded false false false false)
  = ({| localStorage := ∅; loginOverlay_hidden := false; appLayout_hidden := true;
        headerUsername_text := EmptyString;
        usernameInput_value := utf8 [32; 194; 160; 226; 128; 175; 9] |},
     page_loaded false false false false).
Proof.
  apply (proj1 (blank_input_is_ignored true true _ _)).
  apply all_space_blank. reflexivity.
Defined.
